(** * Ingestion sidecar: document-to-text extraction

    A shallow embedding of the extraction core of the ingestion service
    ([main.py] and the [extractors] package) together with the properties
    its specification states about it.

    Python values are modelled as follows.
    - [str] is a sequence of Unicode code points ([list N]); [bytes] is a
      sequence of octets.
    - The result dictionaries of the extractors have the three keys
      ["text"], ["page_count"] and ["metadata"], each of a fixed value
      type; which keys are present varies, so a result is a record of
      optional fields and [d.get(k, default)] is [default] on a field.
    - The third-party parsers (PyMuPDF, python-docx, openpyxl, python-pptx,
      nbformat, json, BeautifulSoup, Pillow, pytesseract) are an
      environment [Env] of functions from the raw input to either the
      parsed document or a raised exception; the extractors are written
      against the parsed documents exactly as the Python code traverses
      them.
    - Effects are kept in a small monad [M]: a trace of the events a call
      performs (log records, library calls, the dispatcher's call of an
      extractor) and an outcome that is a value or a raised exception. *)

From Stdlib Require Import Ascii String.
From stdpp Require Import base numbers list option strings gmap pretty.

Set Warnings "-register-all".

Local Open Scope Z_scope.
Local Open Scope list_scope.

(** ** Python strings *)

Abbreviation str := (list N).
Abbreviation bytes := (list N).

(** An ASCII literal as a [str]. *)
Definition u (s : string) : str :=
  (fun c => N_of_ascii c) <$> list_ascii_of_string s.

Definition nl : str := [10%N].
Definition tab : str := [9%N].

(** [str.isspace] on one code point: the characters CPython's
    [_PyUnicode_IsWhitespace] accepts. *)
Definition isspace (c : N) : bool :=
  ((9 <=? c) && (c <=? 13) || (28 <=? c) && (c <=? 32)
   || (c =? 133) || (c =? 160) || (c =? 5760)
   || (8192 <=? c) && (c <=? 8202)
   || (c =? 8232) || (c =? 8233) || (c =? 8239) || (c =? 8287)
   || (c =? 12288))%N.

Fixpoint lstrip (s : str) : str :=
  match s with
  | [] => []
  | c :: r => if isspace c then lstrip r else s
  end.

Definition rstrip (s : str) : str := reverse (lstrip (reverse s)).

(** [s.strip()] *)
Definition strip (s : str) : str := rstrip (lstrip s).

(** Truth value of a [str]: non-empty. *)
Definition truthy (s : str) : bool :=
  match s with [] => false | _ :: _ => true end.

(** [sep.join(parts)] *)
Fixpoint join (sep : str) (parts : list str) : str :=
  match parts with
  | [] => []
  | [p] => p
  | p :: ps => p ++ sep ++ join sep ps
  end.

(** [s.startswith(p)] *)
Fixpoint startswith (s p : str) {struct p} : bool :=
  match p, s with
  | [], _ => true
  | _ :: _, [] => false
  | c :: p', d :: s' => if decide (c = d) then startswith s' p' else false
  end.

(** [p in s] (substring test) *)
Fixpoint contains (s p : str) : bool :=
  startswith s p || match s with [] => false | _ :: s' => contains s' p end.

(** The offsets at which [p] occurs in [s], in increasing order. *)
Fixpoint occurrences_from (i : nat) (s p : str) : list nat :=
  (if startswith s p then [i] else []) ++
  match s with
  | [] => []
  | _ :: s' => occurrences_from (S i) s' p
  end.

Definition occurrences (s p : str) : list nat := occurrences_from 0 s p.

(** [s.split(sep)] for a one-character separator. *)
Fixpoint split_on (sep : N) (s : str) : list str :=
  match s with
  | [] => [[]]
  | c :: r =>
      if decide (c = sep) then [] :: split_on sep r
      else match split_on sep r with
           | [] => [[c]]
           | w :: ws => (c :: w) :: ws
           end
  end.

(** [s.split()]: the maximal runs of non-whitespace characters. *)
Fixpoint split_ws_go (cur : str) (s : str) : list str :=
  match s with
  | [] => if truthy cur then [reverse cur] else []
  | c :: r =>
      if isspace c
      then (if truthy cur then [reverse cur] else []) ++ split_ws_go [] r
      else split_ws_go (c :: cur) r
  end.

Definition split_ws (s : str) : list str := split_ws_go [] s.

(** [str(n)] for a non-negative integer. *)
Definition str_of_nat (n : nat) : str := u (pretty n).

(** ** Exceptions, events and the effect monad *)

(** The exception classes the code distinguishes: [except Exception]
    catches both, [except requests.RequestException] only the second. *)
Inductive exn_class := PyException | RequestException.

Record exn := Exn { exn_cls : exn_class; exn_str : str }.

Inductive outcome (A : Type) :=
| Return (a : A)
| Raise (e : exn).
Arguments Return {A} a.
Arguments Raise {A} e.

(** Calls into third-party libraries. *)
Inductive libfun :=
| fitz_open_ | fitz_doc_iter_ | fitz_page_get_text_ | fitz_doc_metadata_
| fitz_doc_close_
| docx_Document_ | openpyxl_load_workbook_ | pptx_Presentation_
| nbformat_reads_ | json_loads_ | bs4_BeautifulSoup_
| PILImage_open_ | PILImage_convert_ | pytesseract_image_to_string_
| requests_get_.

Inductive log_record :=
| LogExtractRequest (filename : option str) (mime : str) (size : option Z)
| LogDriveExtract (filename mime file_id : str)
| LogDownloaded (n : nat) (filename : str)
| LogExtracted (chars : nat) (page_count : Z) (filename : option str)
| LogExtractionFailed (filename : option str) (e : exn).

Inductive event :=
| EvLog (r : log_record)
| EvLib (f : libfun)
| EvCallExtractor (mime : str) (file_bytes : bytes) (filename : str).

Definition M (A : Type) : Type := list event * outcome A.

Definition ret {A} (a : A) : M A := ([], Return a).
Definition raise {A} (e : exn) : M A := ([], Raise e).
Definition emit (ev : event) : M unit := ([ev], Return tt).

Definition bind {A B} (m : M A) (k : A -> M B) : M B :=
  match m with
  | (t, Return a) => let '(t', r) := k a in (t ++ t', r)
  | (t, Raise e) => (t, Raise e)
  end.

(** [try: x = m  except Exception as e: h(e)  else: k(x)] *)
Definition try_except {A B} (m : M A) (h : exn -> M B) (k : A -> M B) : M B :=
  match m with
  | (t, Return a) => let '(t', r) := k a in (t ++ t', r)
  | (t, Raise e) => let '(t', r) := h e in (t ++ t', r)
  end.

(** A library call: recorded in the trace, outcome given by the library. *)
Definition call {A} (f : libfun) (r : outcome A) : M A := ([EvLib f], r).

Notation "x <- m ;; k" := (bind m (fun x => k))
  (at level 100, m at next level, right associativity).

Definition AttributeError (msg : str) : exn := Exn PyException msg.
Definition TypeError (msg : str) : exn := Exn PyException msg.

(** ** Extraction results *)

(** Values stored in a metadata dictionary. *)
Inductive mvalue :=
| MStr (s : str)
| MInt (n : Z)
| MNone.

(** The dictionary an extractor returns. *)
Record result_dict := ResultDict {
  r_text : option str;
  r_page_count : option Z;
  r_metadata : option (gmap string mvalue)
}.

(** ** Parsed documents *)

(** PyMuPDF: an open document, by what the strategy does with it after
    the open, each step of which can raise.  [pdf_pages] is [for page in
    doc]: the exception that iterating raises before the first page (a
    document that opened but is encrypted or closed), or the pages, each
    as what loading it and [page.get_text("text")] give.  [pdf_metadata]
    is [doc.metadata], [pdf_close] is [doc.close()]. *)
Record pdf_document := {
  pdf_pages : outcome (list (outcome str));
  pdf_metadata : outcome (option (gmap string mvalue));
  pdf_close : outcome unit
}.

(** python-docx: a body paragraph with its text and the name of its style. *)
Record docx_paragraph := {
  para_text : str;
  para_style_name : str
}.

(** A table is its rows, a row the texts of its cells. *)
Record docx_document := {
  docx_paragraphs : list docx_paragraph;
  docx_tables : list (list (list str))
}.

(** openpyxl, [read_only=True, data_only=True]: a cell is [None] or a value,
    kept as the string [str(v)] the extractor takes of it. *)
Record worksheet := {
  sheet_name : str;
  sheet_rows : list (list (option str))
}.

(** python-pptx.  [text_frame] is present iff [shape.has_text_frame] and
    holds the run texts of each paragraph; [table] is present iff
    [shape.has_table] and holds [cell.text_frame.text] of each cell. *)
Record pptx_shape := {
  text_frame : option (list (list str));
  table : option (list (list str))
}.

(** [notes_slide] is present iff [slide.has_notes_slide] and holds
    [notes_slide.notes_text_frame.text]. *)
Record pptx_slide := {
  slide_shapes : list pptx_shape;
  notes_slide : option str
}.

(** JSON values as Python objects ([json.loads], notebook nodes).  The
    pairs of a [JObj] are the items of a [dict], so keys are distinct. *)
Inductive json :=
| JNull
| JBool (b : bool)
| JInt (n : Z)
| JFloat (repr : str)
| JStr (s : str)
| JArr (items : list json)
| JObj (items : list (str * json)).

(** BeautifulSoup trees.  A string node is a plain [NavigableString], a
    [CData] section, or one of the other string classes (comments,
    doctypes, declarations) that [get_text] leaves out. *)
Inductive string_kind := PlainString | CDataString | OtherString.

Inductive node :=
| NavigableString (k : string_kind) (s : str)
| Tag (name : str) (children : list node).

(** Pillow images. *)
Record pil_image := {
  img_mode : str;
  img_width : Z;
  img_height : Z
}.

(** The answer of [requests.get]. *)
Record http_response := {
  status_code : Z;
  resp_text : str;
  resp_content : bytes
}.

(** ** The environment: third-party libraries and process-wide state *)

Record Env := {
  (** [b.decode("utf-8", errors="replace")] *)
  decode_utf8_replace : bytes -> str;
  (** [fitz.open(stream=b, filetype="pdf")] *)
  fitz_open : bytes -> outcome pdf_document;
  (** [from docx import Document; Document(io.BytesIO(b))] *)
  docx_Document : bytes -> outcome docx_document;
  (** [import openpyxl;
      openpyxl.load_workbook(io.BytesIO(b), read_only=True, data_only=True)],
      the sheets in the order of [wb.sheetnames] *)
  openpyxl_load_workbook : bytes -> outcome (list worksheet);
  (** [from pptx import Presentation; Presentation(io.BytesIO(b))], its
      [slides] *)
  pptx_Presentation : bytes -> outcome (list pptx_slide);
  (** [import nbformat; nbformat.reads(s, as_version=4).cells] *)
  nbformat_reads_cells : str -> outcome json;
  (** [json.loads(s)] *)
  json_loads : str -> outcome json;
  (** [from bs4 import BeautifulSoup]: [None] when the import fails;
      otherwise [BeautifulSoup(s, "lxml")] *)
  bs4_BeautifulSoup : option (str -> outcome node);
  (** [image.OCR_AVAILABLE], set once when the module is imported *)
  OCR_AVAILABLE : bool;
  (** [PIL.Image.open(io.BytesIO(b))] *)
  PILImage_open : bytes -> outcome pil_image;
  (** [img.convert("RGB")] *)
  PILImage_convert_RGB : pil_image -> outcome pil_image;
  (** [pytesseract.image_to_string(img, config="--psm 3")] *)
  pytesseract_image_to_string : pil_image -> outcome str;
  (** [requests.get(url, headers={"Authorization": auth}, timeout=120)] *)
  requests_get : str -> str -> outcome http_response
}.

(** ** extractors/pdf.py *)

Module pdf.

Definition PAGE_BREAK : str := nl ++ nl ++ u "---PAGE BREAK---" ++ nl ++ nl.

(** [for page in doc: ...] with [page_texts] as accumulator; a page that
    cannot be loaded or read raises out of the loop. *)
Fixpoint pages_loop (pages : list (outcome str)) (page_texts : list str)
  : M (list str) :=
  match pages with
  | [] => ret page_texts
  | page :: rest =>
      page_text <- call fitz_page_get_text_ page ;;
      if truthy (strip page_text)
      then pages_loop rest (page_texts ++ [page_text])
      else pages_loop rest page_texts
  end.

(** [meta.get(k, EMPTY)] with the empty string as default *)
Definition meta_get (meta : gmap string mvalue) (k : string) : mvalue :=
  default (MStr []) (meta !! k).

(** Only [fitz.open] stands inside the [try]: the page loop, the
    metadata and the close come after it, and what they raise leaves the
    function. *)
Definition extract (env : Env) (file_bytes : bytes) (filename : str)
  : M result_dict :=
  try_except (call fitz_open_ (fitz_open env file_bytes))
    (fun e =>
       ret {| r_text := Some (u "[PDF Error] Could not open " ++ filename
                                ++ u ": " ++ exn_str e);
              r_page_count := Some 0;
              r_metadata := None |})
    (fun doc =>
       pages <- call fitz_doc_iter_ (pdf_pages doc) ;;
       page_texts <- pages_loop pages [] ;;
       metadata <- call fitz_doc_metadata_ (pdf_metadata doc) ;;
       let meta := default ∅ metadata in
       _ <- call fitz_doc_close_ (pdf_close doc) ;;
       let full_text := join PAGE_BREAK page_texts in
       ret {| r_text := Some full_text;
              r_page_count := Some (Z.of_nat (length page_texts));
              r_metadata := Some (<["title" := meta_get meta "title"]>
                                 (<["author" := meta_get meta "author"]>
                                 (<["subject" := meta_get meta "subject"]> ∅)))
           |}).

End pdf.

(** ** extractors/office.py *)

Module office.

(** [for para in doc.paragraphs: ...] *)
Fixpoint docx_paragraphs_loop (paras : list docx_paragraph) (parts : list str)
  : list str :=
  match paras with
  | [] => parts
  | para :: rest =>
      let text := strip (para_text para) in
      if truthy text then
        if startswith (para_style_name para) (u "Heading")
        then docx_paragraphs_loop rest (parts ++ [nl ++ u "## " ++ text ++ nl])
        else docx_paragraphs_loop rest (parts ++ [text])
      else docx_paragraphs_loop rest parts
  end.

(** [for row in table.rows: ...], shared by the DOCX and PPTX tables:
    the cells stripped and joined by [" | "], blank rows skipped. *)
Fixpoint rows_loop (table_rows : list (list str)) (rows : list str) : list str :=
  match table_rows with
  | [] => rows
  | row :: rest =>
      let row_text := join (u " | ") (strip <$> row) in
      if truthy (strip row_text)
      then rows_loop rest (rows ++ [row_text])
      else rows_loop rest rows
  end.

(** [for table in doc.tables: ...] *)
Fixpoint docx_tables_loop (tables : list (list (list str))) (parts : list str)
  : list str :=
  match tables with
  | [] => parts
  | tbl :: rest =>
      let rows := rows_loop tbl [] in
      match rows with
      | [] => docx_tables_loop rest parts
      | _ :: _ => docx_tables_loop rest (parts ++ [nl ++ join nl rows ++ nl])
      end
  end.

Definition extract_docx (env : Env) (file_bytes : bytes) (filename : str)
  : M result_dict :=
  doc <- call docx_Document_ (docx_Document env file_bytes) ;;
  let parts := docx_paragraphs_loop (docx_paragraphs doc) [] in
  let parts := docx_tables_loop (docx_tables doc) parts in
  ret {| r_text := Some (join nl parts);
         r_page_count := Some 0;
         r_metadata := None |}.

(** [[str(v) for v in row if v is not None]] *)
Definition xlsx_cells (row : list (option str)) : list str :=
  omap id row.

(** [for row in ws.iter_rows(values_only=True): ...] *)
Fixpoint xlsx_rows_loop (rows : list (list (option str))) (parts : list str)
  : list str :=
  match rows with
  | [] => parts
  | row :: rest =>
      let cells := xlsx_cells row in
      match cells with
      | [] => xlsx_rows_loop rest parts
      | _ :: _ => xlsx_rows_loop rest (parts ++ [join tab cells])
      end
  end.

(** [for sheet_name in wb.sheetnames: ...] *)
Fixpoint xlsx_sheets_loop (sheets : list worksheet) (parts : list str)
  : list str :=
  match sheets with
  | [] => parts
  | ws :: rest =>
      let parts := parts ++ [nl ++ u "# Sheet: " ++ sheet_name ws ++ nl] in
      xlsx_sheets_loop rest (xlsx_rows_loop (sheet_rows ws) parts)
  end.

Definition extract_xlsx (env : Env) (file_bytes : bytes) (filename : str)
  : M result_dict :=
  wb <- call openpyxl_load_workbook_ (openpyxl_load_workbook env file_bytes) ;;
  let parts := xlsx_sheets_loop wb [] in
  ret {| r_text := Some (join nl parts);
         r_page_count := Some 0;
         r_metadata := None |}.

(** [for para in shape.text_frame.paragraphs: ...] *)
Fixpoint pptx_paragraphs_loop (paras : list (list str)) (slide_parts : list str)
  : list str :=
  match paras with
  | [] => slide_parts
  | runs :: rest =>
      let line := strip (concat runs) in
      if truthy line
      then pptx_paragraphs_loop rest (slide_parts ++ [line])
      else pptx_paragraphs_loop rest slide_parts
  end.

(** [for shape in slide.shapes: ...] *)
Fixpoint pptx_shapes_loop (shapes : list pptx_shape) (slide_parts : list str)
  : list str :=
  match shapes with
  | [] => slide_parts
  | shape :: rest =>
      let slide_parts :=
        match text_frame shape with
        | Some paras => pptx_paragraphs_loop paras slide_parts
        | None => slide_parts
        end in
      let slide_parts :=
        match table shape with
        | Some table_rows => rows_loop table_rows slide_parts
        | None => slide_parts
        end in
      pptx_shapes_loop rest slide_parts
  end.

(** The body of the slide loop up to the emptiness test: the header
    marker, the shapes, the speaker notes. *)
Definition pptx_slide_parts (slide_num : nat) (slide : pptx_slide) : list str :=
  let slide_parts := [nl ++ u "--- Slide " ++ str_of_nat slide_num ++ u " ---"] in
  let slide_parts := pptx_shapes_loop (slide_shapes slide) slide_parts in
  match notes_slide slide with
  | Some notes =>
      let notes_text := strip notes in
      if truthy notes_text
      then slide_parts ++ [u "[Notes] " ++ notes_text]
      else slide_parts
  | None => slide_parts
  end.

(** [for slide_num, slide in enumerate(prs.slides, start=1): ...] *)
Fixpoint pptx_slides_loop (slide_num : nat) (slides : list pptx_slide)
    (parts : list str) : list str :=
  match slides with
  | [] => parts
  | slide :: rest =>
      let slide_parts := pptx_slide_parts slide_num slide in
      if decide (1 < length slide_parts)%nat
      then pptx_slides_loop (S slide_num) rest (parts ++ slide_parts)
      else pptx_slides_loop (S slide_num) rest parts
  end.

Definition extract_pptx (env : Env) (file_bytes : bytes) (filename : str)
  : M result_dict :=
  slides <- call pptx_Presentation_ (pptx_Presentation env file_bytes) ;;
  let parts := pptx_slides_loop 1 slides [] in
  ret {| r_text := Some (join nl parts);
         r_page_count := Some (Z.of_nat (length slides));
         r_metadata := None |}.

End office.

(** ** extractors/notebook.py *)

Module notebook.

(** [type(v).__name__] *)
Definition type_name (v : json) : str :=
  match v with
  | JNull => u "NoneType"
  | JBool _ => u "bool"
  | JInt _ => u "int"
  | JFloat _ => u "float"
  | JStr _ => u "str"
  | JArr _ => u "list"
  | JObj _ => u "dict"
  end.

Fixpoint dict_get (items : list (str * json)) (k : str) : option json :=
  match items with
  | [] => None
  | (k', v) :: rest => if decide (k' = k) then Some v else dict_get rest k
  end.

(** [obj.get(k, d)]: only a [dict] has the method. *)
Definition py_get (obj : json) (k : str) (d : json) : M json :=
  match obj with
  | JObj items => ret (default d (dict_get items k))
  | _ => raise (AttributeError
                  (u "'" ++ type_name obj ++ u "' object has no attribute 'get'"))
  end.

(** The values a [for] loop over [v] visits. *)
Definition py_iter (v : json) : M (list json) :=
  match v with
  | JArr items => ret items
  | JObj items => ret ((fun kv => JStr (fst kv)) <$> items)
  | JStr s => ret ((fun c => JStr [c]) <$> s)
  | _ => raise (TypeError (u "'" ++ type_name v ++ u "' object is not iterable"))
  end.

(** [EMPTY.join(items)] on the empty string: every item has to be a
    [str]. *)
Fixpoint join_items (i : nat) (items : list json) : M str :=
  match items with
  | [] => ret []
  | JStr s :: rest => r <- join_items (S i) rest ;; ret (s ++ r)
  | v :: _ => raise (TypeError (u "sequence item " ++ str_of_nat i
                                  ++ u ": expected str instance, "
                                  ++ type_name v ++ u " found"))
  end.

(** [v.strip()]: only a [str] has the method. *)
Definition py_strip (v : json) : M str :=
  match v with
  | JStr s => ret (strip s)
  | _ => raise (AttributeError
                  (u "'" ++ type_name v ++ u "' object has no attribute 'strip'"))
  end.

(** [v == s] for a string literal [s] *)
Definition str_eq (v : json) (s : str) : bool :=
  match v with
  | JStr t => bool_decide (t = s)
  | _ => false
  end.

Definition FENCE_OPEN : str := nl ++ u "```python" ++ nl.
Definition FENCE_CLOSE : str := nl ++ u "```" ++ nl.

(** The body of the cell loop. *)
Definition cell_step (cell : json) (parts : list str) : M (list str) :=
  cell_type <- py_get cell (u "cell_type") (JStr []) ;;
  source <- py_get cell (u "source") (JStr []) ;;
  source <- match source with
            | JArr items => s <- join_items 0 items ;; ret (JStr s)
            | _ => ret source
            end ;;
  source <- py_strip source ;;
  if truthy source then
    if str_eq cell_type (u "markdown") then ret (parts ++ [source])
    else if str_eq cell_type (u "code")
         then ret (parts ++ [FENCE_OPEN ++ source ++ FENCE_CLOSE])
    else if str_eq cell_type (u "raw") then ret (parts ++ [source])
    else ret parts
  else ret parts.

(** [for idx, cell in enumerate(cells): ...] *)
Fixpoint cells_loop (cells : list json) (parts : list str) : M (list str) :=
  match cells with
  | [] => ret parts
  | cell :: rest => parts <- cell_step cell parts ;; cells_loop rest parts
  end.

(** The function from [parts = ...] on, once [cells] is bound. *)
Definition render (cells : json) (filename : str) : M result_dict :=
  let parts := [u "# Jupyter Notebook: " ++ filename ++ nl] in
  cells <- py_iter cells ;;
  parts <- cells_loop cells parts ;;
  ret {| r_text := Some (join (nl ++ nl) parts);
         r_page_count := Some 0;
         r_metadata := None |}.

Definition extract (env : Env) (file_bytes : bytes) (filename : str)
  : M result_dict :=
  try_except
    (call nbformat_reads_
       (nbformat_reads_cells env (decode_utf8_replace env file_bytes)))
    (fun _ =>
       try_except
         (raw <- call json_loads_
                   (json_loads env (decode_utf8_replace env file_bytes)) ;;
          py_get raw (u "cells") (JArr []))
         (fun e =>
            ret {| r_text := Some (u "[Notebook Error] Could not parse "
                                     ++ filename ++ u ": " ++ exn_str e);
                   r_page_count := Some 0;
                   r_metadata := None |})
         (fun cells => render cells filename))
    (fun cells => render cells filename).

End notebook.

(** ** extractors/html_extractor.py *)

Module html_extractor.

Definition NON_CONTENT : list str :=
  [u "script"; u "style"; u "nav"; u "footer"; u "header"; u "aside";
   u "noscript"].

Definition HEADINGS : list str :=
  [u "h1"; u "h2"; u "h3"; u "h4"; u "h5"; u "h6"].

(** The three characters and the space that open a list item line in
    the source file. *)
Definition BULLET : str := [226; 8364; 162; 32]%N.

(** [for tag in soup(names): tag.decompose()]: every tag with one of
    the names is taken out of the tree, with all it contains. *)
Fixpoint decompose_all (names : list str) (n : node) : node :=
  match n with
  | NavigableString k s => NavigableString k s
  | Tag name children =>
      Tag name
        ((fix go (l : list node) : list node :=
            match l with
            | [] => []
            | c :: r =>
                match c with
                | Tag cname _ =>
                    if bool_decide (cname ∈ names) then go r
                    else decompose_all names c :: go r
                | NavigableString _ _ => c :: go r
                end
            end) children)
  end.

(** [n.descendants]: everything below [n], in document order. *)
Fixpoint descendants (n : node) : list node :=
  match n with
  | NavigableString _ _ => []
  | Tag _ children =>
      (fix go (l : list node) : list node :=
         match l with
         | [] => []
         | c :: r => c :: descendants c ++ go r
         end) children
  end.

Definition is_tag_named (name : str) (n : node) : bool :=
  match n with
  | Tag name' _ => bool_decide (name' = name)
  | NavigableString _ _ => false
  end.

(** [n.find(name)]: the first descendant tag of that name. *)
Definition find (n : node) (name : str) : option node :=
  head (List.filter (is_tag_named name) (descendants n)).

(** The strings [get_text] collects with [strip=True]: plain strings and
    CDATA sections, stripped, the empty ones dropped. *)
Fixpoint stripped_strings (l : list node) : list str :=
  match l with
  | [] => []
  | NavigableString OtherString _ :: r => stripped_strings r
  | NavigableString _ s :: r =>
      if truthy (strip s) then strip s :: stripped_strings r
      else stripped_strings r
  | Tag _ _ :: r => stripped_strings r
  end.

(** [n.get_text(" ", strip=True)] *)
Definition get_text (n : node) : str :=
  join (u " ") (stripped_strings (descendants n)).

(** [for element in main.descendants: ...] *)
Fixpoint elements_loop (elements : list node) (lines : list str) : list str :=
  match elements with
  | [] => lines
  | element :: rest =>
      match element with
      | Tag name _ =>
          let text := get_text element in
          if bool_decide (name ∈ HEADINGS) then
            if truthy text
            then elements_loop rest (lines ++ [nl ++ u "## " ++ text ++ nl])
            else elements_loop rest lines
          else if bool_decide (name = u "p") then
            if truthy text
            then elements_loop rest (lines ++ [text])
            else elements_loop rest lines
          else if bool_decide (name = u "li") then
            if truthy text
            then elements_loop rest (lines ++ [BULLET ++ text])
            else elements_loop rest lines
          else if bool_decide (name = u "td") || bool_decide (name = u "th") then
            if truthy text
            then elements_loop rest (lines ++ [text])
            else elements_loop rest lines
          else elements_loop rest lines
      | NavigableString _ _ => elements_loop rest lines
      end
  end.

(** The loop under [# Deduplicate consecutive blank lines]. *)
Fixpoint dedup_loop (lines : list str) (prev_blank : bool) (result : list str)
  : list str :=
  match lines with
  | [] => result
  | line :: rest =>
      let is_blank := negb (truthy (strip line)) in
      if is_blank && prev_blank
      then dedup_loop rest prev_blank result
      else dedup_loop rest is_blank (result ++ [line])
  end.

(** The offset of the first [>] of [s]. *)
Fixpoint find_gt (s : str) : option nat :=
  match s with
  | [] => None
  | c :: r => if (c =? 62)%N then Some O else S <$> find_gt r
  end.

(** [re.sub(r"<[^>]+>", " ", s)].  At a [<] the pattern matches up to the
    first following [>], provided at least one character lies between;
    [skip] counts the characters of a match still to be passed over. *)
Fixpoint re_sub_go (skip : nat) (s : str) : str :=
  match s with
  | [] => []
  | c :: r =>
      match skip with
      | S k => re_sub_go k r
      | O =>
          if (c =? 60)%N then
            match find_gt r with
            | Some (S n) => 32%N :: re_sub_go (S (S n)) r
            | _ => c :: re_sub_go O r
            end
          else c :: re_sub_go O r
      end
  end.

Definition re_sub_tags (s : str) : str := re_sub_go O s.

(** The part of [extract] after the parse. *)
Definition extract_soup (soup : node) : result_dict :=
  let soup := decompose_all NON_CONTENT soup in
  let main :=
    match find soup (u "article") with
    | Some t => t
    | None =>
        match find soup (u "main") with
        | Some t => t
        | None =>
            match find soup (u "body") with
            | Some t => t
            | None => soup
            end
        end
    end in
  let lines := elements_loop (descendants main) [] in
  let result := dedup_loop lines false [] in
  {| r_text := Some (join nl result);
     r_page_count := Some 0;
     r_metadata := None |}.

Definition extract (env : Env) (file_bytes : bytes) (filename : str)
  : M result_dict :=
  match bs4_BeautifulSoup env with
  | None =>
      let text := re_sub_tags (decode_utf8_replace env file_bytes) in
      let text := join (u " ") (split_ws text) in
      ret {| r_text := Some text; r_page_count := Some 0; r_metadata := None |}
  | Some BeautifulSoup =>
      let html_text := decode_utf8_replace env file_bytes in
      soup <- call bs4_BeautifulSoup_ (BeautifulSoup html_text) ;;
      ret (extract_soup soup)
  end.

End html_extractor.

(** ** extractors/image.py *)

Module image.

Definition NO_OCR_TEXT (filename : str) : str :=
  u "[Image] " ++ filename ++ nl
  ++ u "OCR not available on this server (Tesseract not installed)." ++ nl
  ++ u "Install tesseract-ocr to enable full text extraction from images.".

(** [" — "], with the dash of the source file. *)
Definition DASH : str := [32; 8212; 32]%N.

Definition extract (env : Env) (file_bytes : bytes) (filename : str)
  : M result_dict :=
  if negb (OCR_AVAILABLE env) then
    ret {| r_text := Some (NO_OCR_TEXT filename);
           r_page_count := Some 0;
           r_metadata := None |}
  else
    try_except
      (img <- call PILImage_open_ (PILImage_open env file_bytes) ;;
       img <- (if bool_decide (img_mode img ∈ [u "RGB"; u "L"]) then ret img
               else call PILImage_convert_ (PILImage_convert_RGB env img)) ;;
       text <- call pytesseract_image_to_string_
                 (pytesseract_image_to_string env img) ;;
       let text := strip text in
       if truthy text then
         ret {| r_text := Some (u "[Image: " ++ filename ++ u "]" ++ nl ++ nl
                                 ++ text);
                r_page_count := Some 0;
                r_metadata := Some (<["width" := MInt (img_width img)]>
                                   (<["height" := MInt (img_height img)]> ∅)) |}
       else
         ret {| r_text := Some (u "[Image] " ++ filename ++ nl
                                 ++ u "No text detected by OCR.");
                r_page_count := Some 0;
                r_metadata := None |})
      (fun e =>
         ret {| r_text := Some (u "[Image] " ++ filename ++ DASH
                                 ++ u "OCR failed: " ++ exn_str e);
                r_page_count := Some 0;
                r_metadata := None |})
      ret.

End image.

(** ** main.py *)

Module main.

Record ExtractResponse := {
  text : str;
  page_count : Z;
  metadata : gmap string mvalue
}.

(** The uploaded file: the size the framework reports and what
    [await file.read()] gives. *)
Record UploadFile := {
  file_size : option Z;
  file_content : bytes
}.

Record DriveExtractRequest := {
  req_file_id : str;
  req_access_token : str;
  req_mime_type : str;
  req_filename : str
}.

(** How a request ends: the response model, an [HTTPException] with its
    status code and detail, or an exception no handler caught. *)
Inductive http_result :=
| OK (r : ExtractResponse)
| HTTPException (status : Z) (detail : str)
| Unhandled (e : exn).

Definition MIME_PDF : str := u "application/pdf".
Definition MIME_DOCX : str :=
  u "application/vnd.openxmlformats-officedocument.wordprocessingml.document".
Definition MIME_XLSX : str :=
  u "application/vnd.openxmlformats-officedocument.spreadsheetml.sheet".
Definition MIME_PPTX : str :=
  u "application/vnd.openxmlformats-officedocument.presentationml.presentation".

(** [EXTRACTORS]: MIME type to extractor function. *)
Definition EXTRACTORS_items (env : Env)
  : list (str * (bytes -> str -> M result_dict)) :=
  [ (MIME_PDF, pdf.extract env);
    (MIME_DOCX, office.extract_docx env);
    (MIME_XLSX, office.extract_xlsx env);
    (MIME_PPTX, office.extract_pptx env);
    (u "application/json", notebook.extract env);
    (u "application/x-ipynb+json", notebook.extract env);
    (u "application/vnd.google.colaboratory", notebook.extract env);
    (u "text/html", html_extractor.extract env);
    (u "image/jpeg", image.extract env);
    (u "image/png", image.extract env);
    (u "image/webp", image.extract env);
    (u "image/gif", image.extract env);
    (u "image/tiff", image.extract env);
    (u "image/bmp", image.extract env) ].

Definition EXTRACTORS (env : Env) : gmap str (bytes -> str -> M result_dict) :=
  list_to_map (EXTRACTORS_items env).

(** [filename or "unknown"] *)
Definition filename_or_unknown (filename : option str) : str :=
  match filename with
  | Some (c :: r) => c :: r
  | _ => u "unknown"
  end.

(** The [try] block shared by both endpoints: call the extractor, read
    the three keys of its result with their defaults, build the
    response; any exception becomes a 500. *)
Definition run_extractor (mime_type : str)
    (extractor_fn : bytes -> str -> M result_dict)
    (file_bytes : bytes) (filename : str) (log_name : option str)
  : list event * http_result :=
  let '(t, r) := (_ <- emit (EvCallExtractor mime_type file_bytes filename) ;;
                  extractor_fn file_bytes filename) in
  match r with
  | Return result =>
      let text := strip (default [] (r_text result)) in
      let page_count := default 0 (r_page_count result) in
      let metadata := default ∅ (r_metadata result) in
      (t ++ [EvLog (LogExtracted (length text) page_count log_name)],
       OK {| text := text; page_count := page_count; metadata := metadata |})
  | Raise exc =>
      (t ++ [EvLog (LogExtractionFailed log_name exc)],
       HTTPException 500 (u "Extraction error: " ++ take 300 (exn_str exc)))
  end.

(** [POST /extract] *)
Definition extract (env : Env) (file : UploadFile) (mime_type : str)
    (filename : option str) : list event * http_result :=
  let t0 := [EvLog (LogExtractRequest filename mime_type (file_size file))] in
  match EXTRACTORS env !! mime_type with
  | None =>
      (t0, HTTPException 415 (u "Unsupported MIME type: " ++ mime_type))
  | Some extractor_fn =>
      let file_bytes := file_content file in
      match file_bytes with
      | [] => (t0, HTTPException 400 (u "Empty file"))
      | _ :: _ =>
          let '(t, r) := run_extractor mime_type extractor_fn file_bytes
                           (filename_or_unknown filename) filename in
          (t0 ++ t, r)
      end
  end.

(** [POST /extract-from-drive] *)
Definition extract_from_drive (env : Env) (req : DriveExtractRequest)
  : list event * http_result :=
  let t0 := [EvLog (LogDriveExtract (req_filename req) (req_mime_type req)
                      (req_file_id req))] in
  match EXTRACTORS env !! req_mime_type req with
  | None =>
      (t0, HTTPException 415
             (u "Unsupported MIME type: " ++ req_mime_type req))
  | Some extractor_fn =>
      let drive_url := u "https://www.googleapis.com/drive/v3/files/"
                         ++ req_file_id req ++ u "?alt=media" in
      let auth := u "Bearer " ++ req_access_token req in
      match requests_get env drive_url auth with
      | Raise e =>
          match exn_cls e with
          | RequestException =>
              (t0 ++ [EvLib requests_get_],
               HTTPException 502 (u "Drive download error: " ++ exn_str e))
          | PyException => (t0 ++ [EvLib requests_get_], Unhandled e)
          end
      | Return resp =>
          if bool_decide (status_code resp ≠ 200) then
            (t0 ++ [EvLib requests_get_],
             HTTPException 502
               (u "Drive download failed: " ++ u (pretty (status_code resp))
                  ++ u " " ++ take 200 (resp_text resp)))
          else
            let file_bytes := resp_content resp in
            let t1 := [EvLib requests_get_;
                       EvLog (LogDownloaded (length file_bytes)
                                (req_filename req))] in
            let '(t, r) := run_extractor (req_mime_type req) extractor_fn
                             file_bytes (req_filename req)
                             (Some (req_filename req)) in
            (t0 ++ t1 ++ t, r)
      end
  end.

End main.

(** ** Vocabulary of the specification *)

(** A string is blank when it holds whitespace only. *)
Definition is_blank (s : str) : bool := forallb isspace s.

(** The longest run of consecutive blank lines among [lines], with [cur]
    the length of the run that ends just before them. *)
Fixpoint max_blank_run_go (cur : nat) (lines : list str) : nat :=
  match lines with
  | [] => cur
  | line :: rest =>
      if is_blank line
      then max_blank_run_go (S cur) rest
      else Nat.max cur (max_blank_run_go O rest)
  end.

(** The longest run of consecutive blank lines of a text. *)
Definition max_blank_run (text : str) : nat :=
  max_blank_run_go O (split_on 10%N text).

(** The service-level failures, as the HTTP layer reports them. *)
Definition UnsupportedType (mime : str) : main.http_result :=
  main.HTTPException 415 (u "Unsupported MIME type: " ++ mime).

Definition EmptyInput : main.http_result :=
  main.HTTPException 400 (u "Empty file").

Definition ExtractionFailed (diagnostic : str) : main.http_result :=
  main.HTTPException 500 (u "Extraction error: " ++ diagnostic).

(** An event that belongs to the run of a strategy: the dispatcher's
    call of it, or a library call made by it. *)
Definition is_strategy_event (ev : event) : bool :=
  match ev with
  | EvCallExtractor _ _ _ | EvLib _ => true
  | EvLog _ => false
  end.

Definition no_strategy_invoked (t : list event) : Prop :=
  Forall (fun ev => is_strategy_event ev = false) t.

(** The Office parser in charge of [mime] raises [e] on [b]. *)
Definition office_parse_raises (env : Env) (mime : str) (b : bytes) (e : exn)
  : Prop :=
  (mime = main.MIME_DOCX /\ docx_Document env b = Raise e)
  \/ (mime = main.MIME_XLSX /\ openpyxl_load_workbook env b = Raise e)
  \/ (mime = main.MIME_PPTX /\ pptx_Presentation env b = Raise e).

(** The marker line inside the page separator. *)
Definition PAGE_BREAK_MARKER : str := u "---PAGE BREAK---".

(** The MIME keys whose strategies never set the ["metadata"] key. *)
Definition MIME_WITHOUT_METADATA : list str :=
  [ main.MIME_DOCX; main.MIME_XLSX; main.MIME_PPTX;
    u "application/json"; u "application/x-ipynb+json";
    u "application/vnd.google.colaboratory"; u "text/html" ].

(** ** A sample environment

    Concrete libraries on which the statements below are exercised.  Each
    parser recognises a few inputs and raises on the rest. *)

(** A decoder that is right on ASCII input. *)
Definition ascii_decode (b : bytes) : str :=
  (fun c => if (c <? 128)%N then c else 65533%N) <$> b.

Definition sample_error (msg : string) : exn := Exn PyException (u msg).

(** A document that opens and is read to the end: every page loads and
    gives its text, the metadata is there, the close returns. *)
Definition pdf_readable (texts : list str)
    (meta : option (gmap string mvalue)) : pdf_document :=
  {| pdf_pages := Return (Return <$> texts);
     pdf_metadata := Return meta;
     pdf_close := Return tt |}.

(** The library calls of the strategy on a readable document of [pages]
    pages. *)
Definition pdf_read_events (pages : nat) : list event :=
  [EvLib fitz_open_; EvLib fitz_doc_iter_]
  ++ replicate pages (EvLib fitz_page_get_text_)
  ++ [EvLib fitz_doc_metadata_; EvLib fitz_doc_close_].



Definition two_page_pdf : pdf_document :=
  pdf_readable [u "Hello"; u "World"] None.

Definition blank_page_pdf : pdf_document :=
  pdf_readable [u "  " ++ nl ++ tab] None.

(** The text of a page that shows [a], the marker line and [b] on three
    lines, and a second page. *)
Definition marker_line_pdf : pdf_document :=
  pdf_readable [u "a" ++ nl ++ PAGE_BREAK_MARKER ++ nl ++ u "b" ++ nl;
                u "c" ++ nl] None.

(** An encrypted document: [fitz.open] returns it, and the first access
    to its pages raises [ValueError]. *)
Definition encrypted_pdf : pdf_document :=
  {| pdf_pages := Raise (sample_error "document closed or encrypted");
     pdf_metadata := Return None;
     pdf_close := Return tt |}.

(** A document whose second page cannot be read. *)
Definition damaged_page_pdf : pdf_document :=
  {| pdf_pages := Return [Return (u "Hello");
                          Raise (sample_error "cannot load page")];
     pdf_metadata := Return None;
     pdf_close := Return tt |}.

Definition sample_fitz_open (b : bytes) : outcome pdf_document :=
  if bool_decide (b = u "%PDF two pages") then Return two_page_pdf
  else if bool_decide (b = u "%PDF blank page") then Return blank_page_pdf
  else if bool_decide (b = u "%PDF marker line") then Return marker_line_pdf
  else if bool_decide (b = u "%PDF encrypted") then Return encrypted_pdf
  else if bool_decide (b = u "%PDF damaged page") then Return damaged_page_pdf
  else Raise (sample_error "Failed to open stream").

(** Three slides: a title, nothing at all, a table and speaker notes. *)
Definition sample_slides : list pptx_slide :=
  [ {| slide_shapes := [ {| text_frame := Some [[u "Intro"]]; table := None |} ];
       notes_slide := None |};
    {| slide_shapes := [ {| text_frame := Some [[u "  "]; []]; table := None |} ];
       notes_slide := Some (u " ") |};
    {| slide_shapes := [ {| text_frame := None;
                            table := Some [[u "a"; u "b"]; [[]; u " "]] |} ];
       notes_slide := Some (u "say hello") |} ].

Definition sample_pptx_Presentation (b : bytes) : outcome (list pptx_slide) :=
  if bool_decide (b = u "PK pptx") then Return sample_slides
  else Raise (sample_error "Package not found").

Definition sample_docx_Document (b : bytes) : outcome docx_document :=
  if bool_decide (b = u "PK docx")
  then Return {| docx_paragraphs :=
                   [ {| para_text := u "Title"; para_style_name := u "Heading 1" |};
                     {| para_text := u "Body"; para_style_name := u "Normal" |} ];
                 docx_tables := [] |}
  else Raise (sample_error "Package not found").

Definition sample_load_workbook (b : bytes) : outcome (list worksheet) :=
  if bool_decide (b = u "PK xlsx")
  then Return [ {| sheet_name := u "Sheet1";
                   sheet_rows := [[Some (u "1"); None; Some (u "x")]; [None]] |} ]
  else Raise (sample_error "File is not a zip file").

(** A notebook with an empty cell, a code cell, a markdown cell given as
    fragments and a raw cell. *)
Definition sample_cells : list json :=
  [ JObj [(u "cell_type", JStr (u "code")); (u "source", JArr [])];
    JObj [(u "cell_type", JStr (u "code")); (u "source", JStr (u "print(1)"))];
    JObj [(u "cell_type", JStr (u "markdown"));
          (u "source", JArr [JStr (u "# Title" ++ nl); JStr (u "text" ++ nl)])];
    JObj [(u "source", JStr (u "raw text")); (u "cell_type", JStr (u "raw"))] ].

(** One markdown cell whose source is an indented line. *)
Definition indented_cells : list json :=
  [ JObj [(u "cell_type", JStr (u "markdown"));
          (u "source", JStr (u "    x = 1" ++ nl))] ].

Definition sample_json_loads (s : str) : outcome json :=
  if bool_decide (s = u "{notebook}")
  then Return (JObj [(u "cells", JArr sample_cells)])
  else if bool_decide (s = u "{indented}")
  then Return (JObj [(u "cells", JArr indented_cells)])
  else Raise (sample_error "Expecting value: line 1 column 1 (char 0)").

Definition text_node (s : string) : node := NavigableString PlainString (u s).

(** What the lxml parser makes of
    [<script>alert(1)</script><p>Hello</p>]. *)
Definition script_and_paragraph_soup : node :=
  Tag (u "[document]")
    [ Tag (u "html")
        [ Tag (u "head") [ Tag (u "script") [text_node "alert(1)"] ];
          Tag (u "body") [ Tag (u "p") [text_node "Hello"] ] ] ].

(** What the lxml parser makes of [<h1>A</h1><h2>B</h2>]. *)
Definition two_headings_soup : node :=
  Tag (u "[document]")
    [ Tag (u "html")
        [ Tag (u "body")
            [ Tag (u "h1") [text_node "A"]; Tag (u "h2") [text_node "B"] ] ] ].

Definition SCRIPT_AND_PARAGRAPH : str := u "<script>alert(1)</script><p>Hello</p>".
Definition TWO_HEADINGS : str := u "<h1>A</h1><h2>B</h2>".

Definition sample_BeautifulSoup (s : str) : outcome node :=
  if bool_decide (s = SCRIPT_AND_PARAGRAPH) then Return script_and_paragraph_soup
  else if bool_decide (s = TWO_HEADINGS) then Return two_headings_soup
  else Return (Tag (u "[document]") [NavigableString PlainString s]).

Definition sample_env_with (bs4 : option (str -> outcome node)) (ocr : bool)
  : Env :=
  {| decode_utf8_replace := ascii_decode;
     fitz_open := sample_fitz_open;
     docx_Document := sample_docx_Document;
     openpyxl_load_workbook := sample_load_workbook;
     pptx_Presentation := sample_pptx_Presentation;
     nbformat_reads_cells := fun _ => Raise (sample_error "No module named 'nbformat'");
     json_loads := sample_json_loads;
     bs4_BeautifulSoup := bs4;
     OCR_AVAILABLE := ocr;
     PILImage_open := fun _ => Raise (sample_error "cannot identify image file");
     PILImage_convert_RGB := fun img => Return img;
     pytesseract_image_to_string := fun _ => Return [];
     requests_get := fun _ _ => Raise (Exn RequestException (u "timed out")) |}.

(** Everything installed except the OCR toolchain. *)
Definition sample_env : Env := sample_env_with (Some sample_BeautifulSoup) false.

(** The same without the HTML parsing library. *)
Definition sample_env_without_bs4 : Env := sample_env_with None false.

Definition upload (b : bytes) : main.UploadFile :=
  {| main.file_size := Some (Z.of_nat (length b)); main.file_content := b |}.

(** ** Slides and notebook cells, as the specification describes them *)

(** The header marker of slide [n]. *)
Definition slide_header (n : nat) : str :=
  nl ++ u "--- Slide " ++ str_of_nat n ++ u " ---".

(** What slide number [n] adds to the output: header and content when
    there is content, nothing otherwise. *)
Definition slide_output (n : nat) (slide : pptx_slide) : list str :=
  match office.pptx_slide_parts n slide with
  | header :: (_ :: _) as content => header :: content
  | _ => []
  end.

Definition json_str (v : json) : option str :=
  match v with
  | JStr s => Some s
  | _ => None
  end.

(** The source of a notebook cell as one string: a string as it is, a
    sequence of fragments concatenated, the empty string when the cell has
    no source.  Other shapes have no source. *)
Definition cell_source (cell : json) : option str :=
  match cell with
  | JObj items =>
      match default (JStr []) (notebook.dict_get items (u "source")) with
      | JStr s => Some s
      | JArr fragments => (fun l => concat l) <$> mapM json_str fragments
      | _ => None
      end
  | _ => None
  end.

Definition cell_type (cell : json) : json :=
  match cell with
  | JObj items => default (JStr []) (notebook.dict_get items (u "cell_type"))
  | _ => JStr []
  end.

Definition has_type (cell : json) (t : string) : bool :=
  notebook.str_eq (cell_type cell) (u t).

(** A code cell's source inside its fence. *)
Definition fenced (source : str) : str :=
  nl ++ u "```python" ++ nl ++ source ++ nl ++ u "```" ++ nl.

(** What a cell adds to the output, read off the specification: nothing
    for a blank source; the stripped source as it is for a markdown or raw
    cell; the stripped source in a fence for a code cell; nothing for any
    other type. *)
Definition cell_output (cell : json) : list str :=
  match cell_source cell with
  | Some s =>
      if is_blank s then []
      else if has_type cell "markdown" || has_type cell "raw" then [strip s]
      else if has_type cell "code" then [fenced (strip s)]
      else []
  | None => []
  end.

(** The byte buffer parses as a notebook with the given cells, by the
    schema-aware parser or, when that one fails, as plain JSON. *)
Definition parses_as_notebook (env : Env) (b : bytes) (cells : list json)
  : Prop :=
  nbformat_reads_cells env (decode_utf8_replace env b) = Return (JArr cells)
  \/ (exists e items,
        nbformat_reads_cells env (decode_utf8_replace env b) = Raise e
        /\ json_loads env (decode_utf8_replace env b) = Return (JObj items)
        /\ default (JArr []) (notebook.dict_get items (u "cells")) = JArr cells).

(** ** HTML trees *)

(** Induction on trees, with the hypothesis available for every child. *)
Fixpoint node_tree_ind (P : node -> Prop)
    (Hstring : forall k s, P (NavigableString k s))
    (Htag : forall name children, Forall P children -> P (Tag name children))
    (n : node) : P n :=
  match n with
  | NavigableString k s => Hstring k s
  | Tag name children =>
      Htag name children
        ((fix go (l : list node) : Forall P l :=
            match l with
            | [] => List.Forall_nil P
            | c :: r =>
                List.Forall_cons P c r (node_tree_ind P Hstring Htag c) (go r)
            end) children)
  end.

(** What [decompose_all] leaves of one child: nothing of a tag with one
    of the names, the pruned tag otherwise, a string as it is. *)
Definition kept (names : list str) (c : node) : list node :=
  match c with
  | Tag cname _ =>
      if bool_decide (cname ∈ names) then []
      else [html_extractor.decompose_all names c]
  | NavigableString _ _ => [c]
  end.

(** Two trees that differ at most inside non-content elements: where one
    has a script, style, nav, footer, header, aside or noscript element
    the other has one too, with any content whatever. *)
Inductive agree_outside_non_content : node -> node -> Prop :=
| agree_string k s :
    agree_outside_non_content (NavigableString k s) (NavigableString k s)
| agree_non_content name1 children1 name2 children2 :
    name1 ∈ html_extractor.NON_CONTENT ->
    name2 ∈ html_extractor.NON_CONTENT ->
    agree_outside_non_content (Tag name1 children1) (Tag name2 children2)
| agree_tag name children1 children2 :
    Forall2 agree_outside_non_content children1 children2 ->
    agree_outside_non_content (Tag name children1) (Tag name children2).

(** The tags among the nodes [l] carry none of the names. *)
Definition free_of (names : list str) (l : list node) : Prop :=
  forall name children, Tag name children ∈ l -> name ∉ names.

(** The sample document with other code in its script element. *)
Definition other_script_soup : node :=
  Tag (u "[document]")
    [ Tag (u "html")
        [ Tag (u "head")
            [ Tag (u "script")
                [text_node "document.write('<p>Bye</p>')"; Tag (u "b") []] ];
          Tag (u "body") [ Tag (u "p") [text_node "Hello"] ] ] ].

(** The blank-line filter of the HTML strategy without its accumulator:
    a blank entry is dropped when the entry before it was blank. *)
Fixpoint collapse_blank (lines : list str) (prev_blank : bool) : list str :=
  match lines with
  | [] => []
  | line :: rest =>
      if is_blank line && prev_blank then collapse_blank rest prev_blank
      else line :: collapse_blank rest (is_blank line)
  end.

(** The lines the HTML strategy collects for a tree, before the filter. *)
Definition html_lines (soup : node) : list str :=
  let soup := html_extractor.decompose_all html_extractor.NON_CONTENT soup in
  let main :=
    match html_extractor.find soup (u "article") with
    | Some t => t
    | None =>
        match html_extractor.find soup (u "main") with
        | Some t => t
        | None =>
            match html_extractor.find soup (u "body") with
            | Some t => t
            | None => soup
            end
        end
    end in
  html_extractor.elements_loop (html_extractor.descendants main) [].

(** ** Further vocabulary: what each loop adds per item *)

(** The text of a table row: the cells stripped and joined by [" | "]. *)
Definition row_text (row : list str) : str := join (u " | ") (strip <$> row).

(** What a DOCX body paragraph adds to the parts. *)
Definition docx_paragraph_part (para : docx_paragraph) : list str :=
  if is_blank (para_text para) then []
  else if startswith (para_style_name para) (u "Heading")
       then [nl ++ u "## " ++ strip (para_text para) ++ nl]
       else [strip (para_text para)].

(** What a DOCX table adds to the parts. *)
Definition docx_table_part (tbl : list (list str)) : list str :=
  match List.filter (fun r => negb (is_blank (row_text r))) tbl with
  | [] => []
  | kept_rows => [nl ++ join nl (row_text <$> kept_rows) ++ nl]
  end.

(** What a worksheet adds to the parts: its header, then one entry for
    every row that has a value. *)
Definition sheet_part (ws : worksheet) : list str :=
  (nl ++ u "# Sheet: " ++ sheet_name ws ++ nl)
    :: (join tab <$> List.filter (fun cells => negb (bool_decide (cells = [])))
                       (office.xlsx_cells <$> sheet_rows ws)).

(** What a shape adds to the parts of its slide: the non-blank paragraphs
    of its text frame, then the rows of its table. *)
Definition shape_part (shape : pptx_shape) : list str :=
  match text_frame shape with
  | Some paras =>
      List.filter (fun line => negb (is_blank line))
        ((fun runs => strip (concat runs)) <$> paras)
  | None => []
  end
  ++ match table shape with
     | Some table_rows =>
         List.filter (fun t => negb (is_blank t)) (row_text <$> table_rows)
     | None => []
     end.

(** What the speaker notes add to the parts of their slide. *)
Definition notes_part (slide : pptx_slide) : list str :=
  match notes_slide slide with
  | Some notes => if is_blank notes then [] else [u "[Notes] " ++ strip notes]
  | None => []
  end.

(** ** Further vocabulary: traces *)

(** The number of extractor calls in a trace. *)
Fixpoint count_extractor_calls (t : list event) : nat :=
  match t with
  | [] => O
  | EvCallExtractor _ _ _ :: r => S (count_extractor_calls r)
  | _ :: r => count_extractor_calls r
  end.

Definition is_lib_event (ev : event) : bool :=
  match ev with
  | EvLib _ => true
  | _ => false
  end.

(** The MIME keys routed to the image strategy and to the notebook
    strategy. *)
Definition IMAGE_MIME_TYPES : list str :=
  [u "image/jpeg"; u "image/png"; u "image/webp"; u "image/gif";
   u "image/tiff"; u "image/bmp"].

Definition NOTEBOOK_MIME_TYPES : list str :=
  [u "application/json"; u "application/x-ipynb+json";
   u "application/vnd.google.colaboratory"].

(** A character no key of the registry contains: an upper-case letter, a
    space or a semicolon. *)
Definition outside_registry_alphabet (c : N) : bool :=
  ((65 <=? c) && (c <=? 90) || (c =? 32) || (c =? 59))%N.

(** ** main.py: the health endpoint *)

Record HealthResponse := {
  health_status : str;
  health_supported_types : list str;
  health_ocr_available : bool
}.

(** [GET /health].  [list(EXTRACTORS.keys())] is the keys of the dictionary
    literal in the order they are written, all distinct. *)
Definition health (env : Env) : HealthResponse :=
  {| health_status := u "ok";
     health_supported_types := (main.EXTRACTORS_items env).*1;
     health_ocr_available := OCR_AVAILABLE env |}.

(** A trace of library calls only. *)
Definition lib_only (t : list event) : Prop :=
  Forall (fun ev => is_lib_event ev = true) t.

(** The HTTP status of an answer: 200 for a response. *)
Definition status_of (r : main.http_result) : option Z :=
  match r with
  | main.OK _ => Some 200%Z
  | main.HTTPException status _ => Some status
  | main.Unhandled _ => None
  end.

(** The URL and the authorisation header of the Drive download. *)
Definition drive_url (req : main.DriveExtractRequest) : str :=
  u "https://www.googleapis.com/drive/v3/files/" ++ main.req_file_id req
    ++ u "?alt=media".

Definition drive_auth (req : main.DriveExtractRequest) : str :=
  u "Bearer " ++ main.req_access_token req.

(** The message of the [AttributeError] Python raises for [v.name] when
    [v] has no such attribute. *)
Definition no_attribute (v : json) (name : string) : exn :=
  AttributeError (u "'" ++ notebook.type_name v ++ u "' object has no attribute '"
                    ++ u name ++ u "'").

Definition is_object (v : json) : bool :=
  match v with
  | JObj _ => true
  | _ => false
  end.

(** A word: at least one character, none of them whitespace. *)
Definition is_word (w : str) : Prop :=
  w <> [] /\ Forall (fun c => isspace c = false) w.

(** Two trees that are the same up to the level of their headings: where
    one has an [h1] ... [h6] element the other has a heading element of
    any level, over the same content. *)
Inductive same_up_to_heading_level : node -> node -> Prop :=
| heading_string k s :
    same_up_to_heading_level (NavigableString k s) (NavigableString k s)
| heading_same_tag name children1 children2 :
    Forall2 same_up_to_heading_level children1 children2 ->
    same_up_to_heading_level (Tag name children1) (Tag name children2)
| heading_other_level name1 name2 children1 children2 :
    name1 ∈ html_extractor.HEADINGS ->
    name2 ∈ html_extractor.HEADINGS ->
    Forall2 same_up_to_heading_level children1 children2 ->
    same_up_to_heading_level (Tag name1 children1) (Tag name2 children2).

(** The sample document of two headings with other levels. *)
Definition two_headings_other_levels_soup : node :=
  Tag (u "[document]")
    [ Tag (u "html")
        [ Tag (u "body")
            [ Tag (u "h3") [text_node "A"]; Tag (u "h6") [text_node "B"] ] ] ].

(** The first exception in a sequence of outcomes. *)
Fixpoint first_raise {A} (l : list (outcome A)) : option exn :=
  match l with
  | [] => None
  | Return _ :: rest => first_raise rest
  | Raise e :: _ => Some e
  end.

(** The exception that reading an open document ends in, if any: the
    steps in the order of the strategy are the access to the pages, the
    pages one by one, the metadata, the close. *)
Definition pdf_read_failure (doc : pdf_document) : option exn :=
  match pdf_pages doc with
  | Raise e => Some e
  | Return pages =>
      match first_raise pages with
      | Some e => Some e
      | None =>
          match pdf_metadata doc with
          | Raise e => Some e
          | Return _ =>
              match pdf_close doc with
              | Raise e => Some e
              | Return _ => None
              end
          end
      end
  end.

(** * Properties *)

(** ** Tactics *)

(** Replaces the strategy found in the registry, as hypothesis [H] has it,
    by the function [f] the registry holds at that key. *)
Ltac registry_entry H f :=
  match type of H with
  | _ = Some ?s =>
      let E := fresh "E" in
      assert (E : Some s = Some f) by (rewrite <- H; reflexivity);
      injection E as ->; clear H
  end.

(** Closed decidable propositions, by evaluation. *)
Ltac decide_closed := apply (bool_decide_unpack _); vm_compute; exact I.

(** ** Strings *)

Lemma lstrip_blank s : is_blank s = true -> lstrip s = [].
Proof.
  induction s as [|c r IH]; simpl; [done|].
  intros [Hc Hr]%andb_prop. rewrite Hc. auto.
Qed.

Lemma is_blank_app s t : is_blank (s ++ t) = is_blank s && is_blank t.
Proof. apply forallb_app. Qed.

Lemma is_blank_reverse s : is_blank (reverse s) = is_blank s.
Proof.
  induction s as [|c r IH]; [done|].
  rewrite reverse_cons, is_blank_app, IH. simpl.
  rewrite andb_true_r. apply andb_comm.
Qed.

Lemma lstrip_is_blank s : is_blank (lstrip s) = is_blank s.
Proof.
  induction s as [|c r IH]; simpl; [done|].
  destruct (isspace c) eqn:Hc; simpl; [done|]. by rewrite Hc.
Qed.

Lemma truthy_not_blank s : is_blank s = false -> truthy s = true.
Proof. by destruct s. Qed.

Lemma strip_is_blank s : is_blank (strip s) = is_blank s.
Proof.
  unfold strip, rstrip.
  by rewrite is_blank_reverse, lstrip_is_blank, is_blank_reverse, lstrip_is_blank.
Qed.

Lemma truthy_strip s : truthy (strip s) = negb (is_blank s).
Proof.
  destruct (is_blank s) eqn:Hb; simpl.
  - unfold strip, rstrip. rewrite (lstrip_blank s Hb). done.
  - apply truthy_not_blank. by rewrite strip_is_blank.
Qed.

Lemma lstrip_head s c r : lstrip s = c :: r -> isspace c = false.
Proof.
  induction s as [|d t IH]; simpl; [done|].
  destruct (isspace d) eqn:Hd; [done|]. by intros [= <- _].
Qed.

Lemma rstrip_snoc s c :
  rstrip (s ++ [c]) = if isspace c then rstrip s else s ++ [c].
Proof.
  unfold rstrip. rewrite reverse_snoc. simpl.
  destruct (isspace c); [done|]. by rewrite reverse_cons, reverse_involutive.
Qed.

Lemma rstrip_cons_nonspace c r :
  isspace c = false -> rstrip (c :: r) = c :: rstrip r.
Proof.
  intros Hc. induction r as [|d r IH] using rev_ind.
  - change [c] with ([] ++ [c]). rewrite rstrip_snoc, Hc. done.
  - rewrite app_comm_cons, !rstrip_snoc. destruct (isspace d); done.
Qed.

Lemma strip_head s c : head (strip s) = Some c -> isspace c = false.
Proof.
  unfold strip. destruct (lstrip s) as [|d r] eqn:Hl; [done|].
  pose proof (lstrip_head _ _ _ Hl) as Hd.
  rewrite rstrip_cons_nonspace by done. simpl. by intros [= <-].
Qed.

Lemma strip_last s c : last (strip s) = Some c -> isspace c = false.
Proof.
  unfold strip, rstrip. rewrite last_reverse.
  destruct (lstrip (reverse (lstrip s))) as [|d r] eqn:Hl; [done|].
  simpl. intros [= <-]. by eapply lstrip_head.
Qed.

(** *** The PDF page loop *)
Lemma pages_loop_readable texts acc :
  pdf.pages_loop (Return <$> texts) acc
  = (replicate (length texts) (EvLib fitz_page_get_text_),
     Return (acc ++ List.filter (fun p => negb (is_blank p)) texts)).
Proof.
  revert acc. induction texts as [|p ps IH]; intros acc.
  - simpl. unfold ret. by rewrite app_nil_r.
  - rewrite fmap_cons. cbn [pdf.pages_loop length replicate List.filter].
    unfold bind, call. rewrite truthy_strip.
    destruct (is_blank p); cbn [negb]; rewrite IH.
    + reflexivity.
    + by rewrite <- app_assoc.
Qed.

(** The strategy on a byte buffer that does not open. *)
Lemma pdf_extract_unopened env file_bytes filename e :
  fitz_open env file_bytes = Raise e ->
  pdf.extract env file_bytes filename
  = ([EvLib fitz_open_],
     Return {| r_text := Some (u "[PDF Error] Could not open " ++ filename
                                 ++ u ": " ++ exn_str e);
               r_page_count := Some 0%Z;
               r_metadata := None |}).
Proof.
  intros H. unfold pdf.extract, try_except, call. rewrite H. reflexivity.
Qed.

(** The strategy on a document that is read to the end. *)
Lemma pdf_extract_readable env file_bytes filename texts meta :
  fitz_open env file_bytes = Return (pdf_readable texts meta) ->
  pdf.extract env file_bytes filename
  = (pdf_read_events (length texts),
     Return
       {| r_text := Some (join pdf.PAGE_BREAK
                            (List.filter (fun p => negb (is_blank p)) texts));
          r_page_count :=
            Some (Z.of_nat (length (List.filter (fun p => negb (is_blank p))
                                      texts)));
          r_metadata :=
            Some (<["title" := pdf.meta_get (default ∅ meta) "title"]>
                 (<["author" := pdf.meta_get (default ∅ meta) "author"]>
                 (<["subject" := pdf.meta_get (default ∅ meta) "subject"]> ∅)))
       |}).
Proof.
  intros Hopen. unfold pdf.extract, try_except. rewrite Hopen.
  unfold call at 1. cbn [pdf_readable pdf_pages pdf_metadata pdf_close].
  unfold bind at 1. unfold call at 1.
  unfold bind at 1. rewrite pages_loop_readable.
  unfold bind, call, ret, pdf_read_events. cbn [app].
  reflexivity.
Qed.













(** Where the separator can start in a text made of two pages and the
    separator between them. *)
Section separator_position.
Variables (p1 p2 : str) (o : nat).
Hypothesis Hp :
  pdf.PAGE_BREAK `prefix_of` drop o (p1 ++ pdf.PAGE_BREAK ++ p2).







End separator_position.



(** ** The effect monad *)

Lemma bind_Return_inv {A B} (m : M A) (k : A -> M B) t b :
  bind m k = (t, Return b) ->
  exists t1 a t2, m = (t1, Return a) /\ k a = (t2, Return b) /\ t = t1 ++ t2.
Proof.
  unfold bind. destruct m as [t1 [a|e]]; [|done].
  destruct (k a) as [t2 r] eqn:Hk. intros [= <- ->]. by exists t1, a, t2.
Qed.

Lemma try_except_Return_inv {A B} (m : M A) (h : exn -> M B) (k : A -> M B) t b :
  try_except m h k = (t, Return b) ->
  exists t1 t2, t = t1 ++ t2
    /\ ((exists a, m = (t1, Return a) /\ k a = (t2, Return b))
        \/ (exists e, m = (t1, Raise e) /\ h e = (t2, Return b))).
Proof.
  unfold try_except. destruct m as [t1 [a|e]].
  - destruct (k a) as [t2 r] eqn:Hk. intros [= <- ->].
    exists t1, t2. split; [done|]. left. by exists a.
  - destruct (h e) as [t2 r] eqn:Hh. intros [= <- ->].
    exists t1, t2. split; [done|]. right. by exists e.
Qed.

Lemma bind_ret_l {A B} (a : A) (k : A -> M B) : bind (ret a) k = k a.
Proof. unfold bind, ret. by destruct (k a). Qed.

(** ** The dispatcher *)

Lemma no_strategy_invoked_log r : no_strategy_invoked [EvLog r].
Proof. by repeat constructor. Qed.

(** The keys of the registry are the fourteen MIME types of its
    definition. *)
Lemma EXTRACTORS_keys (env : Env) (mime_type : str) :
  is_Some (main.EXTRACTORS env !! mime_type)
  <-> mime_type ∈ (main.EXTRACTORS_items env).*1.
Proof.
  unfold main.EXTRACTORS.
  rewrite <- elem_of_dom, dom_list_to_map_L, elem_of_list_to_set. done.
Qed.

(** C1. A MIME type that is not a key of [EXTRACTORS] is refused with
    [UnsupportedType], which carries the rejected value; a supported MIME
    type with an empty byte buffer is refused with [EmptyInput].  In both
    cases the only event of the call is the log record of the request:
    no extractor is called and no library is entered. *)
Theorem dispatch_rejects_without_invoking
    (env : Env) (file : main.UploadFile) (mime_type : str)
    (filename : option str) :
  (main.EXTRACTORS env !! mime_type = None ->
   exists t,
     main.extract env file mime_type filename = (t, UnsupportedType mime_type)
     /\ no_strategy_invoked t)
  /\ (is_Some (main.EXTRACTORS env !! mime_type) ->
      main.file_content file = [] ->
      exists t,
        main.extract env file mime_type filename = (t, EmptyInput)
        /\ no_strategy_invoked t).
Proof.
  split.
  - intros Hnone. unfold main.extract. rewrite Hnone.
    eexists. split; [reflexivity|]. apply no_strategy_invoked_log.
  - intros [f Hf] Hempty. unfold main.extract. rewrite Hf, Hempty.
    eexists. split; [reflexivity|]. apply no_strategy_invoked_log.
Qed.

(** C1 on the sample environment: [text/plain] is refused as unsupported,
    an empty PDF upload as empty. *)
Lemma dispatch_rejects_without_invoking_witness :
  (exists t, main.extract sample_env (upload (u "x")) (u "text/plain") None
             = (t, UnsupportedType (u "text/plain"))
             /\ no_strategy_invoked t)
  /\ (exists t, main.extract sample_env (upload []) main.MIME_PDF None
                = (t, EmptyInput)
                /\ no_strategy_invoked t).
Proof.
  split.
  - apply (proj1 (dispatch_rejects_without_invoking
                    sample_env (upload (u "x")) (u "text/plain") None)).
    reflexivity.
  - apply (proj2 (dispatch_rejects_without_invoking
                    sample_env (upload []) main.MIME_PDF None)).
    + eexists. reflexivity.
    + reflexivity.
Defined.

Lemma run_extractor_raise mime f b fn log_name t e :
  f b fn = (t, Raise e) ->
  main.run_extractor mime f b fn log_name
  = (EvCallExtractor mime b fn :: t ++ [EvLog (LogExtractionFailed log_name e)],
     ExtractionFailed (take 300 (exn_str e))).
Proof. intros H. unfold main.run_extractor. simpl. rewrite H. reflexivity. Qed.

Lemma run_extractor_return mime f b fn log_name t d :
  f b fn = (t, Return d) ->
  main.run_extractor mime f b fn log_name
  = (EvCallExtractor mime b fn :: t
       ++ [EvLog (LogExtracted (length (strip (default [] (r_text d))))
                    (default 0%Z (r_page_count d)) log_name)],
     main.OK {| main.text := strip (default [] (r_text d));
                main.page_count := default 0%Z (r_page_count d);
                main.metadata := default ∅ (r_metadata d) |}).
Proof. intros H. unfold main.run_extractor. simpl. rewrite H. reflexivity. Qed.

Lemma extract_dispatch env file mime filename f c b :
  main.EXTRACTORS env !! mime = Some f ->
  main.file_content file = c :: b ->
  main.extract env file mime filename
  = let '(t, r) := main.run_extractor mime f (c :: b)
                     (main.filename_or_unknown filename) filename in
    (EvLog (LogExtractRequest filename mime (main.file_size file)) :: t, r).
Proof. intros Hf Hb. unfold main.extract. rewrite Hf, Hb. reflexivity. Qed.

(** The second endpoint has the registry lookup and the [try] block of
    the first, but no test of the buffer: what the download returns goes
    to the extractor as it is, also when it is empty. *)
Lemma extract_from_drive_calls_extractor_on_empty_content
    (env : Env) (req : main.DriveExtractRequest)
    (f : bytes -> str -> M result_dict) (resp : http_response) :
  main.EXTRACTORS env !! main.req_mime_type req = Some f ->
  requests_get env
    (u "https://www.googleapis.com/drive/v3/files/" ++ main.req_file_id req
       ++ u "?alt=media")
    (u "Bearer " ++ main.req_access_token req) = Return resp ->
  status_code resp = 200%Z ->
  resp_content resp = [] ->
  EvCallExtractor (main.req_mime_type req) [] (main.req_filename req)
  ∈ (main.extract_from_drive env req).1.
Proof.
  intros Hreg Hget Hstatus Hempty. unfold main.extract_from_drive.
  rewrite Hreg, Hget, Hstatus, Hempty. simpl.
  unfold main.run_extractor. simpl.
  destruct (f [] (main.req_filename req)) as [t [d|e]]; simpl;
    do 3 right; left.
Qed.

(** The Office strategies have no handler: what the parser raises is what
    the strategy raises. *)
Lemma office_strategy_propagates env mime b fn e :
  office_parse_raises env mime b e ->
  exists strategy t,
    main.EXTRACTORS env !! mime = Some strategy
    /\ strategy b fn = (t, Raise e).
Proof.
  intros [[-> H] | [[-> H] | [-> H]]].
  - exists (office.extract_docx env), [EvLib docx_Document_].
    split; [reflexivity|]. unfold office.extract_docx, call, bind. by rewrite H.
  - exists (office.extract_xlsx env), [EvLib openpyxl_load_workbook_].
    split; [reflexivity|]. unfold office.extract_xlsx, call, bind. by rewrite H.
  - exists (office.extract_pptx env), [EvLib pptx_Presentation_].
    split; [reflexivity|]. unfold office.extract_pptx, call, bind. by rewrite H.
Qed.

(** C2. When the parser of an Office strategy (DOCX, XLSX, PPTX) raises
    an exception on a non-empty input, the strategy raises that same
    exception, and the dispatcher answers with [ExtractionFailed]: the
    detail is the fixed prefix ["Extraction error: "] followed by the
    exception's message cut to its first 300 characters.  The answer is a
    failure and nothing else: no response with text comes with it. *)
Theorem office_failure_becomes_ExtractionFailed
    (env : Env) (file : main.UploadFile) (mime_type : str)
    (filename : option str) (e : exn) :
  office_parse_raises env mime_type (main.file_content file) e ->
  main.file_content file <> [] ->
  exists strategy t t',
    main.EXTRACTORS env !! mime_type = Some strategy
    /\ strategy (main.file_content file) (main.filename_or_unknown filename)
       = (t, Raise e)
    /\ main.extract env file mime_type filename
       = (t', ExtractionFailed (take 300 (exn_str e)))
    /\ (length (take 300 (exn_str e)) <= 300)%nat
    /\ take 300 (exn_str e) `prefix_of` exn_str e
    /\ (forall r, (main.extract env file mime_type filename).2 <> main.OK r).
Proof.
  intros Hraise Hne.
  destruct (office_strategy_propagates env mime_type (main.file_content file)
              (main.filename_or_unknown filename) e Hraise)
    as (strategy & t & Hreg & Hrun).
  destruct (main.file_content file) as [|c b] eqn:Hb; [done|].
  pose proof (extract_dispatch env file mime_type filename strategy c b Hreg Hb)
    as Hex.
  rewrite (run_extractor_raise _ _ _ _ _ _ _ Hrun) in Hex.
  exists strategy, t. eexists. split; [done|]. split; [done|].
  split; [exact Hex|]. split; [rewrite length_take; lia|].
  split; [apply prefix_take|].
  intros r. rewrite Hex. simpl. discriminate.
Qed.

(** C2 on the sample environment: a DOCX upload that is not a package. *)
Lemma office_failure_becomes_ExtractionFailed_witness :
  exists t,
    main.extract sample_env (upload (u "not a zip")) main.MIME_DOCX
      (Some (u "report.docx"))
    = (t, ExtractionFailed (u "Package not found")).
Proof.
  destruct (office_failure_becomes_ExtractionFailed sample_env
              (upload (u "not a zip")) main.MIME_DOCX (Some (u "report.docx"))
              (sample_error "Package not found"))
    as (_ & _ & t & _ & _ & H & _).
  - left. split; reflexivity.
  - discriminate.
  - exists t. exact H.
Defined.

(** ** The PDF strategy *)

(** C4. When the byte buffer cannot be opened as a PDF, the strategy does
    not raise: it returns the text
    ["[PDF Error] Could not open <filename>: <cause>"] with
    [page_count = 0]. *)
Theorem pdf_open_failure_is_absorbed
    (env : Env) (file_bytes : bytes) (filename : str) (e : exn) :
  fitz_open env file_bytes = Raise e ->
  pdf.extract env file_bytes filename
  = ([EvLib fitz_open_],
     Return {| r_text := Some (u "[PDF Error] Could not open " ++ filename
                                 ++ u ": " ++ exn_str e);
               r_page_count := Some 0%Z;
               r_metadata := None |}).
Proof.
  intros H. unfold pdf.extract, try_except, call. rewrite H. reflexivity.
Qed.

(** C4 on the sample environment: bytes that PyMuPDF does not open. *)
Lemma pdf_open_failure_is_absorbed_witness :
  pdf.extract sample_env (u "garbage") (u "a.pdf")
  = ([EvLib fitz_open_],
     Return {| r_text := Some (u "[PDF Error] Could not open a.pdf: Failed to open stream");
               r_page_count := Some 0%Z;
               r_metadata := None |}).
Proof.
  apply (pdf_open_failure_is_absorbed sample_env (u "garbage") (u "a.pdf")
           (sample_error "Failed to open stream")).
  reflexivity.
Defined.

(** ** The image strategy *)

(** C8. With the OCR capability flag false the image strategy returns the
    fixed text that names the file and says Tesseract is not installed,
    with [page_count = 0]; the call performs no event at all, so
    [PIL.Image.open] is not entered. *)
Theorem image_without_ocr_does_not_decode
    (env : Env) (file_bytes : bytes) (filename : str) :
  OCR_AVAILABLE env = false ->
  exists t,
    image.extract env file_bytes filename
    = (t, Return {| r_text := Some (image.NO_OCR_TEXT filename);
                    r_page_count := Some 0%Z;
                    r_metadata := None |})
    /\ (EvLib PILImage_open_ ∉ t)
    /\ t = []
    /\ image.NO_OCR_TEXT filename
       = u "[Image] " ++ filename ++ nl
         ++ u "OCR not available on this server (Tesseract not installed)."
         ++ nl
         ++ u "Install tesseract-ocr to enable full text extraction from images.".
Proof.
  intros H. exists []. unfold image.extract. rewrite H. simpl.
  split; [reflexivity|]. split; [apply not_elem_of_nil|]. split; reflexivity.
Qed.

(** C8 on the sample environment, where Tesseract is missing. *)
Lemma image_without_ocr_does_not_decode_witness :
  exists t,
    image.extract sample_env (u "GIF89a") (u "cat.gif")
    = (t, Return {| r_text := Some (image.NO_OCR_TEXT (u "cat.gif"));
                    r_page_count := Some 0%Z;
                    r_metadata := None |})
    /\ (EvLib PILImage_open_ ∉ t).
Proof.
  destruct (image_without_ocr_does_not_decode sample_env (u "GIF89a")
              (u "cat.gif")) as (t & H1 & H2 & _).
  - reflexivity.
  - exists t. split; [exact H1 | exact H2].
Defined.

(** The separator is twenty characters long and differs from the marker
    line by the two line feeds on either side. *)
Lemma PAGE_BREAK_shape :
  pdf.PAGE_BREAK = nl ++ nl ++ PAGE_BREAK_MARKER ++ nl ++ nl
  /\ length pdf.PAGE_BREAK = 20%nat.
Proof. split; reflexivity. Qed.




(** The sample document of two pages, [Hello] and [World]. *)
Example pdf_two_pages_example :
  exists meta,
    pdf.extract sample_env (u "%PDF two pages") (u "a.pdf")
    = (pdf_read_events 2,
       Return {| r_text := Some (u "Hello" ++ pdf.PAGE_BREAK ++ u "World");
                 r_page_count := Some 2%Z;
                 r_metadata := Some meta |})
    /\ occurrences (u "Hello" ++ pdf.PAGE_BREAK ++ u "World") pdf.PAGE_BREAK
       = [5%nat].
Proof. eexists. split; reflexivity. Qed.

(** The whitespace-only page of the claim, on the sample document. *)
Example pdf_blank_page_example :
  exists meta,
    pdf.extract sample_env (u "%PDF blank page") (u "a.pdf")
    = (pdf_read_events 1,
       Return {| r_text := Some []; r_page_count := Some 0%Z;
                 r_metadata := Some meta |}).
Proof. eexists. reflexivity. Qed.

(** Page texts are copied as they are: were a page text to hold the
    marker line between two empty lines, the separator would be read
    twice in the joined text. *)
Example join_copies_page_text :
  occurrences (join pdf.PAGE_BREAK [u "a" ++ pdf.PAGE_BREAK ++ u "b"; u "c"])
    pdf.PAGE_BREAK
  = [1; 22]%nat.
Proof. reflexivity. Qed.

(** ** Results without a ["metadata"] key *)

Lemma docx_omits_metadata env b fn t d :
  office.extract_docx env b fn = (t, Return d) -> r_metadata d = None.
Proof.
  intros (t1 & doc & t2 & _ & [= _ <-] & _)%bind_Return_inv. reflexivity.
Qed.

Lemma xlsx_omits_metadata env b fn t d :
  office.extract_xlsx env b fn = (t, Return d) -> r_metadata d = None.
Proof.
  intros (t1 & wb & t2 & _ & [= _ <-] & _)%bind_Return_inv. reflexivity.
Qed.

Lemma pptx_omits_metadata env b fn t d :
  office.extract_pptx env b fn = (t, Return d) -> r_metadata d = None.
Proof.
  intros (t1 & slides & t2 & _ & [= _ <-] & _)%bind_Return_inv. reflexivity.
Qed.

Lemma render_omits_metadata cells fn t d :
  notebook.render cells fn = (t, Return d) -> r_metadata d = None.
Proof.
  intros (t1 & l & t2 & _ & H & _)%bind_Return_inv.
  apply bind_Return_inv in H as (t3 & parts & t4 & _ & [= _ <-] & _).
  reflexivity.
Qed.

Lemma notebook_omits_metadata env b fn t d :
  notebook.extract env b fn = (t, Return d) -> r_metadata d = None.
Proof.
  intros (t1 & t2 & _ & [(cells & _ & H) | (e & _ & H)])%try_except_Return_inv.
  - by eapply render_omits_metadata.
  - apply try_except_Return_inv in H
      as (t3 & t4 & _ & [(cells & _ & H) | (e' & _ & [= _ <-])]).
    + by eapply render_omits_metadata.
    + reflexivity.
Qed.

Lemma html_omits_metadata env b fn t d :
  html_extractor.extract env b fn = (t, Return d) -> r_metadata d = None.
Proof.
  unfold html_extractor.extract. destruct (bs4_BeautifulSoup env) as [parse|].
  - intros (t1 & soup & t2 & _ & [= _ <-] & _)%bind_Return_inv. reflexivity.
  - intros [= _ <-]. reflexivity.
Qed.

Lemma strategies_without_metadata env mime strategy b fn t d :
  mime ∈ MIME_WITHOUT_METADATA ->
  main.EXTRACTORS env !! mime = Some strategy ->
  strategy b fn = (t, Return d) ->
  r_metadata d = None.
Proof.
  unfold MIME_WITHOUT_METADATA. intros Hin Hreg Hrun.
  repeat (apply elem_of_cons in Hin as [-> | Hin]);
    [ registry_entry Hreg (office.extract_docx env)
    | registry_entry Hreg (office.extract_xlsx env)
    | registry_entry Hreg (office.extract_pptx env)
    | registry_entry Hreg (notebook.extract env)
    | registry_entry Hreg (notebook.extract env)
    | registry_entry Hreg (notebook.extract env)
    | registry_entry Hreg (html_extractor.extract env)
    | by apply elem_of_nil in Hin ];
    eauto using docx_omits_metadata, xlsx_omits_metadata, pptx_omits_metadata,
      notebook_omits_metadata, html_omits_metadata.
Qed.

(** C10. When the strategy of a supported MIME type returns on a
    non-empty input, the dispatcher answers with a complete response: the
    text is the result's ["text"] (the empty string when the key is
    missing) with leading and trailing whitespace stripped, so it neither
    starts nor ends with a whitespace character; [page_count] is the
    result's ["page_count"], 0 when the key is missing; [metadata] is the
    result's ["metadata"], the empty mapping when the key is missing.  The
    key is missing in every DOCX, XLSX, PPTX, notebook and HTML result
    and in the PDF result for a buffer that does not open. *)
Theorem dispatcher_fills_missing_keys
    (env : Env) (file : main.UploadFile) (mime_type : str)
    (filename : option str)
    (strategy : bytes -> str -> M result_dict) (t : list event)
    (d : result_dict) :
  main.EXTRACTORS env !! mime_type = Some strategy ->
  main.file_content file <> [] ->
  strategy (main.file_content file) (main.filename_or_unknown filename)
  = (t, Return d) ->
  exists t' r,
    main.extract env file mime_type filename = (t', main.OK r)
    /\ main.text r = strip (default [] (r_text d))
    /\ (forall c, head (main.text r) = Some c -> isspace c = false)
    /\ (forall c, last (main.text r) = Some c -> isspace c = false)
    /\ main.page_count r = default 0%Z (r_page_count d)
    /\ (r_page_count d = None -> main.page_count r = 0%Z)
    /\ main.metadata r = default ∅ (r_metadata d)
    /\ (r_metadata d = None -> main.metadata r = ∅)
    /\ (mime_type ∈ MIME_WITHOUT_METADATA -> main.metadata r = ∅)
    /\ (mime_type = main.MIME_PDF ->
        (exists e, fitz_open env (main.file_content file) = Raise e) ->
        main.metadata r = ∅).
Proof.
  intros Hreg Hne Hrun.
  destruct (main.file_content file) as [|c b] eqn:Hb; [done|].
  pose proof (extract_dispatch env file mime_type filename strategy c b Hreg Hb)
    as Hex.
  rewrite (run_extractor_return _ _ _ _ _ _ _ Hrun) in Hex.
  eexists _, _. split; [exact Hex|]. simpl.
  split; [done|]. split; [apply strip_head|]. split; [apply strip_last|].
  split; [done|]. split; [by intros ->|]. split; [done|].
  split; [by intros ->|]. split.
  - intros Hin.
    by rewrite (strategies_without_metadata _ _ _ _ _ _ _ Hin Hreg Hrun).
  - intros -> [e He]. registry_entry Hreg (pdf.extract env).
    rewrite (pdf_extract_unopened env (c :: b) _ e He) in Hrun.
    by injection Hrun as _ <-.
Qed.

(** C10 on the sample environment: the PDF result for bytes that do not
    open has no ["metadata"] key, the response has the empty mapping. *)
Lemma dispatcher_fills_missing_keys_witness :
  exists t,
    main.extract sample_env (upload (u "garbage")) main.MIME_PDF None
    = (t, main.OK {| main.text := u "[PDF Error] Could not open unknown: Failed to open stream";
                     main.page_count := 0;
                     main.metadata := ∅ |}).
Proof.
  destruct (dispatcher_fills_missing_keys sample_env (upload (u "garbage"))
              main.MIME_PDF None (pdf.extract sample_env)
              [EvLib fitz_open_]
              {| r_text := Some (u "[PDF Error] Could not open unknown: Failed to open stream");
                 r_page_count := Some 0%Z;
                 r_metadata := None |})
    as (t & r & Hex & Htext & _ & _ & Hpc & _ & Hmeta & _).
  - reflexivity.
  - discriminate.
  - reflexivity.
  - exists t. rewrite Hex. destruct r as [rt rp rm]. simpl in *.
    rewrite Htext, Hpc, Hmeta. reflexivity.
Defined.

(** ** The PPTX strategy *)

Lemma rows_loop_app table_rows acc :
  office.rows_loop table_rows acc = acc ++ office.rows_loop table_rows [].
Proof.
  revert acc. induction table_rows as [|row rest IH]; intros acc; simpl.
  - by rewrite app_nil_r.
  - destruct (truthy _); [|apply IH].
    rewrite IH, (IH [_]), app_assoc. done.
Qed.

Lemma pptx_paragraphs_loop_app paras acc :
  office.pptx_paragraphs_loop paras acc
  = acc ++ office.pptx_paragraphs_loop paras [].
Proof.
  revert acc. induction paras as [|runs rest IH]; intros acc; simpl.
  - by rewrite app_nil_r.
  - destruct (truthy _); [|apply IH].
    rewrite IH, (IH [_]), app_assoc. done.
Qed.

Lemma pptx_shapes_loop_app shapes acc :
  office.pptx_shapes_loop shapes acc = acc ++ office.pptx_shapes_loop shapes [].
Proof.
  revert acc. induction shapes as [|shape rest IH]; intros acc; simpl.
  - by rewrite app_nil_r.
  - rewrite IH. symmetry. rewrite IH. symmetry.
    destruct (text_frame shape) as [paras|], (table shape) as [rows|].
    + rewrite rows_loop_app, pptx_paragraphs_loop_app.
      rewrite (rows_loop_app rows (office.pptx_paragraphs_loop _ _)).
      by rewrite <- !app_assoc.
    + rewrite pptx_paragraphs_loop_app. by rewrite <- !app_assoc.
    + rewrite rows_loop_app. by rewrite <- !app_assoc.
    + done.
Qed.

(** The parts of a slide always start with its header marker. *)
Lemma pptx_slide_parts_header n slide :
  exists content, office.pptx_slide_parts n slide = slide_header n :: content.
Proof.
  unfold office.pptx_slide_parts. rewrite pptx_shapes_loop_app.
  fold (slide_header n).
  destruct (notes_slide slide) as [notes|]; [destruct (truthy _)|];
    simpl; eauto.
Qed.

Lemma pptx_slides_loop_spec n slides parts :
  office.pptx_slides_loop n slides parts
  = parts ++ concat (imap (fun i s => slide_output (n + i) s) slides).
Proof.
  revert n parts. induction slides as [|s rest IH]; intros n parts; simpl.
  - by rewrite app_nil_r.
  - rewrite Nat.add_0_r.
    assert (Hext : imap ((fun i s0 => slide_output (n + i) s0) ∘ S) rest
                   = imap (fun i s0 => slide_output (S n + i) s0) rest).
    { apply imap_ext. intros i x _. simpl. f_equal. lia. }
    rewrite Hext. unfold slide_output at 1.
    destruct (pptx_slide_parts_header n s) as [content Hc]. rewrite Hc.
    destruct content as [|c content];
      destruct (decide (1 < length _)%nat) as [Hd|Hd]; simpl in Hd; try lia.
    + apply IH.
    + rewrite IH. simpl. rewrite <- app_assoc. done.
Qed.

(** C5. For every presentation the parser returns, the strategy returns
    with [page_count] equal to the number of slides, whatever the slides
    hold.  The text is the slides' outputs in order, joined by line feeds,
    where a slide whose parts are its header marker alone has no output:
    the text is the one the slides before it and the slides after it
    give, each under its own number. *)
Theorem pptx_counts_all_slides_and_drops_empty_ones
    (env : Env) (file_bytes : bytes) (filename : str)
    (slides : list pptx_slide) :
  pptx_Presentation env file_bytes = Return slides ->
  exists text,
    office.extract_pptx env file_bytes filename
    = ([EvLib pptx_Presentation_],
       Return {| r_text := Some text;
                 r_page_count := Some (Z.of_nat (length slides));
                 r_metadata := None |})
    /\ text = join nl (concat (imap (fun i s => slide_output (S i) s) slides))
    /\ (forall before slide after,
          slides = before ++ slide :: after ->
          office.pptx_slide_parts (S (length before)) slide
          = [slide_header (S (length before))] ->
          slide_output (S (length before)) slide = []
          /\ text = join nl
                      (office.pptx_slides_loop 1 before []
                       ++ office.pptx_slides_loop (S (S (length before))) after [])).
Proof.
  intros Hparse. unfold office.extract_pptx, call, bind. rewrite Hparse. simpl.
  eexists. split; [reflexivity|]. rewrite pptx_slides_loop_spec. simpl.
  split; [done|]. intros before slide after -> Hparts.
  assert (Hout : slide_output (S (length before)) slide = []).
  { unfold slide_output. by rewrite Hparts. }
  split; [exact Hout|]. f_equal.
  rewrite imap_app, concat_app. simpl. rewrite Nat.add_0_r, Hout. simpl.
  rewrite !pptx_slides_loop_spec. simpl. f_equal. f_equal.
  apply imap_ext. intros i x _. simpl. f_equal. lia.
Qed.

(** C5 on the sample presentation: three slides counted, the second one
    without output. *)
Lemma pptx_counts_all_slides_and_drops_empty_ones_witness :
  office.extract_pptx sample_env (u "PK pptx") (u "deck.pptx")
  = ([EvLib pptx_Presentation_],
     Return {| r_text := Some (nl ++ u "--- Slide 1 ---" ++ nl ++ u "Intro" ++ nl
                                 ++ nl ++ u "--- Slide 3 ---" ++ nl ++ u "a | b"
                                 ++ nl ++ u " | "
                                 ++ nl ++ u "[Notes] say hello");
               r_page_count := Some 3%Z;
               r_metadata := None |}).
Proof.
  destruct (pptx_counts_all_slides_and_drops_empty_ones sample_env
              (u "PK pptx") (u "deck.pptx") sample_slides eq_refl)
    as (text & Hrun & -> & _).
  exact Hrun.
Defined.

(** ** The notebook strategy *)

Lemma join_items_strings i items l :
  mapM json_str items = Some l ->
  notebook.join_items i items = ret (concat l).
Proof.
  revert i l. induction items as [|v rest IH]; intros i l; simpl.
  - by intros [= <-].
  - destruct v; simpl; try done.
    destruct (mapM json_str rest) as [l'|] eqn:Hl'; simpl; [|done].
    intros [= <-]. by rewrite (IH (S i) l' eq_refl).
Qed.

Lemma cell_types_exclusive v :
  (notebook.str_eq v (u "markdown") = true ->
   notebook.str_eq v (u "code") = false /\ notebook.str_eq v (u "raw") = false)
  /\ (notebook.str_eq v (u "code") = true -> notebook.str_eq v (u "raw") = false).
Proof.
  destruct v; simpl; try done.
  split.
  - intros ->%bool_decide_eq_true. done.
  - intros ->%bool_decide_eq_true. done.
Qed.

(** One turn of the cell loop adds what the specification says the cell
    adds. *)
Lemma cell_step_spec cell parts s :
  cell_source cell = Some s ->
  notebook.cell_step cell parts = ret (parts ++ cell_output cell).
Proof.
  intros Hsrc. unfold cell_output. rewrite Hsrc.
  destruct cell as [| | | | |?|items]; try done.
  unfold notebook.cell_step, has_type, cell_type, notebook.py_get.
  rewrite !bind_ret_l. unfold cell_source in Hsrc.
  generalize dependent (default (JStr []) (notebook.dict_get items (u "source"))).
  generalize (default (JStr []) (notebook.dict_get items (u "cell_type"))).
  intros ct src Hsrc.
  assert (Hnorm : match src with
                  | JArr items0 =>
                      s0 <- notebook.join_items 0 items0 ;; ret (JStr s0)
                  | _ => ret src
                  end = ret (JStr s)).
  { destruct src as [| | | |s'|fragments|]; try done.
    - by injection Hsrc as ->.
    - destruct (mapM json_str fragments) as [l|] eqn:Hl; [|done].
      simpl in Hsrc. injection Hsrc as <-.
      by rewrite (join_items_strings 0 fragments l Hl), bind_ret_l. }
  rewrite Hnorm, bind_ret_l. unfold notebook.py_strip.
  rewrite bind_ret_l, truthy_strip.
  destruct (is_blank s); simpl; [by rewrite app_nil_r|].
  pose proof (cell_types_exclusive ct) as [Hm Hc].
  destruct (notebook.str_eq ct (u "markdown")); simpl; [done|].
  destruct (notebook.str_eq ct (u "code")) eqn:Hcode; simpl.
  - rewrite (Hc eq_refl). done.
  - destruct (notebook.str_eq ct (u "raw")); [done|]. by rewrite app_nil_r.
Qed.

Lemma cells_loop_spec cells parts :
  Forall (fun c => is_Some (cell_source c)) cells ->
  notebook.cells_loop cells parts
  = ret (parts ++ concat (cell_output <$> cells)).
Proof.
  intros Hwf. revert parts.
  induction Hwf as [|cell rest [s Hs] _ IH]; intros parts; simpl.
  - by rewrite app_nil_r.
  - rewrite (cell_step_spec cell parts s Hs), bind_ret_l, IH, <- app_assoc. done.
Qed.

Lemma render_spec cells filename :
  Forall (fun c => is_Some (cell_source c)) cells ->
  notebook.render (JArr cells) filename
  = ret {| r_text := Some (join (nl ++ nl)
                             ((u "# Jupyter Notebook: " ++ filename ++ nl)
                                :: concat (cell_output <$> cells)));
           r_page_count := Some 0%Z;
           r_metadata := None |}.
Proof.
  intros Hwf. unfold notebook.render, notebook.py_iter.
  rewrite bind_ret_l, (cells_loop_spec cells _ Hwf), bind_ret_l. reflexivity.
Qed.

(** For a notebook that parses, with cells whose source is a string
    or a sequence of string fragments, the strategy returns the title line
    followed by what each cell adds, in the order of the cells, joined by
    blank lines.  A cell whose source (fragments concatenated) is blank
    after stripping adds nothing, an empty sequence of fragments included;
    a markdown or raw cell adds its stripped source as it is, with no
    wrapper; a code cell adds its stripped source wrapped in a
    [```python] fence. *)
Theorem notebook_emits_cells_in_order
    (env : Env) (file_bytes : bytes) (filename : str) (cells : list json) :
  parses_as_notebook env file_bytes cells ->
  Forall (fun c => is_Some (cell_source c)) cells ->
  (exists t,
     notebook.extract env file_bytes filename
     = (t, Return {| r_text := Some (join (nl ++ nl)
                                       ((u "# Jupyter Notebook: " ++ filename ++ nl)
                                          :: concat (cell_output <$> cells)));
                     r_page_count := Some 0%Z;
                     r_metadata := None |}))
  /\ (forall cell s parts,
        cell ∈ cells -> cell_source cell = Some s ->
        (is_blank s = true ->
         notebook.cell_step cell parts = ret parts)
        /\ (is_blank s = false ->
            has_type cell "markdown" = true \/ has_type cell "raw" = true ->
            notebook.cell_step cell parts = ret (parts ++ [strip s]))
        /\ (is_blank s = false -> has_type cell "code" = true ->
            notebook.cell_step cell parts
            = ret (parts ++ [nl ++ u "```python" ++ nl ++ strip s ++ nl
                               ++ u "```" ++ nl])))
  /\ (forall items, JObj items ∈ cells ->
        notebook.dict_get items (u "source") = Some (JArr []) ->
        cell_output (JObj items) = []).
Proof.
  intros Hparse Hwf. split; [|split].
  - unfold notebook.extract, try_except, call.
    destruct Hparse as [H | (e & items & H1 & H2 & H3)].
    + rewrite H, (render_spec cells filename Hwf). simpl. eauto.
    + rewrite H1. unfold bind. rewrite H2. simpl. rewrite H3.
      rewrite (render_spec cells filename Hwf). simpl. eauto.
  - intros cell s parts _ Hs. rewrite (cell_step_spec cell parts s Hs).
    unfold cell_output. rewrite Hs. split; [|split].
    + intros ->. by rewrite app_nil_r.
    + intros -> Hty. destruct Hty as [-> | ->]; [done|].
      by rewrite orb_true_r.
    + intros -> Hty. unfold has_type in *.
      pose proof (cell_types_exclusive (cell_type cell)) as [Hm Hc].
      rewrite (Hc Hty), Hty.
      destruct (notebook.str_eq (cell_type cell) (u "markdown")) eqn:Hmd.
      * destruct (Hm eq_refl) as [Hcontra _]. congruence.
      * reflexivity.
  - intros items _ Hsrc. unfold cell_output, cell_source. by rewrite Hsrc.
Qed.

(** The statement above, on the sample notebook, read through the JSON
    fallback. *)
Lemma notebook_emits_cells_in_order_witness :
  exists t,
    notebook.extract sample_env (u "{notebook}") (u "nb.ipynb")
    = (t, Return {| r_text := Some (u "# Jupyter Notebook: nb.ipynb" ++ nl
                                      ++ nl ++ nl
                                      ++ nl ++ u "```python" ++ nl ++ u "print(1)"
                                      ++ nl ++ u "```" ++ nl
                                      ++ nl ++ nl
                                      ++ u "# Title" ++ nl ++ u "text"
                                      ++ nl ++ nl
                                      ++ u "raw text");
                    r_page_count := Some 0%Z;
                    r_metadata := None |}).
Proof.
  destruct (notebook_emits_cells_in_order sample_env (u "{notebook}")
              (u "nb.ipynb") sample_cells) as [[t Ht] _].
  - right. eexists _, _. split; [reflexivity|]. split; reflexivity.
  - repeat constructor; by eexists.
  - exists t. exact Ht.
Defined.

(** C9 does not hold of the code, and the code does not do what its own
    docstring says ([Extracts markdown cells as-is]): the source of every
    cell is stripped before it is appended.  For a notebook whose only
    cell is the markdown cell with the source [x = 1] indented by four
    spaces and ended by a line feed, the strategy adds [x = 1] after the
    title line: the indentation and the line feed of the source are gone,
    in the strategy's text and in the response of the dispatcher. *)
Theorem notebook_markdown_cell_is_stripped :
  parses_as_notebook sample_env (u "{indented}") indented_cells
  /\ cell_type <$> indented_cells = [JStr (u "markdown")]
  /\ cell_source <$> indented_cells = [Some (u "    x = 1" ++ nl)]
  /\ (exists t,
        notebook.extract sample_env (u "{indented}") (u "nb.ipynb")
        = (t, Return {| r_text := Some (u "# Jupyter Notebook: nb.ipynb" ++ nl
                                          ++ nl ++ nl ++ u "x = 1");
                        r_page_count := Some 0%Z;
                        r_metadata := None |}))
  /\ (exists t,
        main.extract sample_env (upload (u "{indented}"))
          (u "application/x-ipynb+json") (Some (u "nb.ipynb"))
        = (t, main.OK {| main.text := u "# Jupyter Notebook: nb.ipynb" ++ nl
                                        ++ nl ++ nl ++ u "x = 1";
                         main.page_count := 0;
                         main.metadata := ∅ |}))
  /\ contains (u "# Jupyter Notebook: nb.ipynb" ++ nl ++ nl ++ nl ++ u "x = 1")
       (u "    x = 1" ++ nl) = false
  /\ strip (u "    x = 1" ++ nl) <> u "    x = 1" ++ nl.
Proof.
  split.
  { right. eexists _, _. split; [reflexivity|]. split; reflexivity. }
  split; [reflexivity|]. split; [reflexivity|].
  split; [eexists; reflexivity|]. split; [eexists; reflexivity|].
  split; [reflexivity|]. discriminate.
Qed.

(** ** The HTML strategy *)

Lemma decompose_all_Tag names name children :
  html_extractor.decompose_all names (Tag name children)
  = Tag name (children ≫= kept names).
Proof.
  simpl. f_equal. induction children as [|c r IH]; [done|].
  rewrite IH. destruct c as [k s|cname cs]; simpl; [done|].
  by destruct (bool_decide _).
Qed.

Lemma descendants_Tag name children :
  html_extractor.descendants (Tag name children)
  = children ≫= (fun c => c :: html_extractor.descendants c).
Proof.
  simpl. induction children as [|c r IH]; [done|]. by rewrite IH.
Qed.

(** After [decompose_all] no tag below the root has one of the names. *)
Lemma decompose_all_free names n :
  free_of names (html_extractor.descendants (html_extractor.decompose_all names n)).
Proof.
  induction n as [k s|name children IH] using node_tree_ind.
  - intros name children H. by apply elem_of_nil in H.
  - rewrite decompose_all_Tag, descendants_Tag.
    intros name' children' Hin.
    apply list_elem_of_bind in Hin as (c' & Hin & Hc').
    apply list_elem_of_bind in Hc' as (c & Hkept & Hc).
    rewrite Forall_forall in IH. specialize (IH c Hc).
    destruct c as [k s|cname cs]; simpl in Hkept.
    + apply list_elem_of_singleton in Hkept as ->.
      apply elem_of_cons in Hin as [Heq | Hin]; [done|].
      by apply elem_of_nil in Hin.
    + destruct (bool_decide (cname ∈ names)) eqn:Hname;
        [by apply elem_of_nil in Hkept|].
      apply list_elem_of_singleton in Hkept as ->.
      apply elem_of_cons in Hin as [Heq | Hin].
      * injection Heq as -> _.
        by apply bool_decide_eq_false in Hname.
      * by apply (IH name' children').
Qed.

Lemma bind_kept_eq names (l1 l2 : list node) :
  Forall2 (fun c1 c2 => kept names c1 = kept names c2) l1 l2 ->
  l1 ≫= kept names = l2 ≫= kept names.
Proof.
  induction 1 as [|c1 c2 r1 r2 Hc _ IH]; [done|].
  by rewrite !bind_cons, Hc, IH.
Qed.

(** Trees that agree outside non-content elements are pruned to the same
    tree. *)
Lemma kept_agree n1 :
  forall n2, agree_outside_non_content n1 n2 ->
             kept html_extractor.NON_CONTENT n1 = kept html_extractor.NON_CONTENT n2.
Proof.
  induction n1 as [k s|name children IH] using node_tree_ind; intros n2 Hag.
  - by inversion Hag.
  - inversion Hag as [|? ? name2 children2 H1 H2|? ? children2 Hch]; subst;
      unfold kept.
    + by rewrite !bool_decide_eq_true_2.
    + destruct (bool_decide _); [done|]. f_equal.
      rewrite !decompose_all_Tag. f_equal. apply bind_kept_eq.
      clear Hag. induction Hch as [|c1 c2 r1 r2 Hc _ IHr]; [constructor|].
      apply Forall_cons in IH as [IHc IHrest].
      constructor; [by apply IHc | by apply IHr].
Qed.

Lemma decompose_all_agree name children1 children2 :
  Forall2 agree_outside_non_content children1 children2 ->
  html_extractor.decompose_all html_extractor.NON_CONTENT (Tag name children1)
  = html_extractor.decompose_all html_extractor.NON_CONTENT (Tag name children2).
Proof.
  intros Hch. rewrite !decompose_all_Tag. f_equal. apply bind_kept_eq.
  eapply Forall2_impl; [exact Hch|]. intros c1 c2. apply kept_agree.
Qed.

(** C6, as the claim states it, fails: when the parsing library cannot be
    imported the strategy strips the angle-bracket tags only, and the code
    of the script element stays in the text. *)
Lemma html_fallback_keeps_script_text :
  bs4_BeautifulSoup sample_env_without_bs4 = None
  /\ html_extractor.extract sample_env_without_bs4 SCRIPT_AND_PARAGRAPH
       (u "page.html")
     = ([], Return {| r_text := Some (u "alert(1) Hello");
                      r_page_count := Some 0%Z;
                      r_metadata := None |})
  /\ contains (u "alert(1) Hello") (u "alert") = true.
Proof. split; [reflexivity|]. split; reflexivity. Qed.

(** C6 (amended). On the parsing path, that is when the parsing library
    is imported and returns a tree, the script, style, nav, footer,
    header, aside and noscript elements are removed before the traversal:
    the strategy returns what [extract_soup] makes of the tree, the tree it
    traverses has no such element left, and the result is the same for any
    tree that differs from the parsed one inside such elements only.  For
    [<script>alert(1)</script><p>Hello</p>], parsed as the lxml parser
    does, the text is ["Hello"]: it contains ["Hello"] and not
    ["alert"]. *)
Theorem html_parsing_path_drops_non_content
    (env : Env) (file_bytes : bytes) (filename : str)
    (BeautifulSoup : str -> outcome node) (soup : node) :
  bs4_BeautifulSoup env = Some BeautifulSoup ->
  BeautifulSoup (decode_utf8_replace env file_bytes) = Return soup ->
  html_extractor.extract env file_bytes filename
  = ([EvLib bs4_BeautifulSoup_], Return (html_extractor.extract_soup soup))
  /\ free_of html_extractor.NON_CONTENT
       (html_extractor.descendants
          (html_extractor.decompose_all html_extractor.NON_CONTENT soup))
  /\ (forall name children children',
        soup = Tag name children ->
        Forall2 agree_outside_non_content children children' ->
        html_extractor.extract_soup (Tag name children')
        = html_extractor.extract_soup soup)
  /\ (soup = script_and_paragraph_soup ->
      r_text (html_extractor.extract_soup soup) = Some (u "Hello")
      /\ contains (u "Hello") (u "Hello") = true
      /\ contains (u "Hello") (u "alert") = false).
Proof.
  intros Himport Hparse. split; [|split; [|split]].
  - unfold html_extractor.extract, call, bind. rewrite Himport, Hparse.
    reflexivity.
  - apply decompose_all_free.
  - intros name children children' -> Hag. unfold html_extractor.extract_soup.
    by rewrite (decompose_all_agree name children children' Hag).
  - intros ->. split; [reflexivity|]. split; reflexivity.
Qed.

(** C6 (amended) on the sample environment: the text is [Hello], and it
    is the same with other code in the script element. *)
Lemma html_parsing_path_drops_non_content_witness :
  html_extractor.extract sample_env SCRIPT_AND_PARAGRAPH (u "page.html")
  = ([EvLib bs4_BeautifulSoup_],
     Return {| r_text := Some (u "Hello");
               r_page_count := Some 0%Z;
               r_metadata := None |})
  /\ html_extractor.extract_soup other_script_soup
     = html_extractor.extract_soup script_and_paragraph_soup.
Proof.
  destruct (html_parsing_path_drops_non_content sample_env SCRIPT_AND_PARAGRAPH
              (u "page.html") sample_BeautifulSoup script_and_paragraph_soup
              eq_refl eq_refl) as (Hrun & _ & Hag & _).
  split; [exact Hrun|].
  apply (Hag (u "[document]") _ _ eq_refl).
  repeat first
    [ apply Forall2_nil_2 | apply Forall2_cons_2 | apply agree_string
    | apply agree_non_content; decide_closed
    | apply agree_tag ].
Defined.

(** *** The blank-line filter *)

Lemma dedup_loop_collapse lines prev_blank result :
  html_extractor.dedup_loop lines prev_blank result
  = result ++ collapse_blank lines prev_blank.
Proof.
  revert prev_blank result.
  induction lines as [|line rest IH]; intros prev_blank result; simpl.
  - by rewrite app_nil_r.
  - rewrite truthy_strip, negb_involutive.
    destruct (is_blank line && prev_blank); [apply IH|].
    by rewrite IH, <- app_assoc.
Qed.

(** On the list of entries the filter does what its comment says: no two
    blank entries follow each other in its result. *)
Lemma collapse_blank_run (lines : list str) (prev_blank : bool) :
  (max_blank_run_go (if prev_blank then 1 else 0)
     (collapse_blank lines prev_blank) <= 1)%nat.
Proof.
  revert prev_blank.
  induction lines as [|line rest IH]; intros prev_blank; simpl.
  - destruct prev_blank; lia.
  - destruct (is_blank line) eqn:Hb; simpl.
    + destruct prev_blank; simpl.
      * apply (IH true).
      * rewrite Hb. apply (IH true).
    + rewrite Hb. pose proof (IH false) as IHf. simpl in IHf.
      destruct prev_blank; lia.
Qed.

Lemma dedup_loop_no_adjacent_blank_entries lines :
  (max_blank_run_go 0 (html_extractor.dedup_loop lines false []) <= 1)%nat.
Proof. rewrite dedup_loop_collapse. apply (collapse_blank_run lines false). Qed.

Lemma collapse_blank_nonblank lines prev_blank :
  Forall (fun l => is_blank l = false) lines ->
  collapse_blank lines prev_blank = lines.
Proof.
  intros H. revert prev_blank.
  induction H as [|line rest Hb _ IH]; intros prev_blank; simpl; [done|].
  rewrite Hb. simpl. by rewrite IH.
Qed.

Lemma stripped_strings_nonblank l :
  Forall (fun s => is_blank s = false) (html_extractor.stripped_strings l).
Proof.
  induction l as [|n r IH]; simpl; [constructor|].
  destruct n as [[] s|name children]; try done;
    (destruct (truthy (strip s)) eqn:Ht; [|done]);
    (constructor; [|done]);
    rewrite truthy_strip in Ht; rewrite strip_is_blank;
    by destruct (is_blank s).
Qed.

Lemma join_nonblank sep l :
  Forall (fun s => is_blank s = false) l ->
  truthy (join sep l) = true ->
  is_blank (join sep l) = false.
Proof.
  intros [|p r Hp _]; simpl; [done|].
  destruct r; [done|]. intros _. by rewrite is_blank_app, Hp.
Qed.

Lemma get_text_nonblank n :
  truthy (html_extractor.get_text n) = true ->
  is_blank (html_extractor.get_text n) = false.
Proof. apply join_nonblank, stripped_strings_nonblank. Qed.

(** Every entry the traversal collects holds text: none is blank. *)
Lemma elements_loop_nonblank elements lines :
  Forall (fun l => is_blank l = false) lines ->
  Forall (fun l => is_blank l = false)
    (html_extractor.elements_loop elements lines).
Proof.
  revert lines. induction elements as [|element rest IH]; intros lines Hl;
    simpl; [done|].
  destruct element as [k s|name children]; [by apply IH|].
  destruct (truthy (html_extractor.get_text (Tag name children))) eqn:Ht.
  - pose proof (get_text_nonblank _ Ht) as Hnb.
    repeat (destruct (bool_decide _); simpl);
      apply IH; try done; apply Forall_app; (split; [done|]);
      constructor; try constructor; done.
  - repeat (destruct (bool_decide _); simpl); by apply IH.
Qed.

(** So the filter never drops anything: the strategy's text is the
    collected entries joined by line feeds. *)
Lemma extract_soup_joins_all_lines soup :
  html_extractor.extract_soup soup
  = {| r_text := Some (join nl (html_lines soup));
       r_page_count := Some 0%Z;
       r_metadata := None |}.
Proof.
  unfold html_extractor.extract_soup. fold (html_lines soup).
  rewrite dedup_loop_collapse, collapse_blank_nonblank; [done|].
  apply elements_loop_nonblank. constructor.
Qed.

(** C7 does not hold of the code.  For [<h1>A</h1><h2>B</h2>] on the
    parsing path the two heading entries are each wrapped in line feeds
    and joined by one more, so the text of the strategy, and the text the
    dispatcher returns after stripping it, has two blank lines in a row
    between the headings. *)
Theorem html_adjacent_headings_leave_two_blank_lines :
  bs4_BeautifulSoup sample_env = Some sample_BeautifulSoup
  /\ sample_BeautifulSoup (decode_utf8_replace sample_env TWO_HEADINGS)
     = Return two_headings_soup
  /\ html_extractor.extract sample_env TWO_HEADINGS (u "page.html")
     = ([EvLib bs4_BeautifulSoup_],
        Return {| r_text := Some (nl ++ u "## A" ++ nl ++ nl ++ nl
                                    ++ u "## B" ++ nl);
                  r_page_count := Some 0%Z;
                  r_metadata := None |})
  /\ max_blank_run (nl ++ u "## A" ++ nl ++ nl ++ nl ++ u "## B" ++ nl) = 2%nat
  /\ (exists t,
        main.extract sample_env (upload TWO_HEADINGS) (u "text/html")
          (Some (u "page.html"))
        = (t, main.OK {| main.text := u "## A" ++ nl ++ nl ++ nl ++ u "## B";
                         main.page_count := 0;
                         main.metadata := ∅ |}))
  /\ max_blank_run (u "## A" ++ nl ++ nl ++ nl ++ u "## B") = 2%nat.
Proof.
  split; [reflexivity|]. split; [reflexivity|]. split; [reflexivity|].
  split; [reflexivity|]. split; [|reflexivity].
  eexists. reflexivity.
Qed.

(** * Further properties of the code *)

(** Closed decidable propositions that do not hold, by evaluation. *)
Ltac refute_closed :=
  let H := fresh "H" in
  intros H; apply (bool_decide_pack _) in H; vm_compute in H; exact H.

(** ** Office tables and paragraphs *)

Lemma is_blank_row_text_two c1 c2 row :
  is_blank (row_text (c1 :: c2 :: row)) = false.
Proof.
  unfold row_text. simpl. rewrite is_blank_app. simpl. apply andb_false_r.
Qed.

(** A table row (DOCX or PPTX) is dropped exactly when it has no cell or
    a single cell that is blank: two or more cells always give a row of
    output, whatever they hold, because the [" | "] between them is not
    blank. *)
Theorem table_row_dropped_iff (row : list str) (rows : list str) :
  (office.rows_loop [row] rows = rows
   <-> row = [] \/ exists c, row = [c] /\ is_blank c = true)
  /\ (office.rows_loop [row] rows = rows
      \/ office.rows_loop [row] rows = rows ++ [row_text row]).
Proof.
  simpl. fold (row_text row). rewrite truthy_strip.
  destruct (is_blank (row_text row)) eqn:Hb; simpl.
  - split; [|by left]. split; [|done]. intros _.
    destruct row as [|c1 [|c2 row]].
    + by left.
    + right. exists c1. split; [done|].
      unfold row_text in Hb. simpl in Hb. by rewrite strip_is_blank in Hb.
    + by rewrite is_blank_row_text_two in Hb.
  - split; [|by right]. split.
    + intros H. apply (f_equal length) in H. rewrite length_app in H.
      simpl in H. lia.
    + intros [-> | (c & -> & Hc)].
      * done.
      * unfold row_text in Hb. simpl in Hb. rewrite strip_is_blank in Hb.
        congruence.
Qed.

Lemma rows_loop_spec table_rows rows :
  office.rows_loop table_rows rows
  = rows ++ List.filter (fun t => negb (is_blank t)) (row_text <$> table_rows).
Proof.
  revert rows. induction table_rows as [|row rest IH]; intros rows; simpl.
  - by rewrite app_nil_r.
  - fold (row_text row). rewrite truthy_strip.
    destruct (is_blank (row_text row)); simpl; [apply IH|].
    by rewrite IH, <- app_assoc.
Qed.

Lemma filter_fmap_row_text tbl :
  List.filter (fun t => negb (is_blank t)) (row_text <$> tbl)
  = row_text <$> List.filter (fun r => negb (is_blank (row_text r))) tbl.
Proof.
  induction tbl as [|r rest IH]; [done|].
  rewrite fmap_cons. cbn [List.filter].
  destruct (is_blank (row_text r)); cbn [negb]; by rewrite ?fmap_cons, IH.
Qed.

Lemma docx_paragraphs_loop_spec paras parts :
  office.docx_paragraphs_loop paras parts
  = parts ++ (paras ≫= docx_paragraph_part).
Proof.
  revert parts. induction paras as [|para rest IH]; intros parts.
  - by rewrite app_nil_r.
  - rewrite bind_cons. cbn [office.docx_paragraphs_loop].
    unfold docx_paragraph_part at 1. rewrite truthy_strip.
    destruct (is_blank (para_text para)); cbn [negb]; [apply IH|].
    destruct (startswith (para_style_name para) (u "Heading"));
      rewrite IH, <- app_assoc; done.
Qed.

Lemma docx_tables_loop_spec tables parts :
  office.docx_tables_loop tables parts
  = parts ++ (tables ≫= docx_table_part).
Proof.
  revert parts. induction tables as [|tbl rest IH]; intros parts.
  - by rewrite app_nil_r.
  - rewrite bind_cons. simpl. unfold docx_table_part at 1.
    rewrite rows_loop_spec. simpl. rewrite filter_fmap_row_text.
    destruct (List.filter _ tbl) as [|r rs]; simpl; [apply IH|].
    by rewrite IH, <- app_assoc.
Qed.

(** For every document python-docx returns, [extract_docx] returns with
    [page_count = 0] and no metadata, and its text is, joined by line
    feeds: one part per non-blank paragraph in document order (a heading
    wrapped as a [##] line, any other paragraph stripped), and only then
    one part per table that has a row to show, wherever the tables stand
    in the document. *)
Theorem docx_paragraphs_then_tables
    (env : Env) (file_bytes : bytes) (filename : str) (doc : docx_document) :
  docx_Document env file_bytes = Return doc ->
  office.extract_docx env file_bytes filename
  = ([EvLib docx_Document_],
     Return {| r_text := Some (join nl ((docx_paragraphs doc ≫= docx_paragraph_part)
                                         ++ (docx_tables doc ≫= docx_table_part)));
               r_page_count := Some 0%Z;
               r_metadata := None |}).
Proof.
  intros H. unfold office.extract_docx, call, bind. rewrite H. simpl.
  by rewrite docx_tables_loop_spec, docx_paragraphs_loop_spec.
Qed.

(** The statement above, on the sample document. *)
Lemma docx_paragraphs_then_tables_witness :
  office.extract_docx sample_env (u "PK docx") (u "report.docx")
  = ([EvLib docx_Document_],
     Return {| r_text := Some (nl ++ u "## Title" ++ nl ++ nl ++ u "Body");
               r_page_count := Some 0%Z;
               r_metadata := None |}).
Proof.
  rewrite (docx_paragraphs_then_tables sample_env (u "PK docx") (u "report.docx")
             _ eq_refl).
  reflexivity.
Defined.

(** ** The XLSX strategy *)

Lemma xlsx_rows_loop_spec rows parts :
  office.xlsx_rows_loop rows parts
  = parts ++ (join tab <$> List.filter (fun cells => negb (bool_decide (cells = [])))
                             (office.xlsx_cells <$> rows)).
Proof.
  revert parts. induction rows as [|row rest IH]; intros parts.
  - by rewrite app_nil_r.
  - rewrite fmap_cons. cbn [office.xlsx_rows_loop List.filter].
    destruct (office.xlsx_cells row) as [|c cs] eqn:Hc.
    + rewrite bool_decide_eq_true_2 by done. apply IH.
    + rewrite bool_decide_eq_false_2 by done. cbn [negb].
      by rewrite fmap_cons, IH, <- app_assoc.
Qed.

Lemma xlsx_sheets_loop_spec sheets parts :
  office.xlsx_sheets_loop sheets parts = parts ++ (sheets ≫= sheet_part).
Proof.
  revert parts. induction sheets as [|ws rest IH]; intros parts.
  - by rewrite app_nil_r.
  - rewrite bind_cons. cbn [office.xlsx_sheets_loop].
    rewrite IH, xlsx_rows_loop_spec. unfold sheet_part at 2.
    by rewrite <- !app_assoc.
Qed.

(** For every workbook openpyxl returns, [extract_xlsx] returns with
    [page_count = 0]; its text is, sheet by sheet in workbook order, the
    header line of the sheet followed by one line per row that has at
    least one value other than [None], the values joined by tabs.  Every
    sheet shows its header, also a sheet without rows, so the output has at
    least as many parts as the workbook has sheets. *)
Theorem xlsx_sheet_headers_and_rows
    (env : Env) (file_bytes : bytes) (filename : str) (wb : list worksheet) :
  openpyxl_load_workbook env file_bytes = Return wb ->
  office.extract_xlsx env file_bytes filename
  = ([EvLib openpyxl_load_workbook_],
     Return {| r_text := Some (join nl (wb ≫= sheet_part));
               r_page_count := Some 0%Z;
               r_metadata := None |})
  /\ (length wb <= length (wb ≫= sheet_part))%nat
  /\ (forall ws, ws ∈ wb ->
        nl ++ u "# Sheet: " ++ sheet_name ws ++ nl ∈ wb ≫= sheet_part).
Proof.
  intros H. split; [|split].
  - unfold office.extract_xlsx, call, bind. rewrite H. simpl.
    by rewrite xlsx_sheets_loop_spec.
  - clear H. induction wb as [|ws rest IH]; [done|].
    rewrite bind_cons, length_app. unfold sheet_part at 1. simpl. lia.
  - intros ws Hin. apply list_elem_of_bind. exists ws. split; [|done].
    unfold sheet_part. left.
Qed.

(** The statement above, on the sample workbook: the row of
    [None] alone is left out, the [None] inside the first row is skipped. *)
Lemma xlsx_sheet_headers_and_rows_witness :
  office.extract_xlsx sample_env (u "PK xlsx") (u "book.xlsx")
  = ([EvLib openpyxl_load_workbook_],
     Return {| r_text := Some (nl ++ u "# Sheet: Sheet1" ++ nl ++ nl
                                 ++ u "1" ++ tab ++ u "x");
               r_page_count := Some 0%Z;
               r_metadata := None |}).
Proof.
  destruct (xlsx_sheet_headers_and_rows sample_env (u "PK xlsx") (u "book.xlsx")
              _ eq_refl) as [H _].
  exact H.
Defined.

(** ** The parts of a slide *)

Lemma pptx_paragraphs_loop_spec paras slide_parts :
  office.pptx_paragraphs_loop paras slide_parts
  = slide_parts ++ List.filter (fun line => negb (is_blank line))
                     ((fun runs => strip (concat runs)) <$> paras).
Proof.
  revert slide_parts. induction paras as [|runs rest IH]; intros slide_parts.
  - by rewrite app_nil_r.
  - rewrite fmap_cons. cbn [office.pptx_paragraphs_loop List.filter].
    rewrite strip_is_blank, <- truthy_strip.
    destruct (truthy (strip (concat runs))); cbn [negb]; [|apply IH].
    by rewrite IH, <- app_assoc.
Qed.

Lemma pptx_shapes_loop_spec shapes slide_parts :
  office.pptx_shapes_loop shapes slide_parts
  = slide_parts ++ (shapes ≫= shape_part).
Proof.
  revert slide_parts. induction shapes as [|shape rest IH]; intros slide_parts.
  - by rewrite app_nil_r.
  - rewrite bind_cons. cbn [office.pptx_shapes_loop]. rewrite IH.
    destruct (text_frame shape) as [paras|] eqn:Htf,
             (table shape) as [table_rows|] eqn:Htb;
      unfold shape_part; rewrite Htf, Htb;
      rewrite ?rows_loop_spec, ?pptx_paragraphs_loop_spec, ?app_nil_r;
      cbn [app]; by rewrite <- ?app_assoc.
Qed.

(** The parts of slide number [n] are its header marker, then what its
    shapes add in shape order (for each shape the non-blank paragraphs of
    the text frame, each the concatenation of its runs, then the rows of
    the table), and last the speaker notes, prefixed by [[Notes] ], when
    they are not blank.  None of the parts after the header is blank. *)
Theorem pptx_slide_parts_layout (n : nat) (slide : pptx_slide) :
  office.pptx_slide_parts n slide
  = slide_header n :: (slide_shapes slide ≫= shape_part) ++ notes_part slide
  /\ Forall (fun part => is_blank part = false)
       ((slide_shapes slide ≫= shape_part) ++ notes_part slide).
Proof.
  split.
  - unfold office.pptx_slide_parts, notes_part. fold (slide_header n).
    rewrite pptx_shapes_loop_spec.
    destruct (notes_slide slide) as [notes|]; [|by rewrite app_nil_r].
    rewrite truthy_strip. destruct (is_blank notes); cbn [negb];
      [by rewrite app_nil_r | done].
  - apply Forall_app. split.
    + apply Forall_forall. intros part (shape & Hin & _)%list_elem_of_bind.
      unfold shape_part in Hin.
      apply elem_of_app in Hin as [Hin | Hin];
        [destruct (text_frame shape) | destruct (table shape)];
        try (by apply elem_of_nil in Hin);
        apply list_elem_of_In, filter_In in Hin as [_ Hnb];
        by destruct (is_blank part).
    + unfold notes_part. destruct (notes_slide slide) as [notes|]; [|constructor].
      destruct (is_blank notes); constructor; [done | constructor].
Qed.

(** ** The PDF strategy: metadata and the empty text *)

Lemma filter_length_le {A} (f : A -> bool) (l : list A) :
  (length (List.filter f l) <= length l)%nat.
Proof. induction l as [|x l IH]; simpl; [lia|]. destruct (f x); simpl; lia. Qed.

Lemma filter_nonblank_Forall (pages : list str) :
  Forall (fun p => is_blank p = false)
    (List.filter (fun p => negb (is_blank p)) pages).
Proof.
  apply Forall_forall. intros p [_ H]%list_elem_of_In%filter_In.
  by destruct (is_blank p).
Qed.

Lemma join_nonblank_cons sep p (l : list str) :
  is_blank p = false -> is_blank (join sep (p :: l)) = false.
Proof.
  intros Hp. simpl. destruct l; [done|]. by rewrite is_blank_app, Hp.
Qed.

(** For a PDF that opens and is read to the end, the metadata of the
    result has exactly the keys [title], [author] and [subject]; each
    holds the document's value for that key, or the empty string when the
    document has no metadata or no such key.  Whatever else the
    document's metadata holds is left out. *)
Theorem pdf_metadata_three_keys
    (env : Env) (file_bytes : bytes) (filename : str)
    (texts : list str) (doc_meta : option (gmap string mvalue)) :
  fitz_open env file_bytes = Return (pdf_readable texts doc_meta) ->
  exists text page_count meta,
    pdf.extract env file_bytes filename
    = (pdf_read_events (length texts),
       Return {| r_text := Some text;
                 r_page_count := Some page_count;
                 r_metadata := Some meta |})
    /\ dom meta = ({["title"; "author"; "subject"]} : gset string)
    /\ (forall k, k ∈ ["title"; "author"; "subject"]%string ->
        meta !! k
        = Some (default (MStr []) (default ∅ doc_meta !! k)))
    /\ (doc_meta = None ->
        forall k, k ∈ ["title"; "author"; "subject"]%string ->
                  meta !! k = Some (MStr [])).
Proof.
  intros Hopen. rewrite (pdf_extract_readable _ _ _ _ _ Hopen).
  eexists _, _, _. split; [reflexivity|]. split; [|split].
  - rewrite !dom_insert_L, dom_empty_L. set_solver.
  - intros k Hk. unfold pdf.meta_get.
    repeat (apply elem_of_cons in Hk as [-> | Hk]); [done..|].
    by apply elem_of_nil in Hk.
  - intros -> k Hk. unfold pdf.meta_get.
    repeat (apply elem_of_cons in Hk as [-> | Hk]); [done..|].
    by apply elem_of_nil in Hk.
Qed.

(** The statement above, on the sample document, which has no
    metadata. *)
Lemma pdf_metadata_three_keys_witness :
  exists text page_count meta,
    pdf.extract sample_env (u "%PDF two pages") (u "a.pdf")
    = (pdf_read_events 2,
       Return {| r_text := Some text;
                 r_page_count := Some page_count;
                 r_metadata := Some meta |})
    /\ meta !! "author"%string = Some (MStr []).
Proof.
  destruct (pdf_metadata_three_keys sample_env (u "%PDF two pages") (u "a.pdf")
              [u "Hello"; u "World"] None eq_refl)
    as (text & n & meta & Hrun & _ & _ & Hnone).
  exists text, n, meta. split; [exact Hrun|].
  apply Hnone; [reflexivity|]. decide_closed.
Defined.

(** For a PDF that opens and is read to the end, [page_count] lies
    between 0 and the number of pages, and it is 0 exactly when the text
    is empty: a document of blank pages only gives the empty text, and as
    soon as one page has text the result's text is not blank. *)
Theorem pdf_page_count_zero_iff_text_empty
    (env : Env) (file_bytes : bytes) (filename : str)
    (texts : list str) (doc_meta : option (gmap string mvalue)) :
  fitz_open env file_bytes = Return (pdf_readable texts doc_meta) ->
  exists text page_count meta,
    pdf.extract env file_bytes filename
    = (pdf_read_events (length texts),
       Return {| r_text := Some text;
                 r_page_count := Some page_count;
                 r_metadata := Some meta |})
    /\ (0 <= page_count <= Z.of_nat (length texts))%Z
    /\ (page_count = 0%Z <-> text = [])
    /\ (page_count = 0%Z <-> Forall (fun p => is_blank p = true) texts)
    /\ (page_count <> 0%Z -> is_blank text = false).
Proof.
  intros Hopen. rewrite (pdf_extract_readable _ _ _ _ _ Hopen).
  eexists _, _, _. split; [reflexivity|].
  pose proof (filter_length_le (fun p => negb (is_blank p)) texts) as Hle.
  pose proof (filter_nonblank_Forall texts) as Hnb.
  assert (Hall : List.filter (fun p => negb (is_blank p)) texts = []
                 <-> Forall (fun p => is_blank p = true) texts).
  { clear. induction texts as [|p ps IH]; simpl.
    - split; [constructor | done].
    - destruct (is_blank p) eqn:Hp; simpl.
      + rewrite IH. split; [by constructor | by intros [_ ?]%Forall_cons].
      + split; [done|]. intros [? _]%Forall_cons. congruence. }
  destruct (List.filter _ texts) as [|p kept] eqn:Hk.
  - split; [simpl; lia|]. split; [done|]. split; [|done].
    split; intros _; [by apply Hall | done].
  - apply Forall_cons in Hnb as [Hp _].
    pose proof (join_nonblank_cons pdf.PAGE_BREAK p kept Hp) as Hj.
    split; [lia|]. split; [|split].
    + split; [simpl; lia|]. intros Hnil. rewrite Hnil in Hj. done.
    + split; [simpl; lia|]. intros H. by apply Hall in H.
    + done.
Qed.

(** The statement above, on the sample document with one
    page of whitespace. *)
Lemma pdf_page_count_zero_iff_text_empty_witness :
  exists meta,
    pdf.extract sample_env (u "%PDF blank page") (u "a.pdf")
    = (pdf_read_events 1,
       Return {| r_text := Some [];
                 r_page_count := Some 0%Z;
                 r_metadata := Some meta |}).
Proof.
  destruct (pdf_page_count_zero_iff_text_empty sample_env (u "%PDF blank page")
              (u "a.pdf") [u "  " ++ nl ++ tab] None eq_refl)
    as (text & n & meta & Hrun & _ & Htext & Hall & _).
  assert (n = 0%Z) as ->
      by (apply Hall; repeat constructor).
  assert (text = []) as -> by (by apply Htext).
  exists meta. exact Hrun.
Defined.

(** ** The traces of the strategies *)

Lemma bind_trace_nil {A B} (m : M A) (k : A -> M B) :
  m.1 = [] -> (forall a, (k a).1 = []) -> (bind m k).1 = [].
Proof.
  destruct m as [t [a|e]]; simpl; intros -> Hk; [|done].
  specialize (Hk a). by destruct (k a) as [t' r]; simpl in *; subst.
Qed.

Lemma join_items_trace i items : (notebook.join_items i items).1 = [].
Proof.
  revert i. induction items as [|v rest IH]; intros i; [done|].
  destruct v; try done. cbn [notebook.join_items].
  by apply bind_trace_nil.
Qed.

Lemma cell_step_trace cell parts : (notebook.cell_step cell parts).1 = [].
Proof.
  unfold notebook.cell_step.
  apply bind_trace_nil; [by destruct cell|]. intros cell_type.
  apply bind_trace_nil; [by destruct cell|]. intros source.
  apply bind_trace_nil.
  { destruct source; try done. apply bind_trace_nil; [apply join_items_trace|done]. }
  intros source'. apply bind_trace_nil; [by destruct source'|]. intros s.
  destruct (truthy s); [|done].
  by repeat destruct (notebook.str_eq _ _).
Qed.

Lemma cells_loop_trace cells parts : (notebook.cells_loop cells parts).1 = [].
Proof.
  revert parts. induction cells as [|cell rest IH]; intros parts; [done|].
  cbn [notebook.cells_loop]. apply bind_trace_nil; [apply cell_step_trace|done].
Qed.

Lemma render_trace cells filename : (notebook.render cells filename).1 = [].
Proof.
  unfold notebook.render. apply bind_trace_nil; [by destruct cells|].
  intros l. apply bind_trace_nil; [apply cells_loop_trace|done].
Qed.

Lemma lib_only_nil : lib_only [].
Proof. constructor. Qed.

Lemma lib_only_cons f t : lib_only t -> lib_only (EvLib f :: t).
Proof. by constructor. Qed.

Lemma lib_only_app t1 t2 : lib_only t1 -> lib_only t2 -> lib_only (t1 ++ t2).
Proof. apply Forall_app_2. Qed.

Lemma bind_lib_only {A B} (m : M A) (k : A -> M B) :
  lib_only m.1 -> (forall a, lib_only (k a).1) -> lib_only (bind m k).1.
Proof.
  intros Hm Hk. unfold bind. destruct m as [t [a|e]]; [|done].
  specialize (Hk a). destruct (k a) as [t' r]. by apply lib_only_app.
Qed.

Lemma call_lib_only {A} f (r : outcome A) : lib_only (call f r).1.
Proof. by repeat constructor. Qed.

Lemma pages_loop_trace pages acc : lib_only (pdf.pages_loop pages acc).1.
Proof.
  revert acc. induction pages as [|page rest IH]; intros acc.
  - constructor.
  - cbn [pdf.pages_loop]. apply bind_lib_only; [apply call_lib_only|].
    intros page_text. destruct (truthy (strip page_text)); apply IH.
Qed.

Lemma pdf_trace env b fn : lib_only (pdf.extract env b fn).1.
Proof.
  unfold pdf.extract, try_except. unfold call at 1.
  destruct (fitz_open env b) as [doc|e]; [|by repeat constructor].
  match goal with
  | |- lib_only (let '(t', r) := ?m in _).1 =>
      assert (H : lib_only m.1); [|destruct m as [t' r]; by constructor]
  end.
  apply bind_lib_only; [apply call_lib_only|]. intros pages.
  apply bind_lib_only; [apply pages_loop_trace|]. intros page_texts.
  apply bind_lib_only; [apply call_lib_only|]. intros metadata.
  apply bind_lib_only; [apply call_lib_only|]. intros _. constructor.
Qed.

Lemma docx_trace env b fn : lib_only (office.extract_docx env b fn).1.
Proof.
  unfold office.extract_docx, call, bind.
  destruct (docx_Document env b); simpl; by repeat constructor.
Qed.

Lemma xlsx_trace env b fn : lib_only (office.extract_xlsx env b fn).1.
Proof.
  unfold office.extract_xlsx, call, bind.
  destruct (openpyxl_load_workbook env b); simpl; by repeat constructor.
Qed.

Lemma pptx_trace env b fn : lib_only (office.extract_pptx env b fn).1.
Proof.
  unfold office.extract_pptx, call, bind.
  destruct (pptx_Presentation env b); simpl; by repeat constructor.
Qed.

Lemma notebook_trace env b fn : lib_only (notebook.extract env b fn).1.
Proof.
  unfold notebook.extract, try_except, call.
  destruct (nbformat_reads_cells env _) as [cells|e].
  - pose proof (render_trace cells fn) as H.
    destruct (notebook.render cells fn) as [t r]. simpl in *. subst.
    by repeat constructor.
  - unfold bind. destruct (json_loads env _) as [raw|e']; simpl.
    + destruct raw; simpl; try by repeat constructor.
      match goal with |- context [notebook.render ?c fn] =>
        pose proof (render_trace c fn) as H;
        destruct (notebook.render c fn) as [t r] end.
      simpl in *. subst. by repeat constructor.
    + by repeat constructor.
Qed.

Lemma html_trace env b fn : lib_only (html_extractor.extract env b fn).1.
Proof.
  unfold html_extractor.extract, call, bind.
  destruct (bs4_BeautifulSoup env) as [parse|]; [|constructor].
  destruct (parse _); simpl; by repeat constructor.
Qed.

Lemma image_trace env b fn : lib_only (image.extract env b fn).1.
Proof.
  unfold image.extract, try_except, call, bind.
  destruct (OCR_AVAILABLE env); simpl; [|constructor].
  destruct (PILImage_open env b) as [img|e]; simpl; [|by repeat constructor].
  destruct (bool_decide _); simpl.
  - destruct (pytesseract_image_to_string env img) as [text|e]; simpl;
      [destruct (truthy (strip text))|]; simpl; by repeat constructor.
  - destruct (PILImage_convert_RGB env img) as [img'|e]; simpl;
      [|by repeat constructor].
    destruct (pytesseract_image_to_string env img') as [text|e]; simpl;
      [destruct (truthy (strip text))|]; simpl; by repeat constructor.
Qed.

(** The strategy at a key of the registry. *)
Lemma EXTRACTORS_lookup env mime f :
  main.EXTRACTORS env !! mime = Some f ->
  (mime = main.MIME_PDF /\ f = pdf.extract env)
  \/ (mime = main.MIME_DOCX /\ f = office.extract_docx env)
  \/ (mime = main.MIME_XLSX /\ f = office.extract_xlsx env)
  \/ (mime = main.MIME_PPTX /\ f = office.extract_pptx env)
  \/ (mime ∈ NOTEBOOK_MIME_TYPES /\ f = notebook.extract env)
  \/ (mime = u "text/html" /\ f = html_extractor.extract env)
  \/ (mime ∈ IMAGE_MIME_TYPES /\ f = image.extract env).
Proof.
  intros Hreg.
  assert (Hin : mime ∈ (main.EXTRACTORS_items env).*1)
    by (apply EXTRACTORS_keys; eauto).
  cbn [main.EXTRACTORS_items fmap list_fmap fst] in Hin.
  repeat (apply elem_of_cons in Hin as [-> | Hin]);
    [ registry_entry Hreg (pdf.extract env)
    | registry_entry Hreg (office.extract_docx env)
    | registry_entry Hreg (office.extract_xlsx env)
    | registry_entry Hreg (office.extract_pptx env)
    | registry_entry Hreg (notebook.extract env)
    | registry_entry Hreg (notebook.extract env)
    | registry_entry Hreg (notebook.extract env)
    | registry_entry Hreg (html_extractor.extract env)
    | registry_entry Hreg (image.extract env)
    | registry_entry Hreg (image.extract env)
    | registry_entry Hreg (image.extract env)
    | registry_entry Hreg (image.extract env)
    | registry_entry Hreg (image.extract env)
    | registry_entry Hreg (image.extract env)
    | by apply elem_of_nil in Hin ].
  - by left.
  - right; by left.
  - do 2 right; by left.
  - do 3 right; by left.
  - do 4 right; left; split; [decide_closed | done].
  - do 4 right; left; split; [decide_closed | done].
  - do 4 right; left; split; [decide_closed | done].
  - do 5 right; by left.
  - do 6 right; split; [decide_closed | done].
  - do 6 right; split; [decide_closed | done].
  - do 6 right; split; [decide_closed | done].
  - do 6 right; split; [decide_closed | done].
  - do 6 right; split; [decide_closed | done].
  - do 6 right; split; [decide_closed | done].
Qed.

Lemma registry_trace env mime f b fn :
  main.EXTRACTORS env !! mime = Some f -> lib_only (f b fn).1.
Proof.
  intros Hreg.
  destruct (EXTRACTORS_lookup env mime f Hreg)
    as [[_ ->]|[[_ ->]|[[_ ->]|[[_ ->]|[[_ ->]|[[_ ->]|[_ ->]]]]]]];
    auto using pdf_trace, docx_trace, xlsx_trace, pptx_trace, notebook_trace,
      html_trace, image_trace.
Qed.

Lemma count_extractor_calls_app t1 t2 :
  count_extractor_calls (t1 ++ t2)
  = (count_extractor_calls t1 + count_extractor_calls t2)%nat.
Proof.
  induction t1 as [|ev t1 IH]; [done|]. destruct ev; simpl; by rewrite IH.
Qed.

Lemma count_extractor_calls_lib_only t :
  lib_only t -> count_extractor_calls t = 0%nat.
Proof. induction 1 as [|ev t Hev _ IH]; [done|]. by destruct ev. Qed.

(** ** The dispatcher, as a whole *)

(** On a supported MIME type with a non-empty upload the dispatcher calls
    the strategy of the registry exactly once, on the whole buffer, under
    the given file name or under [unknown] when none or an empty one is
    given; the name it passes is never empty.  The call stands right after
    the log record of the request. *)
Theorem extract_calls_strategy_exactly_once
    (env : Env) (file : main.UploadFile) (mime_type : str)
    (filename : option str) :
  is_Some (main.EXTRACTORS env !! mime_type) ->
  main.file_content file <> [] ->
  count_extractor_calls (main.extract env file mime_type filename).1 = 1%nat
  /\ (main.extract env file mime_type filename).1 !! 1%nat
     = Some (EvCallExtractor mime_type (main.file_content file)
               (main.filename_or_unknown filename))
  /\ main.filename_or_unknown filename <> []
  /\ (filename = None \/ filename = Some [] ->
      main.filename_or_unknown filename = u "unknown").
Proof.
  intros [f Hreg] Hne.
  destruct (main.file_content file) as [|c b] eqn:Hb; [done|].
  rewrite (extract_dispatch env file mime_type filename f c b Hreg Hb).
  pose proof (registry_trace env mime_type f (c :: b)
                (main.filename_or_unknown filename) Hreg) as Hlib.
  apply count_extractor_calls_lib_only in Hlib.
  unfold main.run_extractor. simpl.
  destruct (f (c :: b) (main.filename_or_unknown filename)) as [t [d|e]];
    simpl in *;
    (split; [by rewrite count_extractor_calls_app, Hlib|]);
    (split; [done|]);
    (split; [by destruct filename as [[|]|] | by intros [-> | ->]]).
Qed.

(** The statement above, on a PDF upload without a file
    name. *)
Lemma extract_calls_strategy_exactly_once_witness :
  count_extractor_calls
    (main.extract sample_env (upload (u "garbage")) main.MIME_PDF None).1
  = 1%nat.
Proof.
  apply (extract_calls_strategy_exactly_once sample_env (upload (u "garbage"))
           main.MIME_PDF None).
  - eexists. reflexivity.
  - discriminate.
Defined.

(** [POST /extract] lets no exception escape and answers with one of four
    statuses: 415 exactly when the MIME type is not a key of the registry;
    400 exactly when it is a key and the upload is empty; otherwise 200
    when the strategy returns and 500 when it raises. *)
Theorem extract_answers_with_four_statuses
    (env : Env) (file : main.UploadFile) (mime_type : str)
    (filename : option str) :
  let answer := (main.extract env file mime_type filename).2 in
  (forall e, answer <> main.Unhandled e)
  /\ (status_of answer = Some 415%Z <-> main.EXTRACTORS env !! mime_type = None)
  /\ (status_of answer = Some 400%Z
      <-> is_Some (main.EXTRACTORS env !! mime_type)
          /\ main.file_content file = [])
  /\ (status_of answer = Some 200%Z
      <-> exists f t d,
            main.EXTRACTORS env !! mime_type = Some f
            /\ main.file_content file <> []
            /\ f (main.file_content file) (main.filename_or_unknown filename)
               = (t, Return d))
  /\ (status_of answer = Some 500%Z
      <-> exists f t e,
            main.EXTRACTORS env !! mime_type = Some f
            /\ main.file_content file <> []
            /\ f (main.file_content file) (main.filename_or_unknown filename)
               = (t, Raise e))
  /\ (exists s, status_of answer = Some s /\ s ∈ [200; 400; 415; 500]%Z).
Proof.
  unfold main.extract.
  destruct (main.EXTRACTORS env !! mime_type) as [f|] eqn:Hreg; simpl.
  - destruct (main.file_content file) as [|c b] eqn:Hb; simpl.
    + split; [done|]. split; [done|]. split; [by eauto|].
      split; [split; [done | by intros (? & ? & ? & _ & ? & _)]|].
      split; [split; [done | by intros (? & ? & ? & _ & ? & _)]|].
      exists 400%Z. split; [done | decide_closed].
    + unfold main.run_extractor. simpl.
      destruct (f (c :: b) (main.filename_or_unknown filename)) as [t [d|e]] eqn:Hf;
        simpl.
      * split; [done|]. split; [done|]. split; [split; [done | by intros [_ ?]]|].
        split; [split; [by eauto 10 | done]|].
        split; [split; [done | intros (? & ? & ? & [= <-] & _ & ?); congruence]|].
        exists 200%Z. split; [done | decide_closed].
      * split; [done|]. split; [done|]. split; [split; [done | by intros [_ ?]]|].
        split; [split; [done | intros (? & ? & ? & [= <-] & _ & ?); congruence]|].
        split; [split; [by eauto 10 | done]|].
        exists 500%Z. split; [done | decide_closed].
  - split; [done|]. split; [done|].
    split; [split; [done | by intros [[? ?] _]]|].
    split; [split; [done | by intros (? & ? & ? & ? & _)]|].
    split; [split; [done | by intros (? & ? & ? & ? & _)]|].
    exists 415%Z. split; [done | decide_closed].
Qed.

(** The keys of the registry are lower-case and carry no parameter, and
    the lookup is exact: a MIME string with an upper-case letter, a space
    or a semicolon in it (such as one with a [charset] parameter) is
    answered with 415, whatever the upload. *)
Theorem extract_rejects_mime_outside_alphabet
    (env : Env) (file : main.UploadFile) (mime_type : str)
    (filename : option str) :
  existsb outside_registry_alphabet mime_type = true ->
  (main.extract env file mime_type filename).2 = UnsupportedType mime_type.
Proof.
  intros Hex. unfold main.extract.
  destruct (main.EXTRACTORS env !! mime_type) as [f|] eqn:Hreg; [|done].
  exfalso.
  assert (Hin : mime_type ∈ (main.EXTRACTORS_items env).*1)
    by (apply EXTRACTORS_keys; eauto).
  cbn [main.EXTRACTORS_items fmap list_fmap fst] in Hin.
  repeat (apply elem_of_cons in Hin as [-> | Hin]);
    try (vm_compute in Hex; discriminate Hex).
  by apply elem_of_nil in Hin.
Qed.

(** The statement above, on an HTML type with a
    charset parameter. *)
Lemma extract_rejects_mime_outside_alphabet_witness :
  (main.extract sample_env (upload (u "<p>x</p>"))
     (u "text/html; charset=utf-8") None).2
  = UnsupportedType (u "text/html; charset=utf-8").
Proof.
  apply (extract_rejects_mime_outside_alphabet sample_env
           (upload (u "<p>x</p>")) (u "text/html; charset=utf-8") None).
  reflexivity.
Defined.

Lemma run_extractor_answer mime1 mime2 f b fn log1 log2 :
  (main.run_extractor mime1 f b fn log1).2
  = (main.run_extractor mime2 f b fn log2).2.
Proof.
  unfold main.run_extractor. simpl. by destruct (f b fn) as [t [d|e]].
Qed.

Lemma extract_answer_by_strategy env file mime1 mime2 filename f :
  main.EXTRACTORS env !! mime1 = Some f ->
  main.EXTRACTORS env !! mime2 = Some f ->
  (main.extract env file mime1 filename).2
  = (main.extract env file mime2 filename).2.
Proof.
  intros H1 H2. unfold main.extract. rewrite H1, H2.
  destruct (main.file_content file) as [|c b]; [done|].
  pose proof (run_extractor_answer mime1 mime2 f (c :: b)
                (main.filename_or_unknown filename) filename filename) as H.
  destruct (main.run_extractor mime1 _ _ _ _), (main.run_extractor mime2 _ _ _ _).
  exact H.
Qed.

Lemma image_registry env mime :
  mime ∈ IMAGE_MIME_TYPES -> main.EXTRACTORS env !! mime = Some (image.extract env).
Proof.
  unfold IMAGE_MIME_TYPES. intros Hin.
  repeat (apply elem_of_cons in Hin as [-> | Hin]); try reflexivity.
  by apply elem_of_nil in Hin.
Qed.

Lemma notebook_registry env mime :
  mime ∈ NOTEBOOK_MIME_TYPES ->
  main.EXTRACTORS env !! mime = Some (notebook.extract env).
Proof.
  unfold NOTEBOOK_MIME_TYPES. intros Hin.
  repeat (apply elem_of_cons in Hin as [-> | Hin]); try reflexivity.
  by apply elem_of_nil in Hin.
Qed.

(** The declared MIME type only selects the strategy; the content is not
    looked at to tell the format.  The same upload under any two of the six
    image types gets the same answer, and so does the same upload under any
    two of the three notebook types. *)
Theorem extract_mime_aliases_answer_alike
    (env : Env) (file : main.UploadFile) (mime1 mime2 : str)
    (filename : option str) :
  (mime1 ∈ IMAGE_MIME_TYPES /\ mime2 ∈ IMAGE_MIME_TYPES)
  \/ (mime1 ∈ NOTEBOOK_MIME_TYPES /\ mime2 ∈ NOTEBOOK_MIME_TYPES) ->
  (main.extract env file mime1 filename).2
  = (main.extract env file mime2 filename).2.
Proof.
  intros [[H1 H2] | [H1 H2]].
  - eapply extract_answer_by_strategy; by apply image_registry.
  - eapply extract_answer_by_strategy; by apply notebook_registry.
Qed.

(** The statement above, on a notebook sent as
    [application/json] and as [application/x-ipynb+json]. *)
Lemma extract_mime_aliases_answer_alike_witness :
  (main.extract sample_env (upload (u "{notebook}")) (u "application/json")
     (Some (u "nb.ipynb"))).2
  = (main.extract sample_env (upload (u "{notebook}"))
       (u "application/x-ipynb+json") (Some (u "nb.ipynb"))).2.
Proof.
  apply (extract_mime_aliases_answer_alike sample_env (upload (u "{notebook}"))
           (u "application/json") (u "application/x-ipynb+json")
           (Some (u "nb.ipynb"))).
  right. split; decide_closed.
Defined.

(** ** The image strategy *)

(** The image strategy never raises: whatever the libraries do, it
    returns a result with [page_count = 0] whose text starts with
    [[Image]. *)
Theorem image_extract_always_returns
    (env : Env) (file_bytes : bytes) (filename : str) :
  exists t d text,
    image.extract env file_bytes filename = (t, Return d)
    /\ r_text d = Some text
    /\ startswith text (u "[Image") = true
    /\ r_page_count d = Some 0%Z.
Proof.
  unfold image.extract, try_except, call, bind.
  destruct (OCR_AVAILABLE env); simpl; [|by eexists _, _, _].
  destruct (PILImage_open env file_bytes) as [img|e]; simpl;
    [|by eexists _, _, _].
  destruct (bool_decide _); simpl.
  - destruct (pytesseract_image_to_string env img) as [text|e]; simpl;
      [destruct (truthy (strip text))|]; simpl; by eexists _, _, _.
  - destruct (PILImage_convert_RGB env img) as [img'|e]; simpl;
      [|by eexists _, _, _].
    destruct (pytesseract_image_to_string env img') as [text|e]; simpl;
      [destruct (truthy (strip text))|]; simpl; by eexists _, _, _.
Qed.

(** With OCR available, an image that does not open is reported in the
    text as an OCR failure with the cause; nothing else is tried (no
    conversion, no OCR run). *)
Theorem image_open_failure_is_absorbed
    (env : Env) (file_bytes : bytes) (filename : str) (e : exn) :
  OCR_AVAILABLE env = true ->
  PILImage_open env file_bytes = Raise e ->
  image.extract env file_bytes filename
  = ([EvLib PILImage_open_],
     Return {| r_text := Some (u "[Image] " ++ filename ++ image.DASH
                                 ++ u "OCR failed: " ++ exn_str e);
               r_page_count := Some 0%Z;
               r_metadata := None |}).
Proof.
  intros Hocr Hopen. unfold image.extract, try_except, call, bind.
  rewrite Hocr, Hopen. reflexivity.
Qed.

(** The statement above, on the sample libraries with OCR
    switched on. *)
Lemma image_open_failure_is_absorbed_witness :
  image.extract (sample_env_with None true) (u "not an image") (u "cat.png")
  = ([EvLib PILImage_open_],
     Return {| r_text := Some (u "[Image] cat.png" ++ image.DASH
                                 ++ u "OCR failed: cannot identify image file");
               r_page_count := Some 0%Z;
               r_metadata := None |}).
Proof.
  apply (image_open_failure_is_absorbed (sample_env_with None true)
           (u "not an image") (u "cat.png")
           (sample_error "cannot identify image file")); reflexivity.
Defined.

(** With OCR available and an image that opens, the image is converted to
    RGB exactly when its mode is neither [RGB] nor [L]. *)
Theorem image_converted_iff_mode_not_rgb_or_l
    (env : Env) (file_bytes : bytes) (filename : str) (img : pil_image) :
  OCR_AVAILABLE env = true ->
  PILImage_open env file_bytes = Return img ->
  (EvLib PILImage_convert_ ∈ (image.extract env file_bytes filename).1
   <-> img_mode img <> u "RGB" /\ img_mode img <> u "L").
Proof.
  intros Hocr Hopen. unfold image.extract, try_except, call, bind.
  rewrite Hocr, Hopen. simpl.
  destruct (bool_decide (img_mode img ∈ [u "RGB"; u "L"])) eqn:Hmode; simpl.
  - apply bool_decide_eq_true in Hmode.
    split.
    + intros Hin. exfalso.
      destruct (pytesseract_image_to_string env img) as [text|e']; simpl in Hin;
        [destruct (truthy (strip text)); simpl in Hin|];
        repeat (apply elem_of_cons in Hin as [Hin | Hin]; [discriminate Hin|]);
        by apply elem_of_nil in Hin.
    + intros [H1 H2]. exfalso.
      repeat (apply elem_of_cons in Hmode as [Hmode | Hmode]; [done|]).
      by apply elem_of_nil in Hmode.
  - apply bool_decide_eq_false in Hmode. split.
    + intros _. split; intros Heq; apply Hmode; rewrite Heq; decide_closed.
    + intros _.
      destruct (PILImage_convert_RGB env img) as [img'|e']; simpl;
        [|right; left].
      destruct (pytesseract_image_to_string env img') as [text|e']; simpl;
        [destruct (truthy (strip text)); simpl|]; right; left.
Qed.

(** The statement above, on a palette image. *)
Lemma image_converted_iff_mode_not_rgb_or_l_witness :
  let env := {| decode_utf8_replace := ascii_decode;
                fitz_open := sample_fitz_open;
                docx_Document := sample_docx_Document;
                openpyxl_load_workbook := sample_load_workbook;
                pptx_Presentation := sample_pptx_Presentation;
                nbformat_reads_cells := fun _ => Raise (sample_error "no nbformat");
                json_loads := sample_json_loads;
                bs4_BeautifulSoup := None;
                OCR_AVAILABLE := true;
                PILImage_open := fun _ =>
                  Return {| img_mode := u "P"; img_width := 4; img_height := 3 |};
                PILImage_convert_RGB := fun img =>
                  Return {| img_mode := u "RGB"; img_width := img_width img;
                            img_height := img_height img |};
                pytesseract_image_to_string := fun _ => Return (u " Hello" ++ nl);
                requests_get := fun _ _ => Raise (sample_error "offline") |} in
  EvLib PILImage_convert_ ∈ (image.extract env (u "GIF89a") (u "cat.gif")).1.
Proof.
  intros env.
  apply (image_converted_iff_mode_not_rgb_or_l env (u "GIF89a") (u "cat.gif")
           {| img_mode := u "P"; img_width := 4; img_height := 3 |}
           eq_refl eq_refl).
  split; discriminate.
Defined.

(** ** Uploads that cannot end in a 500 *)

(** What the strategy does with a document that opened: it raises the
    first exception of the reading, or returns. *)
Lemma pages_loop_outcome pages acc :
  match first_raise pages with
  | Some e => (pdf.pages_loop pages acc).2 = Raise e
  | None => exists texts, pages = Return <$> texts
  end.
Proof.
  revert acc. induction pages as [|[page_text|e] rest IH]; intros acc.
  - by exists [].
  - cbn [first_raise pdf.pages_loop]. unfold bind, call.
    assert (Hrest : forall acc',
              match first_raise rest with
              | Some e => (let '(t', r) := pdf.pages_loop rest acc' in
                           ([EvLib fitz_page_get_text_] ++ t', r)).2 = Raise e
              | None => exists texts, Return page_text :: rest = Return <$> texts
              end).
    { intros acc'. specialize (IH acc').
      destruct (first_raise rest) as [e|].
      - by destruct (pdf.pages_loop rest acc') as [t' r].
      - destruct IH as [texts ->]. by exists (page_text :: texts). }
    destruct (truthy (strip page_text)); apply Hrest.
  - reflexivity.
Qed.

Lemma pdf_read_failure_None doc :
  pdf_read_failure doc = None <->
  exists texts meta, doc = pdf_readable texts meta.
Proof.
  unfold pdf_read_failure. split.
  - destruct doc as [[pages|e] [meta|e'] [[]|e'']]; simpl; try done;
      pose proof (pages_loop_outcome pages []) as Hp;
      destruct (first_raise pages); try done.
    intros _. destruct Hp as [texts ->]. by exists texts, meta.
  - intros (texts & meta & ->). simpl.
    assert (first_raise (Return <$> texts : list (outcome str)) = None) as ->
        by (by induction texts).
    done.
Qed.

Lemma pdf_extract_read_failure env b fn doc e :
  fitz_open env b = Return doc ->
  pdf_read_failure doc = Some e ->
  exists t, pdf.extract env b fn = (t, Raise e).
Proof.
  intros Hopen. unfold pdf_read_failure, pdf.extract, try_except.
  rewrite Hopen. unfold call at 1.
  destruct doc as [[pages|e1] meta close]; simpl.
  2:{ intros [= ->]. unfold bind, call. by eexists. }
  pose proof (pages_loop_outcome pages []) as Hp.
  destruct (first_raise pages) as [e2|].
  { intros [= ->]. unfold bind. destruct (pdf.pages_loop pages []) as [t r].
    simpl in Hp. subst r. by eexists. }
  destruct Hp as [texts ->]. unfold bind. rewrite pages_loop_readable.
  destruct meta as [meta|e3]; [|intros [= ->]; by eexists].
  destruct close as [[]|e4]; [done|].
  intros [= ->]. by eexists.
Qed.

(** A PDF document that opened and cannot be read to the end is not
    answered like one that does not open.  The first exception of the
    reading (the access to the pages, a page, the metadata, the close)
    is raised by the strategy after the open was recorded, and the
    dispatcher answers the upload with an extraction failure that carries
    the first 300 characters of the message.  A document is read to the
    end exactly when there is no such exception. *)
Theorem pdf_read_failure_escapes
    (env : Env) (file : main.UploadFile) (filename : option str)
    (doc : pdf_document) (e : exn) :
  main.file_content file <> [] ->
  fitz_open env (main.file_content file) = Return doc ->
  pdf_read_failure doc = Some e ->
  (exists t,
     pdf.extract env (main.file_content file)
       (main.filename_or_unknown filename)
     = (EvLib fitz_open_ :: t, Raise e))
  /\ (exists t,
        main.extract env file main.MIME_PDF filename
        = (t, ExtractionFailed (take 300 (exn_str e))))
  /\ (forall texts meta, doc <> pdf_readable texts meta).
Proof.
  intros Hne Hopen Hfail.
  destruct (pdf_extract_read_failure env (main.file_content file)
              (main.filename_or_unknown filename) doc e Hopen Hfail)
    as [t Hrun].
  split; [|split].
  - assert (Hhd : exists t', t = EvLib fitz_open_ :: t').
    { revert Hrun. unfold pdf.extract, try_except. rewrite Hopen.
      unfold call at 1.
      match goal with |- (let '(t', r) := ?m in _) = _ -> _ =>
        destruct m as [t' r] end.
      intros [= <- _]. by eexists. }
    destruct Hhd as [t' ->]. by exists t'.
  - destruct (main.file_content file) as [|c b] eqn:Hb; [done|].
    rewrite (extract_dispatch env file main.MIME_PDF filename (pdf.extract env)
               c b eq_refl Hb).
    rewrite (run_extractor_raise _ _ _ _ _ _ _ Hrun). by eexists.
  - intros texts meta ->.
    assert (pdf_read_failure (pdf_readable texts meta) = None) as Hnone
        by (apply pdf_read_failure_None; by eexists _, _).
    congruence.
Qed.

(** The statement above, on the sample document whose second page cannot
    be loaded. *)
Lemma pdf_read_failure_escapes_witness :
  exists t,
    main.extract sample_env (upload (u "%PDF damaged page")) main.MIME_PDF
      (Some (u "a.pdf"))
    = (t, ExtractionFailed (u "cannot load page")).
Proof.
  destruct (pdf_read_failure_escapes sample_env (upload (u "%PDF damaged page"))
              (Some (u "a.pdf")) damaged_page_pdf
              (sample_error "cannot load page"))
    as (_ & Hex & _).
  - discriminate.
  - reflexivity.
  - reflexivity.
  - exact Hex.
Defined.

(** A non-empty upload declared as one of the image types is always
    answered with a response, never with an error, and the response has
    [page_count = 0]: the image strategy turns every failure of its
    libraries into text.  The same holds of an upload declared as PDF
    whose bytes do not open, or open and are read to the end. *)
Theorem image_and_readable_pdf_uploads_get_a_response
    (env : Env) (file : main.UploadFile) (mime_type : str)
    (filename : option str) :
  mime_type ∈ IMAGE_MIME_TYPES
  \/ (mime_type = main.MIME_PDF
      /\ ((exists e, fitz_open env (main.file_content file) = Raise e)
          \/ (exists texts meta,
                fitz_open env (main.file_content file)
                = Return (pdf_readable texts meta)))) ->
  main.file_content file <> [] ->
  exists t r,
    main.extract env file mime_type filename = (t, main.OK r)
    /\ (mime_type ∈ IMAGE_MIME_TYPES -> main.page_count r = 0%Z).
Proof.
  intros Hmime Hne.
  destruct (main.file_content file) as [|c b] eqn:Hb; [done|].
  destruct Hmime as [Himg | [-> Hpdf]].
  - destruct (image_extract_always_returns env (c :: b)
                (main.filename_or_unknown filename))
      as (t & d & text & Hrun & _ & _ & Hpc).
    rewrite (extract_dispatch env file _ filename (image.extract env) c b
               (image_registry env _ Himg) Hb).
    rewrite (run_extractor_return _ _ _ _ _ _ _ Hrun).
    eexists _, _. split; [reflexivity|]. intros _. simpl. by rewrite Hpc.
  - assert (Hrun : exists t d,
              pdf.extract env (c :: b) (main.filename_or_unknown filename)
              = (t, Return d)).
    { destruct Hpdf as [[e He] | (texts & meta & Hopen)].
      - rewrite (pdf_extract_unopened _ _ _ _ He). by eexists _, _.
      - rewrite (pdf_extract_readable _ _ _ _ _ Hopen). by eexists _, _. }
    destruct Hrun as (t & d & Hrun).
    rewrite (extract_dispatch env file main.MIME_PDF filename (pdf.extract env)
               c b eq_refl Hb).
    rewrite (run_extractor_return _ _ _ _ _ _ _ Hrun).
    eexists _, _. split; [reflexivity|]. intros Hin. exfalso.
    apply (bool_decide_pack _) in Hin. vm_compute in Hin. exact Hin.
Qed.

(** The statement above, on an image upload where
    Tesseract is missing. *)
Lemma image_and_readable_pdf_uploads_get_a_response_witness :
  exists t r,
    main.extract sample_env (upload (u "GIF89a")) (u "image/gif") None
    = (t, main.OK r)
    /\ main.page_count r = 0%Z.
Proof.
  destruct (image_and_readable_pdf_uploads_get_a_response sample_env
              (upload (u "GIF89a")) (u "image/gif") None)
    as (t & r & Hrun & Hpc).
  - left. decide_closed.
  - discriminate.
  - exists t, r. split; [exact Hrun|]. apply Hpc. decide_closed.
Defined.

(** ** The Drive endpoint *)

(** [POST /extract-from-drive] checks the MIME type before anything
    else: for a type that is not a key of the registry it answers 415 and
    the only event is the log record, so nothing is downloaded. *)
Theorem drive_rejects_unsupported_before_download
    (env : Env) (req : main.DriveExtractRequest) :
  main.EXTRACTORS env !! main.req_mime_type req = None ->
  main.extract_from_drive env req
  = ([EvLog (LogDriveExtract (main.req_filename req) (main.req_mime_type req)
               (main.req_file_id req))],
     UnsupportedType (main.req_mime_type req))
  /\ EvLib requests_get_ ∉ (main.extract_from_drive env req).1.
Proof.
  intros H. unfold main.extract_from_drive. rewrite H. simpl.
  split; [reflexivity|]. intros Hin.
  apply elem_of_cons in Hin as [Hin | Hin]; [discriminate Hin|].
  by apply elem_of_nil in Hin.
Qed.

(** The statement above, on a plain-text request. *)
Lemma drive_rejects_unsupported_before_download_witness :
  EvLib requests_get_
  ∉ (main.extract_from_drive sample_env
       {| main.req_file_id := u "1a2b"; main.req_access_token := u "token";
          main.req_mime_type := u "text/plain";
          main.req_filename := u "notes.txt" |}).1.
Proof.
  apply (drive_rejects_unsupported_before_download sample_env
           {| main.req_file_id := u "1a2b"; main.req_access_token := u "token";
              main.req_mime_type := u "text/plain";
              main.req_filename := u "notes.txt" |}).
  reflexivity.
Defined.

(** For a supported type, a download that fails never reaches a
    strategy.  A [requests] exception is answered with 502 and its
    message; an answer of Drive with a status other than 200 is answered
    with 502, the status and the first 200 characters of the body; any
    other exception of the download escapes the handler. *)
Theorem drive_download_failure_is_502
    (env : Env) (req : main.DriveExtractRequest) :
  is_Some (main.EXTRACTORS env !! main.req_mime_type req) ->
  (forall e, requests_get env (drive_url req) (drive_auth req) = Raise e ->
     count_extractor_calls (main.extract_from_drive env req).1 = 0%nat
     /\ (exn_cls e = RequestException ->
         (main.extract_from_drive env req).2
         = main.HTTPException 502 (u "Drive download error: " ++ exn_str e))
     /\ (exn_cls e = PyException ->
         (main.extract_from_drive env req).2 = main.Unhandled e))
  /\ (forall resp,
        requests_get env (drive_url req) (drive_auth req) = Return resp ->
        status_code resp <> 200%Z ->
        count_extractor_calls (main.extract_from_drive env req).1 = 0%nat
        /\ (main.extract_from_drive env req).2
           = main.HTTPException 502
               (u "Drive download failed: " ++ u (pretty (status_code resp))
                  ++ u " " ++ take 200 (resp_text resp))).
Proof.
  intros [f Hreg]. unfold main.extract_from_drive, drive_url, drive_auth.
  rewrite Hreg. split.
  - intros e ->. destruct (exn_cls e); simpl; (split; [done|]); by split.
  - intros resp -> Hstatus. by rewrite bool_decide_eq_true_2.
Qed.

(** The statement above, on the sample environment, where the
    download times out. *)
Lemma drive_download_failure_is_502_witness :
  (main.extract_from_drive sample_env
     {| main.req_file_id := u "1a2b"; main.req_access_token := u "token";
        main.req_mime_type := main.MIME_PDF;
        main.req_filename := u "a.pdf" |}).2
  = main.HTTPException 502 (u "Drive download error: timed out").
Proof.
  destruct (drive_download_failure_is_502 sample_env
              {| main.req_file_id := u "1a2b"; main.req_access_token := u "token";
                 main.req_mime_type := main.MIME_PDF;
                 main.req_filename := u "a.pdf" |}) as [Hraise _].
  - eexists. reflexivity.
  - destruct (Hraise (Exn RequestException (u "timed out")) eq_refl)
      as (_ & H & _).
    apply H. reflexivity.
Defined.

(** Once the download has answered 200 with a non-empty body, the Drive
    endpoint answers exactly as the upload endpoint does for the same
    bytes, MIME type and (non-empty) file name. *)
Theorem drive_answers_like_upload
    (env : Env) (req : main.DriveExtractRequest) (resp : http_response)
    (size : option Z) :
  requests_get env (drive_url req) (drive_auth req) = Return resp ->
  status_code resp = 200%Z ->
  resp_content resp <> [] ->
  main.req_filename req <> [] ->
  (main.extract_from_drive env req).2
  = (main.extract env
       {| main.file_size := size; main.file_content := resp_content resp |}
       (main.req_mime_type req) (Some (main.req_filename req))).2.
Proof.
  intros Hget Hstatus Hne Hname.
  unfold main.extract_from_drive, main.extract, drive_url, drive_auth in *.
  destruct (main.EXTRACTORS env !! main.req_mime_type req) as [f|]; [|done].
  rewrite Hget, Hstatus. simpl.
  destruct (resp_content resp) as [|c b]; [done|].
  destruct (main.req_filename req) as [|c' fn] eqn:Hfn; [done|]. simpl.
  unfold main.run_extractor. simpl.
  by destruct (f (c :: b) (c' :: fn)) as [t [d|e]].
Qed.

(** The statement above, where Drive serves bytes that are not a
    PDF. *)
Lemma drive_answers_like_upload_witness :
  let env := {| decode_utf8_replace := ascii_decode;
                fitz_open := sample_fitz_open;
                docx_Document := sample_docx_Document;
                openpyxl_load_workbook := sample_load_workbook;
                pptx_Presentation := sample_pptx_Presentation;
                nbformat_reads_cells := fun _ => Raise (sample_error "no nbformat");
                json_loads := sample_json_loads;
                bs4_BeautifulSoup := None;
                OCR_AVAILABLE := false;
                PILImage_open := fun _ => Raise (sample_error "no PIL");
                PILImage_convert_RGB := fun img => Return img;
                pytesseract_image_to_string := fun _ => Return [];
                requests_get := fun _ _ =>
                  Return {| status_code := 200; resp_text := u "garbage";
                            resp_content := u "garbage" |} |} in
  let req := {| main.req_file_id := u "1a2b"; main.req_access_token := u "token";
                main.req_mime_type := main.MIME_PDF;
                main.req_filename := u "a.pdf" |} in
  (main.extract_from_drive env req).2
  = (main.extract env (upload (u "garbage")) main.MIME_PDF (Some (u "a.pdf"))).2.
Proof.
  intros env req.
  apply (drive_answers_like_upload env req
           {| status_code := 200; resp_text := u "garbage";
              resp_content := u "garbage" |} (Some 7%Z));
    first [reflexivity | discriminate].
Defined.

(** ** The notebook strategy: what is absorbed and what is not *)

Lemma cells_loop_app before rest parts :
  Forall (fun c => is_Some (cell_source c)) before ->
  notebook.cells_loop (before ++ rest) parts
  = notebook.cells_loop rest (parts ++ concat (cell_output <$> before)).
Proof.
  intros Hwf. revert parts.
  induction Hwf as [|cell before' [s Hs] _ IH]; intros parts.
  - simpl. by rewrite app_nil_r.
  - cbn [app notebook.cells_loop].
    rewrite (cell_step_spec cell parts s Hs), bind_ret_l, IH.
    rewrite fmap_cons. simpl. by rewrite <- app_assoc.
Qed.

(** When the schema-aware parser fails, the plain JSON path decides: a
    buffer that is not JSON, and a JSON document that is not an object,
    both come back as a [[Notebook Error]] text with [page_count = 0] and
    the cause; a JSON object without a [cells] key is an empty notebook,
    whose text is the title line alone. *)
Theorem notebook_fallback_outcomes
    (env : Env) (file_bytes : bytes) (filename : str) (e0 : exn) :
  nbformat_reads_cells env (decode_utf8_replace env file_bytes) = Raise e0 ->
  let trace := [EvLib nbformat_reads_; EvLib json_loads_] in
  let error_result (e : exn) :=
    {| r_text := Some (u "[Notebook Error] Could not parse " ++ filename
                         ++ u ": " ++ exn_str e);
       r_page_count := Some 0%Z;
       r_metadata := None |} in
  (forall e,
     json_loads env (decode_utf8_replace env file_bytes) = Raise e ->
     notebook.extract env file_bytes filename = (trace, Return (error_result e)))
  /\ (forall raw,
        json_loads env (decode_utf8_replace env file_bytes) = Return raw ->
        is_object raw = false ->
        notebook.extract env file_bytes filename
        = (trace, Return (error_result (no_attribute raw "get"))))
  /\ (forall items,
        json_loads env (decode_utf8_replace env file_bytes) = Return (JObj items) ->
        notebook.dict_get items (u "cells") = None ->
        notebook.extract env file_bytes filename
        = (trace,
           Return {| r_text := Some (u "# Jupyter Notebook: " ++ filename ++ nl);
                     r_page_count := Some 0%Z;
                     r_metadata := None |})).
Proof.
  intros Hnb trace error_result.
  unfold notebook.extract, try_except, call, bind. rewrite Hnb.
  split; [|split].
  - intros e ->. reflexivity.
  - intros raw -> Hraw. by destruct raw.
  - intros items -> Hcells. simpl. rewrite Hcells. reflexivity.
Qed.

(** The statement above, on the sample environment, for bytes that
    are not JSON. *)
Lemma notebook_fallback_outcomes_witness :
  notebook.extract sample_env (u "not json") (u "nb.ipynb")
  = ([EvLib nbformat_reads_; EvLib json_loads_],
     Return {| r_text := Some (u "[Notebook Error] Could not parse nb.ipynb: Expecting value: line 1 column 1 (char 0)");
               r_page_count := Some 0%Z;
               r_metadata := None |}).
Proof.
  destruct (notebook_fallback_outcomes sample_env (u "not json") (u "nb.ipynb")
              (sample_error "No module named 'nbformat'") eq_refl) as [H _].
  apply (H (sample_error "Expecting value: line 1 column 1 (char 0)")).
  reflexivity.
Defined.

(** The cell loop is not guarded: a notebook that parses but has an item
    among its cells that is not an object makes the strategy raise an
    [AttributeError] when the loop reaches it, after well-formed cells
    before it, and the dispatcher answers a notebook upload of it with
    [ExtractionFailed] rather than with a [[Notebook Error]] text. *)
Theorem notebook_malformed_cell_escapes
    (env : Env) (file : main.UploadFile) (mime_type : str)
    (filename : option str) (before after : list json) (v : json) :
  mime_type ∈ NOTEBOOK_MIME_TYPES ->
  main.file_content file <> [] ->
  parses_as_notebook env (main.file_content file) (before ++ v :: after) ->
  Forall (fun c => is_Some (cell_source c)) before ->
  is_object v = false ->
  (exists t,
     notebook.extract env (main.file_content file)
       (main.filename_or_unknown filename)
     = (t, Raise (no_attribute v "get")))
  /\ (main.extract env file mime_type filename).2
     = ExtractionFailed (take 300 (exn_str (no_attribute v "get"))).
Proof.
  intros Hmime Hne Hparse Hwf Hv.
  assert (Hrender : forall fn,
            notebook.render (JArr (before ++ v :: after)) fn
            = ([], Raise (no_attribute v "get"))).
  { intros fn. unfold notebook.render, notebook.py_iter.
    rewrite bind_ret_l, (cells_loop_app before (v :: after) _ Hwf).
    cbn [notebook.cells_loop]. unfold notebook.cell_step.
    by destruct v. }
  assert (Hrun : exists t,
            notebook.extract env (main.file_content file)
              (main.filename_or_unknown filename)
            = (t, Raise (no_attribute v "get"))).
  { unfold notebook.extract, try_except, call.
    destruct Hparse as [H | (e & items & H1 & H2 & H3)].
    - rewrite H, Hrender. simpl. eauto.
    - rewrite H1. unfold bind. rewrite H2. simpl. rewrite H3, Hrender.
      simpl. eauto. }
  split; [exact Hrun|]. destruct Hrun as [t Hrun].
  destruct (main.file_content file) as [|c b] eqn:Hb; [done|].
  rewrite (extract_dispatch env file mime_type filename (notebook.extract env)
             c b (notebook_registry env mime_type Hmime) Hb).
  by rewrite (run_extractor_raise _ _ _ _ _ _ _ Hrun).
Qed.

(** The statement above, on a notebook whose cells are the
    number 1 alone. *)
Lemma notebook_malformed_cell_escapes_witness :
  let env := {| decode_utf8_replace := ascii_decode;
                fitz_open := sample_fitz_open;
                docx_Document := sample_docx_Document;
                openpyxl_load_workbook := sample_load_workbook;
                pptx_Presentation := sample_pptx_Presentation;
                nbformat_reads_cells := fun _ => Raise (sample_error "no nbformat");
                json_loads := fun _ => Return (JObj [(u "cells", JArr [JInt 1])]);
                bs4_BeautifulSoup := None;
                OCR_AVAILABLE := false;
                PILImage_open := fun _ => Raise (sample_error "no PIL");
                PILImage_convert_RGB := fun img => Return img;
                pytesseract_image_to_string := fun _ => Return [];
                requests_get := fun _ _ => Raise (sample_error "offline") |} in
  (main.extract env (upload (u "{cells: [1]}")) (u "application/json") None).2
  = ExtractionFailed (u "'int' object has no attribute 'get'").
Proof.
  intros env.
  destruct (notebook_malformed_cell_escapes env (upload (u "{cells: [1]}"))
              (u "application/json") None [] [] (JInt 1)) as [_ H].
  - decide_closed.
  - discriminate.
  - right. eexists _, _. split; [reflexivity|]. split; reflexivity.
  - constructor.
  - reflexivity.
  - exact H.
Defined.

(** ** The HTML strategy without the parsing library *)

Lemma split_ws_go_words cur s :
  Forall (fun c => isspace c = false) cur ->
  Forall is_word (split_ws_go cur s).
Proof.
  revert cur. induction s as [|c r IH]; intros cur Hcur; simpl.
  - destruct cur as [|d cur']; simpl; [constructor|].
    constructor; [|constructor]. split.
    + rewrite reverse_cons. by destruct (reverse cur').
    + by apply Forall_reverse.
  - destruct (isspace c) eqn:Hc.
    + apply Forall_app. split; [|apply IH; constructor].
      destruct cur as [|d cur']; simpl; [constructor|].
      constructor; [|constructor]. split.
      * rewrite reverse_cons. by destruct (reverse cur').
      * by apply Forall_reverse.
    + apply IH. by constructor.
Qed.

Lemma lstrip_fixed s :
  (forall c, head s = Some c -> isspace c = false) -> lstrip s = s.
Proof.
  destruct s as [|c r]; [done|]. intros H. simpl. by rewrite (H c eq_refl).
Qed.

Lemma strip_fixed s :
  (forall c, head s = Some c -> isspace c = false) ->
  (forall c, last s = Some c -> isspace c = false) ->
  strip s = s.
Proof.
  intros Hh Hl. unfold strip, rstrip. rewrite (lstrip_fixed s Hh).
  rewrite lstrip_fixed; [apply reverse_involutive|].
  intros c Hc. apply Hl. by rewrite <- head_reverse.
Qed.

Lemma join_words_head sep w ws c :
  is_word w -> head (join sep (w :: ws)) = Some c -> isspace c = false.
Proof.
  intros [Hne Hw]. destruct w as [|d w']; [done|].
  apply Forall_cons in Hw as [Hd _].
  simpl. destruct ws; simpl; by intros [= <-].
Qed.

Lemma join_words_last sep words :
  Forall is_word words -> words <> [] ->
  exists c, last (join sep words) = Some c /\ isspace c = false.
Proof.
  induction 1 as [|w ws [Hne Hw] _ IH]; [done|]. intros _.
  destruct ws as [|w' ws'].
  - simpl. destruct (last w) as [c|] eqn:Hl.
    + exists c. split; [done|].
      rewrite Forall_forall in Hw. apply Hw.
      apply last_Some in Hl as [l' ->]. apply elem_of_app. right. left.
    + by apply last_None in Hl.
  - destruct (IH ltac:(done)) as (c & Hc & Hs). exists c. split; [|done].
    change (join sep (w :: w' :: ws')) with (w ++ sep ++ join sep (w' :: ws')).
    by rewrite !last_app, Hc.
Qed.

Lemma join_words_chars words :
  Forall is_word words ->
  Forall (fun c => isspace c = false \/ c = 32%N) (join (u " ") words).
Proof.
  induction 1 as [|w ws [_ Hw] _ IH]; [constructor|].
  assert (Hw' : Forall (fun c => isspace c = false \/ c = 32%N) w)
    by (eapply Forall_impl; [exact Hw | by left]).
  destruct ws as [|w' ws']; [done|].
  change (join (u " ") (w :: w' :: ws'))
    with (w ++ u " " ++ join (u " ") (w' :: ws')).
  apply Forall_app. split; [done|]. apply Forall_app. split; [|done].
  constructor; [by right | constructor].
Qed.

(** When the parsing library cannot be imported the strategy does not
    raise and calls no library.  Its text is the words of the input after
    the tag substitution, joined by single spaces: every whitespace
    character of the text is a space, and the text has no whitespace at
    either end, so stripping leaves it as it is. *)
Theorem html_fallback_text_is_words
    (env : Env) (file_bytes : bytes) (filename : str) :
  bs4_BeautifulSoup env = None ->
  exists words,
    html_extractor.extract env file_bytes filename
    = ([], Return {| r_text := Some (join (u " ") words);
                     r_page_count := Some 0%Z;
                     r_metadata := None |})
    /\ words = split_ws (html_extractor.re_sub_tags
                           (decode_utf8_replace env file_bytes))
    /\ Forall is_word words
    /\ Forall (fun c => isspace c = false \/ c = 32%N) (join (u " ") words)
    /\ strip (join (u " ") words) = join (u " ") words.
Proof.
  intros Himport. unfold html_extractor.extract. rewrite Himport.
  eexists. split; [reflexivity|]. split; [reflexivity|].
  assert (Hwords : Forall is_word
                     (split_ws (html_extractor.re_sub_tags
                                  (decode_utf8_replace env file_bytes))))
    by (apply split_ws_go_words; constructor).
  split; [exact Hwords|]. split; [by apply join_words_chars|].
  destruct (split_ws _) as [|w ws]; [done|].
  apply strip_fixed.
  - intros c. apply join_words_head. by apply Forall_cons in Hwords as [? _].
  - intros c Hc. destruct (join_words_last (u " ") (w :: ws) Hwords ltac:(done))
      as (c' & Hc' & Hs). congruence.
Qed.

(** The statement above, on the sample environment without the
    library. *)
Lemma html_fallback_text_is_words_witness :
  html_extractor.extract sample_env_without_bs4
    (u "<h1>A  title</h1>" ++ nl ++ u "<p> text </p>") (u "page.html")
  = ([], Return {| r_text := Some (u "A title text");
                   r_page_count := Some 0%Z;
                   r_metadata := None |}).
Proof.
  destruct (html_fallback_text_is_words sample_env_without_bs4
              (u "<h1>A  title</h1>" ++ nl ++ u "<p> text </p>") (u "page.html")
              eq_refl) as (words & Hrun & -> & _).
  exact Hrun.
Defined.

Lemma find_gt_None s : 62%N ∉ s -> html_extractor.find_gt s = None.
Proof.
  induction s as [|c r IH]; [done|]. intros Hnot. simpl.
  destruct (N.eqb_spec c 62) as [-> | Hc].
  - exfalso. apply Hnot. left.
  - rewrite IH; [done|]. intros Hin. apply Hnot. by right.
Qed.

Lemma re_sub_go_length skip s :
  (length (html_extractor.re_sub_go skip s) <= length s)%nat.
Proof.
  revert skip. induction s as [|c r IH]; intros skip; simpl; [lia|].
  destruct skip as [|k].
  - destruct (c =? 60)%N.
    + destruct (html_extractor.find_gt r) as [[|n]|]; simpl;
        [ specialize (IH 0%nat) | specialize (IH (S (S n))) | specialize (IH 0%nat) ];
        lia.
    + simpl. specialize (IH 0%nat). lia.
  - specialize (IH k). lia.
Qed.

(** The tag substitution of the fallback never makes the text longer,
    and it changes nothing in a text without [<] or without [>]: an
    opening bracket that is never closed stays in the output with all that
    follows it. *)
Theorem re_sub_tags_only_touches_closed_tags (s : str) :
  (length (html_extractor.re_sub_tags s) <= length s)%nat
  /\ (60%N ∉ s \/ 62%N ∉ s -> html_extractor.re_sub_tags s = s).
Proof.
  split; [apply re_sub_go_length|].
  unfold html_extractor.re_sub_tags. intros [Hlt | Hgt].
  - induction s as [|c r IH]; [done|]. simpl.
    destruct (N.eqb_spec c 60) as [-> | Hc].
    + exfalso. apply Hlt. left.
    + rewrite IH; [done|]. intros Hin. apply Hlt. by right.
  - induction s as [|c r IH]; [done|]. simpl.
    assert (Hr : 62%N ∉ r) by (intros Hin; apply Hgt; by right).
    rewrite (find_gt_None r Hr), (IH Hr). by destruct (c =? 60)%N.
Qed.

(** The statement above, on a comparison that is not a
    tag. *)
Lemma re_sub_tags_only_touches_closed_tags_witness :
  html_extractor.re_sub_tags (u "if a < b then c") = u "if a < b then c".
Proof.
  apply (re_sub_tags_only_touches_closed_tags (u "if a < b then c")).
  right. intros Hin. apply (bool_decide_pack _) in Hin. vm_compute in Hin.
  exact Hin.
Defined.

(** ** The health endpoint *)

Lemma extract_status_415 env file mime filename :
  status_of (main.extract env file mime filename).2 = Some 415%Z
  <-> main.EXTRACTORS env !! mime = None.
Proof.
  unfold main.extract.
  destruct (main.EXTRACTORS env !! mime) as [f|]; [|done].
  destruct (main.file_content file) as [|c b]; [done|].
  unfold main.run_extractor. simpl.
  by destruct (f (c :: b) (main.filename_or_unknown filename)) as [t [d|e]].
Qed.


(** [GET /health] reports the fourteen keys of the registry, each once,
    and they are exactly the MIME types [POST /extract] does not answer
    with 415; the OCR flag it reports is the one the image strategy
    consults. *)
Theorem health_lists_the_accepted_types (env : Env) :
  health_status (health env) = u "ok"
  /\ length (health_supported_types (health env)) = 14%nat
  /\ NoDup (health_supported_types (health env))
  /\ (forall mime file filename,
        mime ∈ health_supported_types (health env)
        <-> status_of (main.extract env file mime filename).2 <> Some 415%Z)
  /\ (health_ocr_available (health env) = false ->
      forall b fn,
        image.extract env b fn
        = ([], Return {| r_text := Some (image.NO_OCR_TEXT fn);
                         r_page_count := Some 0%Z;
                         r_metadata := None |})).
Proof.
  split; [reflexivity|]. split; [reflexivity|]. split; [|split].
  - cbn [health health_supported_types main.EXTRACTORS_items fmap list_fmap fst].
    apply (bool_decide_unpack _). by vm_compute.
  - intros mime file filename. cbn [health health_supported_types].
    rewrite <- EXTRACTORS_keys, extract_status_415. split.
    + intros [f Hf] Hnone. rewrite Hf in Hnone. discriminate Hnone.
    + intros Hn. destruct (main.EXTRACTORS env !! mime); [eauto | done].
  - simpl. intros Hocr b fn. unfold image.extract. by rewrite Hocr.
Qed.

(** ** The HTML strategy: the blank-line filter *)

Lemma collapse_blank_keeps_nonblank lines prev_blank :
  List.filter (fun l => negb (is_blank l)) (collapse_blank lines prev_blank)
  = List.filter (fun l => negb (is_blank l)) lines.
Proof.
  revert prev_blank. induction lines as [|line rest IH]; intros prev_blank;
    [done|].
  cbn [collapse_blank List.filter].
  destruct (is_blank line) eqn:Hb; cbn [andb negb].
  - destruct prev_blank; [apply IH|].
    cbn [List.filter]. rewrite Hb. apply IH.
  - cbn [List.filter]. rewrite Hb. cbn [negb]. by rewrite IH.
Qed.

Lemma collapse_blank_sublist lines prev_blank :
  collapse_blank lines prev_blank `sublist_of` lines.
Proof.
  revert prev_blank. induction lines as [|line rest IH]; intros prev_blank;
    [done|].
  cbn [collapse_blank]. destruct (is_blank line && prev_blank).
  - apply sublist_cons, IH.
  - apply sublist_skip, IH.
Qed.

(** The loop under [# Deduplicate consecutive blank lines], on any list of
    entries: its result is the input with some blank entries left out,
    every non-blank entry kept in order, and no two blank entries follow
    each other in it. *)
Theorem dedup_loop_collapses_blank_entries (lines : list str) :
  html_extractor.dedup_loop lines false [] `sublist_of` lines
  /\ List.filter (fun l => negb (is_blank l))
       (html_extractor.dedup_loop lines false [])
     = List.filter (fun l => negb (is_blank l)) lines
  /\ (max_blank_run_go 0 (html_extractor.dedup_loop lines false []) <= 1)%nat.
Proof.
  rewrite dedup_loop_collapse. cbn [app]. split; [|split].
  - apply collapse_blank_sublist.
  - apply collapse_blank_keeps_nonblank.
  - apply (collapse_blank_run lines false).
Qed.

(** On the parsing path every entry the traversal collects has text, so
    the blank-line filter has nothing to drop: the text of the strategy is
    all collected entries joined by line feeds. *)
Theorem html_parsing_path_joins_all_entries
    (env : Env) (file_bytes : bytes) (filename : str)
    (BeautifulSoup : str -> outcome node) (soup : node) :
  bs4_BeautifulSoup env = Some BeautifulSoup ->
  BeautifulSoup (decode_utf8_replace env file_bytes) = Return soup ->
  html_extractor.extract env file_bytes filename
  = ([EvLib bs4_BeautifulSoup_],
     Return {| r_text := Some (join nl (html_lines soup));
               r_page_count := Some 0%Z;
               r_metadata := None |})
  /\ Forall (fun l => is_blank l = false) (html_lines soup)
  /\ html_extractor.dedup_loop (html_lines soup) false [] = html_lines soup.
Proof.
  intros Himport Hparse.
  assert (Hnb : Forall (fun l => is_blank l = false) (html_lines soup))
    by (apply elements_loop_nonblank; constructor).
  split; [|split].
  - unfold html_extractor.extract, call, bind. rewrite Himport, Hparse.
    by rewrite extract_soup_joins_all_lines.
  - exact Hnb.
  - by rewrite dedup_loop_collapse, collapse_blank_nonblank.
Qed.

(** The statement above, on the sample document of a script and a
    paragraph. *)
Lemma html_parsing_path_joins_all_entries_witness :
  html_extractor.extract sample_env SCRIPT_AND_PARAGRAPH (u "page.html")
  = ([EvLib bs4_BeautifulSoup_],
     Return {| r_text := Some (join nl [u "Hello"]);
               r_page_count := Some 0%Z;
               r_metadata := None |}).
Proof.
  destruct (html_parsing_path_joins_all_entries sample_env SCRIPT_AND_PARAGRAPH
              (u "page.html") sample_BeautifulSoup script_and_paragraph_soup
              eq_refl eq_refl) as [H _].
  exact H.
Defined.

(** ** The HTML strategy: the level of a heading *)

Lemma heading_name_tests name :
  name ∈ html_extractor.HEADINGS ->
  bool_decide (name ∈ html_extractor.NON_CONTENT) = false
  /\ bool_decide (name = u "article") = false
  /\ bool_decide (name = u "main") = false
  /\ bool_decide (name = u "body") = false.
Proof.
  unfold html_extractor.HEADINGS. intros Hin.
  repeat (apply elem_of_cons in Hin as [-> | Hin]);
    try (by vm_compute).
  by apply elem_of_nil in Hin.
Qed.

Lemma heading_descendants n1 :
  forall n2, same_up_to_heading_level n1 n2 ->
             Forall2 same_up_to_heading_level
               (html_extractor.descendants n1) (html_extractor.descendants n2).
Proof.
  induction n1 as [k s|name children IH] using node_tree_ind.
  - intros n2 Hrel. inversion Hrel; subst. constructor.
  - assert (Hch : forall children2,
              Forall2 same_up_to_heading_level children children2 ->
              Forall2 same_up_to_heading_level
                (children ≫= (fun c => c :: html_extractor.descendants c))
                (children2 ≫= (fun c => c :: html_extractor.descendants c))).
    { intros children2 Hch. apply Forall2_bind.
      induction Hch as [|c1 c2 r1 r2 Hc _ IHr]; [constructor|].
      apply Forall_cons in IH as [IHc IHrest].
      constructor; [|by apply IHr]. constructor; [done | by apply IHc]. }
    intros n2 Hrel.
    inversion Hrel; subst; rewrite !descendants_Tag; by apply Hch.
Qed.

Lemma heading_stripped_strings l1 l2 :
  Forall2 same_up_to_heading_level l1 l2 ->
  html_extractor.stripped_strings l1 = html_extractor.stripped_strings l2.
Proof.
  induction 1 as [|n1 n2 r1 r2 Hn _ IH]; [done|].
  inversion Hn; subst; simpl; by rewrite IH.
Qed.

Lemma heading_get_text n1 n2 :
  same_up_to_heading_level n1 n2 ->
  html_extractor.get_text n1 = html_extractor.get_text n2.
Proof.
  intros Hrel. unfold html_extractor.get_text.
  by rewrite (heading_stripped_strings _ _ (heading_descendants n1 n2 Hrel)).
Qed.

Lemma heading_kept n1 :
  forall n2, same_up_to_heading_level n1 n2 ->
             Forall2 same_up_to_heading_level
               (kept html_extractor.NON_CONTENT n1)
               (kept html_extractor.NON_CONTENT n2).
Proof.
  induction n1 as [k s|name children IH] using node_tree_ind.
  - intros n2 Hrel. inversion Hrel; subst. repeat constructor.
  - assert (Hch : forall children2,
              Forall2 same_up_to_heading_level children children2 ->
              Forall2 same_up_to_heading_level
                (children ≫= kept html_extractor.NON_CONTENT)
                (children2 ≫= kept html_extractor.NON_CONTENT)).
    { intros children2 Hch. apply Forall2_bind.
      induction Hch as [|c1 c2 r1 r2 Hc _ IHr]; [constructor|].
      apply Forall_cons in IH as [IHc IHrest].
      constructor; [by apply IHc | by apply IHr]. }
    intros n2 Hrel.
    inversion Hrel as [|? ? children2 Hcs|? name2 ? children2 H1 H2 Hcs]; subst;
      unfold kept.
    + destruct (bool_decide _); [constructor|].
      constructor; [|constructor]. rewrite !decompose_all_Tag.
      apply heading_same_tag. by apply Hch.
    + destruct (heading_name_tests name H1) as (-> & _).
      destruct (heading_name_tests name2 H2) as (-> & _).
      constructor; [|constructor]. rewrite !decompose_all_Tag.
      apply heading_other_level; [done..|]. by apply Hch.
Qed.

Lemma heading_decompose_all n1 n2 :
  same_up_to_heading_level n1 n2 ->
  same_up_to_heading_level
    (html_extractor.decompose_all html_extractor.NON_CONTENT n1)
    (html_extractor.decompose_all html_extractor.NON_CONTENT n2).
Proof.
  intros Hrel.
  assert (Hch : forall children1 children2,
            Forall2 same_up_to_heading_level children1 children2 ->
            Forall2 same_up_to_heading_level
              (children1 ≫= kept html_extractor.NON_CONTENT)
              (children2 ≫= kept html_extractor.NON_CONTENT)).
  { intros children1 children2 Hch. apply Forall2_bind.
    eapply Forall2_impl; [exact Hch|]. intros c1 c2. apply heading_kept. }
  inversion Hrel; subst.
  - constructor.
  - rewrite !decompose_all_Tag. apply heading_same_tag. by apply Hch.
  - rewrite !decompose_all_Tag. apply heading_other_level; [done..|].
    by apply Hch.
Qed.

Lemma heading_find n1 n2 name :
  same_up_to_heading_level n1 n2 ->
  name ∉ html_extractor.HEADINGS ->
  option_Forall2 same_up_to_heading_level
    (html_extractor.find n1 name) (html_extractor.find n2 name).
Proof.
  intros Hrel Hname. unfold html_extractor.find.
  pose proof (heading_descendants n1 n2 Hrel) as Hd.
  induction Hd as [|c1 c2 r1 r2 Hc _ IH]; [constructor|].
  simpl.
  assert (Htest : html_extractor.is_tag_named name c1
                  = html_extractor.is_tag_named name c2).
  { inversion Hc as [| |name1 name2 ? ? H1 H2]; subst; simpl; [done..|].
    rewrite !bool_decide_eq_false_2; [done| |]; by intros ->. }
  rewrite <- Htest. destruct (html_extractor.is_tag_named name c1); [|done].
  simpl. by constructor.
Qed.

Lemma heading_elements_loop l1 l2 :
  Forall2 same_up_to_heading_level l1 l2 ->
  forall lines,
    html_extractor.elements_loop l1 lines = html_extractor.elements_loop l2 lines.
Proof.
  induction 1 as [|n1 n2 r1 r2 Hn _ IH]; intros lines; [done|].
  pose proof (heading_get_text n1 n2 Hn) as Htext.
  inversion Hn as [| |name1 name2 ? ? H1 H2]; subst;
    cbn [html_extractor.elements_loop]; cbv zeta; rewrite <- ?Htext.
  - apply IH.
  - destruct (truthy (html_extractor.get_text (Tag name children1)));
      repeat (destruct (bool_decide _); cbn [orb]); apply IH.
  - rewrite !bool_decide_eq_true_2 by done.
    destruct (truthy (html_extractor.get_text (Tag name1 children1)));
      apply IH.
Qed.

(** On the parsing path the level of a heading is not kept: two trees that
    differ only in the levels of their heading elements ([h1] against
    [h3], say) give the same result, every heading coming out as a [##]
    line. *)
Theorem html_heading_level_is_discarded (soup1 soup2 : node) :
  same_up_to_heading_level soup1 soup2 ->
  html_extractor.extract_soup soup1 = html_extractor.extract_soup soup2.
Proof.
  intros Hrel. unfold html_extractor.extract_soup. do 4 f_equal.
  pose proof (heading_decompose_all soup1 soup2 Hrel) as Hd.
  assert (Harticle := heading_find _ _ (u "article") Hd ltac:(refute_closed)).
  assert (Hmain := heading_find _ _ (u "main") Hd ltac:(refute_closed)).
  assert (Hbody := heading_find _ _ (u "body") Hd ltac:(refute_closed)).
  apply heading_elements_loop, heading_descendants.
  destruct Harticle; [done|]. destruct Hmain; [done|]. by destruct Hbody.
Qed.

(** The statement above, on the two sample documents of two
    headings. *)
Lemma html_heading_level_is_discarded_witness :
  html_extractor.extract_soup two_headings_soup
  = html_extractor.extract_soup two_headings_other_levels_soup.
Proof.
  apply (html_heading_level_is_discarded two_headings_soup
           two_headings_other_levels_soup).
  repeat first
    [ apply Forall2_nil_2 | apply Forall2_cons_2 | apply heading_string
    | apply heading_other_level; [decide_closed | decide_closed |]
    | apply heading_same_tag ].
Defined.

(** ** An empty download *)

(** The Drive endpoint where Drive serves an empty file: the PDF strategy
    is called on the empty buffer, while the upload endpoint refuses the
    same buffer as empty. *)
Lemma extract_from_drive_calls_extractor_on_empty_content_witness :
  let env := {| decode_utf8_replace := ascii_decode;
                fitz_open := sample_fitz_open;
                docx_Document := sample_docx_Document;
                openpyxl_load_workbook := sample_load_workbook;
                pptx_Presentation := sample_pptx_Presentation;
                nbformat_reads_cells := fun _ => Raise (sample_error "no nbformat");
                json_loads := sample_json_loads;
                bs4_BeautifulSoup := None;
                OCR_AVAILABLE := false;
                PILImage_open := fun _ => Raise (sample_error "no PIL");
                PILImage_convert_RGB := fun img => Return img;
                pytesseract_image_to_string := fun _ => Return [];
                requests_get := fun _ _ =>
                  Return {| status_code := 200; resp_text := [];
                            resp_content := [] |} |} in
  let req := {| main.req_file_id := u "1a2b"; main.req_access_token := u "token";
                main.req_mime_type := main.MIME_PDF;
                main.req_filename := u "a.pdf" |} in
  EvCallExtractor main.MIME_PDF [] (u "a.pdf")
  ∈ (main.extract_from_drive env req).1
  /\ (main.extract env (upload []) main.MIME_PDF (Some (u "a.pdf"))).2
     = EmptyInput.
Proof.
  intros env req. split; [|reflexivity].
  apply (extract_from_drive_calls_extractor_on_empty_content env req
           (pdf.extract env)
           {| status_code := 200; resp_text := []; resp_content := [] |});
    reflexivity.
Defined.
